(** * Author attribution notebook (Lesson 05): a shallow embedding

    The notebook [author_attribution] reads the papers of two known
    authors, encodes them character by character, cuts the encodings into
    windows of [SEQ_LEN] characters, trains a classifier on the windows and
    attributes every unknown paper by a majority vote over its windows.

    This file embeds the notebook's own code: [preprocess_text],
    [make_subsequences], the stacking and reshaping of the arrays, and the
    vote-predict loop.  The Python built-ins it calls ([str.replace],
    [str.split], [str.join], [str.lower], [str.isspace], [open],
    [readlines], [os.listdir], list slicing) and the NumPy operations
    ([np.zeros], row assignment with its conversion to [float64],
    [np.vstack], [reshape], [np.sum]) are written out as executable
    functions.  Strings are sequences of Unicode code points, with the
    character properties of the Unicode database of CPython 3.11
    (Unicode 14.0.0).  The learning library (tokenizer, [train_test_split],
    the Keras model) is taken as a parameter of the development: a call of
    it is recorded in the trace of the run and gives what the library
    returns. *)

From Stdlib Require Import ZArith Ascii String List Lia Bool.
From Stdlib Require Import Floats.PrimFloat.
From Stdlib Require Import Numbers.DecimalString.
From stdpp Require Import base list strings gmap.

Local Open Scope Z_scope.

(** ** Python strings

    A Python [str] is a sequence of Unicode code points; a code point is
    written as its number, of type [Z].  [lit] gives the string of a
    literal of this file, all of which are ASCII. *)

Abbreviation str := (list Z).

Definition lit (s : string) : str :=
  map (fun a => Z.of_nat (nat_of_ascii a)) (list_ascii_of_string s).

(** ** Exceptions and results

    A call returns a value or raises; nothing in the notebook catches. *)

Inductive exn : Type :=
| ValueError
| IndexError
| FileNotFoundError
| NotADirectoryError
| IsADirectoryError
| PermissionError
| OverflowError
| UnicodeDecodeError.

Inductive result (T : Type) : Type :=
| Ok (a : T)
| Raise (e : exn).
Arguments Ok {T} a.
Arguments Raise {T} e.

#[global] Instance result_ret : MRet result := fun _ a => Ok a.
#[global] Instance result_bind : MBind result := fun _ _ k r =>
  match r with
  | Ok a => k a
  | Raise e => Raise e
  end.

(** [for i in l: s = body(i, s)], where the body may raise. *)
Fixpoint for_each {I S : Type} (body : I -> S -> result S) (l : list I) (s : S)
  : result S :=
  match l with
  | [] => Ok s
  | i :: l' =>
      match body i s with
      | Ok s' => for_each body l' s'
      | Raise e => Raise e
      end
  end.

(** ** The built-ins of Python the notebook calls *)

Module Py.

Definition LF : Z := 10.
Definition CR : Z := 13.
Definition SP : Z := 32.

(** [s.startswith(p)] *)
Fixpoint startswith (p s : str) : bool :=
  match p, s with
  | [], _ => true
  | _ :: _, [] => false
  | a :: p', b :: s' => if decide (a = b) then startswith p' s' else false
  end.

(** [p in s] for strings: some suffix of [s] starts with [p]. *)
Fixpoint contains (p s : str) : bool :=
  match s with
  | [] => startswith p []
  | _ :: s' => startswith p s || contains p s'
  end.

(** The scan of [str.replace]: left to right, at every position where
    [old] starts the replacement is emitted and the scan resumes after
    the occurrence ([skip] counts the characters of the occurrence that
    are still to be passed over). *)
Fixpoint replace_scan (old new : str) (skip : nat) (s : str) : str :=
  match s with
  | [] => []
  | c :: s' =>
      match skip with
      | S k => replace_scan old new k s'
      | O =>
          if startswith old s
          then new ++ replace_scan old new (Nat.pred (length old)) s'
          else c :: replace_scan old new O s'
      end
  end.

(** [s.replace(old, new)].  An empty [old] matches between all
    characters and at both ends. *)
Definition replace (old new s : str) : str :=
  match old with
  | [] => new ++ flat_map (fun c => c :: new) s
  | _ :: _ => replace_scan old new O s
  end.

(** *** The character database

    [str.isspace], [str.isupper] and [str.lower] read the properties of a
    character from the Unicode character database that is compiled into
    the interpreter.  The tables below are those of CPython 3.11 (Unicode
    14.0.0).  A run [(lo, hi, step)] stands for the code points [lo],
    [lo + step], ... up to [hi]; a run [(lo, hi, step, delta)] of the
    lower-case table maps each of them to the code point [delta] further
    on. *)

Definition in_run (r : Z * Z * Z) (c : Z) : bool :=
  let '(lo, hi, step) := r in
  (lo <=? c) && (c <=? hi) && ((c - lo) mod step =? 0).

Definition in_table (t : list (Z * Z * Z)) (c : Z) : bool :=
  existsb (fun r => in_run r c) t.

Fixpoint lower_delta (t : list (Z * Z * Z * Z)) (c : Z) : Z :=
  match t with
  | [] => 0
  | (lo, hi, step, delta) :: t' =>
      if in_run (lo, hi, step) c then delta else lower_delta t' c
  end.

Definition whitespace_table : list (Z * Z * Z) :=
  [
    (9, 13, 1); (28, 32, 1); (133, 133, 1); (160, 160, 1); (5760, 5760, 1); (8192, 8202, 1);
    (8232, 8233, 1); (8239, 8239, 1); (8287, 8287, 1); (12288, 12288, 1) ].

Definition lowercase_table : list (Z * Z * Z * Z) :=
  [
    (65, 90, 1, 32); (192, 214, 1, 32); (216, 222, 1, 32); (256, 302, 2, 1); (306, 310, 2, 1);
    (313, 327, 2, 1); (330, 374, 2, 1); (376, 376, 1, (-121)); (377, 381, 2, 1); (385, 385, 1, 210);
    (386, 388, 2, 1); (390, 390, 1, 206); (391, 391, 1, 1); (393, 394, 1, 205); (395, 395, 1, 1);
    (398, 398, 1, 79); (399, 399, 1, 202); (400, 400, 1, 203); (401, 401, 1, 1); (403, 403, 1, 205);
    (404, 404, 1, 207); (406, 406, 1, 211); (407, 407, 1, 209); (408, 408, 1, 1); (412, 412, 1, 211);
    (413, 413, 1, 213); (415, 415, 1, 214); (416, 420, 2, 1); (422, 422, 1, 218); (423, 423, 1, 1);
    (425, 425, 1, 218); (428, 428, 1, 1); (430, 430, 1, 218); (431, 431, 1, 1); (433, 434, 1, 217);
    (435, 437, 2, 1); (439, 439, 1, 219); (440, 440, 1, 1); (444, 444, 1, 1); (452, 452, 1, 2);
    (453, 453, 1, 1); (455, 455, 1, 2); (456, 456, 1, 1); (458, 458, 1, 2); (459, 475, 2, 1);
    (478, 494, 2, 1); (497, 497, 1, 2); (498, 500, 2, 1); (502, 502, 1, (-97)); (503, 503, 1, (-56));
    (504, 542, 2, 1); (544, 544, 1, (-130)); (546, 562, 2, 1); (570, 570, 1, 10795); (571, 571, 1, 1);
    (573, 573, 1, (-163)); (574, 574, 1, 10792); (577, 577, 1, 1); (579, 579, 1, (-195)); (580, 580, 1, 69);
    (581, 581, 1, 71); (582, 590, 2, 1); (880, 882, 2, 1); (886, 886, 1, 1); (895, 895, 1, 116);
    (902, 902, 1, 38); (904, 906, 1, 37); (908, 908, 1, 64); (910, 911, 1, 63); (913, 929, 1, 32);
    (931, 939, 1, 32); (975, 975, 1, 8); (984, 1006, 2, 1); (1012, 1012, 1, (-60)); (1015, 1015, 1, 1);
    (1017, 1017, 1, (-7)); (1018, 1018, 1, 1); (1021, 1023, 1, (-130)); (1024, 1039, 1, 80); (1040, 1071, 1, 32);
    (1120, 1152, 2, 1); (1162, 1214, 2, 1); (1216, 1216, 1, 15); (1217, 1229, 2, 1); (1232, 1326, 2, 1);
    (1329, 1366, 1, 48); (4256, 4293, 1, 7264); (4295, 4295, 1, 7264); (4301, 4301, 1, 7264); (5024, 5103, 1, 38864);
    (5104, 5109, 1, 8); (7312, 7354, 1, (-3008)); (7357, 7359, 1, (-3008)); (7680, 7828, 2, 1); (7838, 7838, 1, (-7615));
    (7840, 7934, 2, 1); (7944, 7951, 1, (-8)); (7960, 7965, 1, (-8)); (7976, 7983, 1, (-8)); (7992, 7999, 1, (-8));
    (8008, 8013, 1, (-8)); (8025, 8031, 2, (-8)); (8040, 8047, 1, (-8)); (8072, 8079, 1, (-8)); (8088, 8095, 1, (-8));
    (8104, 8111, 1, (-8)); (8120, 8121, 1, (-8)); (8122, 8123, 1, (-74)); (8124, 8124, 1, (-9)); (8136, 8139, 1, (-86));
    (8140, 8140, 1, (-9)); (8152, 8153, 1, (-8)); (8154, 8155, 1, (-100)); (8168, 8169, 1, (-8)); (8170, 8171, 1, (-112));
    (8172, 8172, 1, (-7)); (8184, 8185, 1, (-128)); (8186, 8187, 1, (-126)); (8188, 8188, 1, (-9)); (8486, 8486, 1, (-7517));
    (8490, 8490, 1, (-8383)); (8491, 8491, 1, (-8262)); (8498, 8498, 1, 28); (8544, 8559, 1, 16); (8579, 8579, 1, 1);
    (9398, 9423, 1, 26); (11264, 11311, 1, 48); (11360, 11360, 1, 1); (11362, 11362, 1, (-10743)); (11363, 11363, 1, (-3814));
    (11364, 11364, 1, (-10727)); (11367, 11371, 2, 1); (11373, 11373, 1, (-10780)); (11374, 11374, 1, (-10749)); (11375, 11375, 1, (-10783));
    (11376, 11376, 1, (-10782)); (11378, 11378, 1, 1); (11381, 11381, 1, 1); (11390, 11391, 1, (-10815)); (11392, 11490, 2, 1);
    (11499, 11501, 2, 1); (11506, 11506, 1, 1); (42560, 42604, 2, 1); (42624, 42650, 2, 1); (42786, 42798, 2, 1);
    (42802, 42862, 2, 1); (42873, 42875, 2, 1); (42877, 42877, 1, (-35332)); (42878, 42886, 2, 1); (42891, 42891, 1, 1);
    (42893, 42893, 1, (-42280)); (42896, 42898, 2, 1); (42902, 42920, 2, 1); (42922, 42922, 1, (-42308)); (42923, 42923, 1, (-42319));
    (42924, 42924, 1, (-42315)); (42925, 42925, 1, (-42305)); (42926, 42926, 1, (-42308)); (42928, 42928, 1, (-42258)); (42929, 42929, 1, (-42282));
    (42930, 42930, 1, (-42261)); (42931, 42931, 1, 928); (42932, 42946, 2, 1); (42948, 42948, 1, (-48)); (42949, 42949, 1, (-42307));
    (42950, 42950, 1, (-35384)); (42951, 42953, 2, 1); (42960, 42960, 1, 1); (42966, 42968, 2, 1); (42997, 42997, 1, 1);
    (65313, 65338, 1, 32); (66560, 66599, 1, 40); (66736, 66771, 1, 40); (66928, 66938, 1, 39); (66940, 66954, 1, 39);
    (66956, 66962, 1, 39); (66964, 66965, 1, 39); (68736, 68786, 1, 64); (71840, 71871, 1, 32); (93760, 93791, 1, 32);
    (125184, 125217, 1, 34) ].

Definition uppercase_table : list (Z * Z * Z) :=
  [
    (65, 90, 1); (192, 214, 1); (216, 222, 1); (256, 310, 2); (313, 327, 2); (330, 374, 2);
    (376, 377, 1); (379, 381, 2); (385, 386, 1); (388, 388, 1); (390, 391, 1); (393, 395, 1);
    (398, 401, 1); (403, 404, 1); (406, 408, 1); (412, 413, 1); (415, 416, 1); (418, 420, 2);
    (422, 423, 1); (425, 425, 1); (428, 428, 1); (430, 431, 1); (433, 435, 1); (437, 437, 1);
    (439, 440, 1); (444, 444, 1); (452, 452, 1); (455, 455, 1); (458, 458, 1); (461, 475, 2);
    (478, 494, 2); (497, 497, 1); (500, 500, 1); (502, 504, 1); (506, 562, 2); (570, 571, 1);
    (573, 574, 1); (577, 577, 1); (579, 582, 1); (584, 590, 2); (880, 882, 2); (886, 886, 1);
    (895, 895, 1); (902, 902, 1); (904, 906, 1); (908, 908, 1); (910, 911, 1); (913, 929, 1);
    (931, 939, 1); (975, 975, 1); (978, 980, 1); (984, 1006, 2); (1012, 1012, 1); (1015, 1015, 1);
    (1017, 1018, 1); (1021, 1071, 1); (1120, 1152, 2); (1162, 1214, 2); (1216, 1217, 1); (1219, 1229, 2);
    (1232, 1326, 2); (1329, 1366, 1); (4256, 4293, 1); (4295, 4295, 1); (4301, 4301, 1); (5024, 5109, 1);
    (7312, 7354, 1); (7357, 7359, 1); (7680, 7828, 2); (7838, 7934, 2); (7944, 7951, 1); (7960, 7965, 1);
    (7976, 7983, 1); (7992, 7999, 1); (8008, 8013, 1); (8025, 8031, 2); (8040, 8047, 1); (8120, 8123, 1);
    (8136, 8139, 1); (8152, 8155, 1); (8168, 8172, 1); (8184, 8187, 1); (8450, 8450, 1); (8455, 8455, 1);
    (8459, 8461, 1); (8464, 8466, 1); (8469, 8469, 1); (8473, 8477, 1); (8484, 8488, 2); (8490, 8493, 1);
    (8496, 8499, 1); (8510, 8511, 1); (8517, 8517, 1); (8544, 8559, 1); (8579, 8579, 1); (9398, 9423, 1);
    (11264, 11311, 1); (11360, 11360, 1); (11362, 11364, 1); (11367, 11371, 2); (11373, 11376, 1); (11378, 11378, 1);
    (11381, 11381, 1); (11390, 11392, 1); (11394, 11490, 2); (11499, 11501, 2); (11506, 11506, 1); (42560, 42604, 2);
    (42624, 42650, 2); (42786, 42798, 2); (42802, 42862, 2); (42873, 42875, 2); (42877, 42878, 1); (42880, 42886, 2);
    (42891, 42893, 2); (42896, 42898, 2); (42902, 42920, 2); (42922, 42926, 1); (42928, 42932, 1); (42934, 42946, 2);
    (42948, 42951, 1); (42953, 42953, 1); (42960, 42960, 1); (42966, 42968, 2); (42997, 42997, 1); (65313, 65338, 1);
    (66560, 66599, 1); (66736, 66771, 1); (66928, 66938, 1); (66940, 66954, 1); (66956, 66962, 1); (66964, 66965, 1);
    (68736, 68786, 1); (71840, 71871, 1); (93760, 93791, 1); (119808, 119833, 1); (119860, 119885, 1); (119912, 119937, 1);
    (119964, 119964, 1); (119966, 119967, 1); (119970, 119970, 1); (119973, 119974, 1); (119977, 119980, 1); (119982, 119989, 1);
    (120016, 120041, 1); (120068, 120069, 1); (120071, 120074, 1); (120077, 120084, 1); (120086, 120092, 1); (120120, 120121, 1);
    (120123, 120126, 1); (120128, 120132, 1); (120134, 120134, 1); (120138, 120144, 1); (120172, 120197, 1); (120224, 120249, 1);
    (120276, 120301, 1); (120328, 120353, 1); (120380, 120405, 1); (120432, 120457, 1); (120488, 120512, 1); (120546, 120570, 1);
    (120604, 120628, 1); (120662, 120686, 1); (120720, 120744, 1); (120778, 120778, 1); (125184, 125217, 1); (127280, 127305, 1);
    (127312, 127337, 1); (127344, 127369, 1) ].

Definition cased_table : list (Z * Z * Z) :=
  [
    (65, 90, 1); (97, 122, 1); (170, 170, 1); (181, 181, 1); (186, 186, 1); (192, 214, 1);
    (216, 246, 1); (248, 442, 1); (444, 447, 1); (452, 659, 1); (661, 696, 1); (704, 705, 1);
    (736, 740, 1); (837, 837, 1); (880, 883, 1); (886, 887, 1); (890, 893, 1); (895, 895, 1);
    (902, 902, 1); (904, 906, 1); (908, 908, 1); (910, 929, 1); (931, 1013, 1); (1015, 1153, 1);
    (1162, 1327, 1); (1329, 1366, 1); (1376, 1416, 1); (4256, 4293, 1); (4295, 4295, 1); (4301, 4301, 1);
    (4304, 4346, 1); (4349, 4351, 1); (5024, 5109, 1); (5112, 5117, 1); (7296, 7304, 1); (7312, 7354, 1);
    (7357, 7359, 1); (7424, 7615, 1); (7680, 7957, 1); (7960, 7965, 1); (7968, 8005, 1); (8008, 8013, 1);
    (8016, 8023, 1); (8025, 8029, 2); (8031, 8061, 1); (8064, 8116, 1); (8118, 8124, 1); (8126, 8126, 1);
    (8130, 8132, 1); (8134, 8140, 1); (8144, 8147, 1); (8150, 8155, 1); (8160, 8172, 1); (8178, 8180, 1);
    (8182, 8188, 1); (8305, 8305, 1); (8319, 8319, 1); (8336, 8348, 1); (8450, 8450, 1); (8455, 8455, 1);
    (8458, 8467, 1); (8469, 8469, 1); (8473, 8477, 1); (8484, 8488, 2); (8490, 8493, 1); (8495, 8500, 1);
    (8505, 8505, 1); (8508, 8511, 1); (8517, 8521, 1); (8526, 8526, 1); (8544, 8575, 1); (8579, 8580, 1);
    (9398, 9449, 1); (11264, 11492, 1); (11499, 11502, 1); (11506, 11507, 1); (11520, 11557, 1); (11559, 11559, 1);
    (11565, 11565, 1); (42560, 42605, 1); (42624, 42653, 1); (42786, 42887, 1); (42891, 42894, 1); (42896, 42954, 1);
    (42960, 42961, 1); (42963, 42963, 1); (42965, 42969, 1); (42997, 42998, 1); (43000, 43002, 1); (43824, 43866, 1);
    (43868, 43880, 1); (43888, 43967, 1); (64256, 64262, 1); (64275, 64279, 1); (65313, 65338, 1); (65345, 65370, 1);
    (66560, 66639, 1); (66736, 66771, 1); (66776, 66811, 1); (66928, 66938, 1); (66940, 66954, 1); (66956, 66962, 1);
    (66964, 66965, 1); (66967, 66977, 1); (66979, 66993, 1); (66995, 67001, 1); (67003, 67004, 1); (67456, 67456, 1);
    (67459, 67461, 1); (67463, 67504, 1); (67506, 67514, 1); (68736, 68786, 1); (68800, 68850, 1); (71840, 71903, 1);
    (93760, 93823, 1); (119808, 119892, 1); (119894, 119964, 1); (119966, 119967, 1); (119970, 119970, 1); (119973, 119974, 1);
    (119977, 119980, 1); (119982, 119993, 1); (119995, 119995, 1); (119997, 120003, 1); (120005, 120069, 1); (120071, 120074, 1);
    (120077, 120084, 1); (120086, 120092, 1); (120094, 120121, 1); (120123, 120126, 1); (120128, 120132, 1); (120134, 120134, 1);
    (120138, 120144, 1); (120146, 120485, 1); (120488, 120512, 1); (120514, 120538, 1); (120540, 120570, 1); (120572, 120596, 1);
    (120598, 120628, 1); (120630, 120654, 1); (120656, 120686, 1); (120688, 120712, 1); (120714, 120744, 1); (120746, 120770, 1);
    (120772, 120779, 1); (122624, 122633, 1); (122635, 122654, 1); (125184, 125251, 1); (127280, 127305, 1); (127312, 127337, 1);
    (127344, 127369, 1) ].

Definition case_ignorable_table : list (Z * Z * Z) :=
  [
    (39, 39, 1); (46, 46, 1); (58, 58, 1); (94, 96, 2); (168, 168, 1); (173, 175, 2);
    (180, 180, 1); (183, 184, 1); (688, 879, 1); (884, 885, 1); (890, 890, 1); (900, 901, 1);
    (903, 903, 1); (1155, 1161, 1); (1369, 1369, 1); (1375, 1375, 1); (1425, 1469, 1); (1471, 1471, 1);
    (1473, 1474, 1); (1476, 1477, 1); (1479, 1479, 1); (1524, 1524, 1); (1536, 1541, 1); (1552, 1562, 1);
    (1564, 1564, 1); (1600, 1600, 1); (1611, 1631, 1); (1648, 1648, 1); (1750, 1757, 1); (1759, 1768, 1);
    (1770, 1773, 1); (1807, 1809, 2); (1840, 1866, 1); (1958, 1968, 1); (2027, 2037, 1); (2042, 2042, 1);
    (2045, 2045, 1); (2070, 2093, 1); (2137, 2139, 1); (2184, 2184, 1); (2192, 2193, 1); (2200, 2207, 1);
    (2249, 2306, 1); (2362, 2364, 2); (2369, 2376, 1); (2381, 2381, 1); (2385, 2391, 1); (2402, 2403, 1);
    (2417, 2417, 1); (2433, 2433, 1); (2492, 2492, 1); (2497, 2500, 1); (2509, 2509, 1); (2530, 2531, 1);
    (2558, 2558, 1); (2561, 2562, 1); (2620, 2620, 1); (2625, 2626, 1); (2631, 2632, 1); (2635, 2637, 1);
    (2641, 2641, 1); (2672, 2673, 1); (2677, 2677, 1); (2689, 2690, 1); (2748, 2748, 1); (2753, 2757, 1);
    (2759, 2760, 1); (2765, 2765, 1); (2786, 2787, 1); (2810, 2815, 1); (2817, 2817, 1); (2876, 2876, 1);
    (2879, 2879, 1); (2881, 2884, 1); (2893, 2893, 1); (2901, 2902, 1); (2914, 2915, 1); (2946, 2946, 1);
    (3008, 3008, 1); (3021, 3021, 1); (3072, 3072, 1); (3076, 3076, 1); (3132, 3132, 1); (3134, 3136, 1);
    (3142, 3144, 1); (3146, 3149, 1); (3157, 3158, 1); (3170, 3171, 1); (3201, 3201, 1); (3260, 3260, 1);
    (3263, 3263, 1); (3270, 3270, 1); (3276, 3277, 1); (3298, 3299, 1); (3328, 3329, 1); (3387, 3388, 1);
    (3393, 3396, 1); (3405, 3405, 1); (3426, 3427, 1); (3457, 3457, 1); (3530, 3530, 1); (3538, 3540, 1);
    (3542, 3542, 1); (3633, 3633, 1); (3636, 3642, 1); (3654, 3662, 1); (3761, 3761, 1); (3764, 3772, 1);
    (3782, 3782, 1); (3784, 3789, 1); (3864, 3865, 1); (3893, 3897, 2); (3953, 3966, 1); (3968, 3972, 1);
    (3974, 3975, 1); (3981, 3991, 1); (3993, 4028, 1); (4038, 4038, 1); (4141, 4144, 1); (4146, 4151, 1);
    (4153, 4154, 1); (4157, 4158, 1); (4184, 4185, 1); (4190, 4192, 1); (4209, 4212, 1); (4226, 4226, 1);
    (4229, 4230, 1); (4237, 4237, 1); (4253, 4253, 1); (4348, 4348, 1); (4957, 4959, 1); (5906, 5908, 1);
    (5938, 5939, 1); (5970, 5971, 1); (6002, 6003, 1); (6068, 6069, 1); (6071, 6077, 1); (6086, 6086, 1);
    (6089, 6099, 1); (6103, 6103, 1); (6109, 6109, 1); (6155, 6159, 1); (6211, 6211, 1); (6277, 6278, 1);
    (6313, 6313, 1); (6432, 6434, 1); (6439, 6440, 1); (6450, 6450, 1); (6457, 6459, 1); (6679, 6680, 1);
    (6683, 6683, 1); (6742, 6742, 1); (6744, 6750, 1); (6752, 6754, 2); (6757, 6764, 1); (6771, 6780, 1);
    (6783, 6783, 1); (6823, 6823, 1); (6832, 6862, 1); (6912, 6915, 1); (6964, 6964, 1); (6966, 6970, 1);
    (6972, 6972, 1); (6978, 6978, 1); (7019, 7027, 1); (7040, 7041, 1); (7074, 7077, 1); (7080, 7081, 1);
    (7083, 7085, 1); (7142, 7142, 1); (7144, 7145, 1); (7149, 7149, 1); (7151, 7153, 1); (7212, 7219, 1);
    (7222, 7223, 1); (7288, 7293, 1); (7376, 7378, 1); (7380, 7392, 1); (7394, 7400, 1); (7405, 7405, 1);
    (7412, 7412, 1); (7416, 7417, 1); (7468, 7530, 1); (7544, 7544, 1); (7579, 7679, 1); (8125, 8125, 1);
    (8127, 8129, 1); (8141, 8143, 1); (8157, 8159, 1); (8173, 8175, 1); (8189, 8190, 1); (8203, 8207, 1);
    (8216, 8217, 1); (8228, 8228, 1); (8231, 8231, 1); (8234, 8238, 1); (8288, 8292, 1); (8294, 8303, 1);
    (8305, 8305, 1); (8319, 8319, 1); (8336, 8348, 1); (8400, 8432, 1); (11388, 11389, 1); (11503, 11505, 1);
    (11631, 11631, 1); (11647, 11647, 1); (11744, 11775, 1); (11823, 11823, 1); (12293, 12293, 1); (12330, 12333, 1);
    (12337, 12341, 1); (12347, 12347, 1); (12441, 12446, 1); (12540, 12542, 1); (40981, 40981, 1); (42232, 42237, 1);
    (42508, 42508, 1); (42607, 42610, 1); (42612, 42621, 1); (42623, 42623, 1); (42652, 42655, 1); (42736, 42737, 1);
    (42752, 42785, 1); (42864, 42864, 1); (42888, 42890, 1); (42994, 42996, 1); (43000, 43001, 1); (43010, 43010, 1);
    (43014, 43014, 1); (43019, 43019, 1); (43045, 43046, 1); (43052, 43052, 1); (43204, 43205, 1); (43232, 43249, 1);
    (43263, 43263, 1); (43302, 43309, 1); (43335, 43345, 1); (43392, 43394, 1); (43443, 43443, 1); (43446, 43449, 1);
    (43452, 43453, 1); (43471, 43471, 1); (43493, 43494, 1); (43561, 43566, 1); (43569, 43570, 1); (43573, 43574, 1);
    (43587, 43587, 1); (43596, 43596, 1); (43632, 43632, 1); (43644, 43644, 1); (43696, 43696, 1); (43698, 43700, 1);
    (43703, 43704, 1); (43710, 43711, 1); (43713, 43713, 1); (43741, 43741, 1); (43756, 43757, 1); (43763, 43764, 1);
    (43766, 43766, 1); (43867, 43871, 1); (43881, 43883, 1); (44005, 44005, 1); (44008, 44008, 1); (44013, 44013, 1);
    (64286, 64286, 1); (64434, 64450, 1); (65024, 65039, 1); (65043, 65043, 1); (65056, 65071, 1); (65106, 65106, 1);
    (65109, 65109, 1); (65279, 65279, 1); (65287, 65287, 1); (65294, 65294, 1); (65306, 65306, 1); (65342, 65344, 2);
    (65392, 65392, 1); (65438, 65439, 1); (65507, 65507, 1); (65529, 65531, 1); (66045, 66045, 1); (66272, 66272, 1);
    (66422, 66426, 1); (67456, 67461, 1); (67463, 67504, 1); (67506, 67514, 1); (68097, 68099, 1); (68101, 68102, 1);
    (68108, 68111, 1); (68152, 68154, 1); (68159, 68159, 1); (68325, 68326, 1); (68900, 68903, 1); (69291, 69292, 1);
    (69446, 69456, 1); (69506, 69509, 1); (69633, 69633, 1); (69688, 69702, 1); (69744, 69744, 1); (69747, 69748, 1);
    (69759, 69761, 1); (69811, 69814, 1); (69817, 69818, 1); (69821, 69821, 1); (69826, 69826, 1); (69837, 69837, 1);
    (69888, 69890, 1); (69927, 69931, 1); (69933, 69940, 1); (70003, 70003, 1); (70016, 70017, 1); (70070, 70078, 1);
    (70089, 70092, 1); (70095, 70095, 1); (70191, 70193, 1); (70196, 70196, 1); (70198, 70199, 1); (70206, 70206, 1);
    (70367, 70367, 1); (70371, 70378, 1); (70400, 70401, 1); (70459, 70460, 1); (70464, 70464, 1); (70502, 70508, 1);
    (70512, 70516, 1); (70712, 70719, 1); (70722, 70724, 1); (70726, 70726, 1); (70750, 70750, 1); (70835, 70840, 1);
    (70842, 70842, 1); (70847, 70848, 1); (70850, 70851, 1); (71090, 71093, 1); (71100, 71101, 1); (71103, 71104, 1);
    (71132, 71133, 1); (71219, 71226, 1); (71229, 71229, 1); (71231, 71232, 1); (71339, 71341, 2); (71344, 71349, 1);
    (71351, 71351, 1); (71453, 71455, 1); (71458, 71461, 1); (71463, 71467, 1); (71727, 71735, 1); (71737, 71738, 1);
    (71995, 71996, 1); (71998, 71998, 1); (72003, 72003, 1); (72148, 72151, 1); (72154, 72155, 1); (72160, 72160, 1);
    (72193, 72202, 1); (72243, 72248, 1); (72251, 72254, 1); (72263, 72263, 1); (72273, 72278, 1); (72281, 72283, 1);
    (72330, 72342, 1); (72344, 72345, 1); (72752, 72758, 1); (72760, 72765, 1); (72767, 72767, 1); (72850, 72871, 1);
    (72874, 72880, 1); (72882, 72883, 1); (72885, 72886, 1); (73009, 73014, 1); (73018, 73018, 1); (73020, 73021, 1);
    (73023, 73029, 1); (73031, 73031, 1); (73104, 73105, 1); (73109, 73111, 2); (73459, 73460, 1); (78896, 78904, 1);
    (92912, 92916, 1); (92976, 92982, 1); (92992, 92995, 1); (94031, 94031, 1); (94095, 94111, 1); (94176, 94177, 1);
    (94179, 94180, 1); (110576, 110579, 1); (110581, 110587, 1); (110589, 110590, 1); (113821, 113822, 1); (113824, 113827, 1);
    (118528, 118573, 1); (118576, 118598, 1); (119143, 119145, 1); (119155, 119170, 1); (119173, 119179, 1); (119210, 119213, 1);
    (119362, 119364, 1); (121344, 121398, 1); (121403, 121452, 1); (121461, 121461, 1); (121476, 121476, 1); (121499, 121503, 1);
    (121505, 121519, 1); (122880, 122886, 1); (122888, 122904, 1); (122907, 122913, 1); (122915, 122916, 1); (122918, 122922, 1);
    (123184, 123197, 1); (123566, 123566, 1); (123628, 123631, 1); (125136, 125142, 1); (125252, 125259, 1); (127995, 127999, 1);
    (917505, 917505, 1); (917536, 917631, 1); (917760, 917999, 1) ].

(** [c.isspace()]: the characters of bidirectional type WS, B or S and
    of category Zs *)
Definition isspace (c : Z) : bool := in_table whitespace_table c.

(** [c.isupper()]: the property Uppercase *)
Definition is_upper (c : Z) : bool := in_table uppercase_table c.

(** The properties Cased and Case_Ignorable *)
Definition cased (c : Z) : bool := in_table cased_table c.
Definition case_ignorable (c : Z) : bool := in_table case_ignorable_table c.

(** The simple lower-case mapping of a character, and the full one: only
    U+0130 (capital I with dot above) is lowered to two characters. *)
Definition to_lower (c : Z) : Z := c + lower_delta lowercase_table c.

Definition lower_full (c : Z) : str :=
  if c =? 304 then [105; 775] else [to_lower c].

(** U+03A3, capital sigma, is lowered to the final form U+03C2 when it
    ends a word and to U+03C3 otherwise.  It ends a word when, case
    ignorable characters apart, a cased character stands before it and
    none stands after it.  [before] holds the characters before the
    position, the nearest first. *)
Definition SIGMA : Z := 931.

Fixpoint skip_ignorable (s : str) : str :=
  match s with
  | [] => []
  | c :: s' => if case_ignorable c then skip_ignorable s' else s
  end.

Definition final_sigma (before after : str) : bool :=
  match skip_ignorable before with
  | [] => false
  | c :: _ =>
      cased c
      && match skip_ignorable after with
         | [] => true
         | d :: _ => negb (cased d)
         end
  end.

Definition lower_at (before : str) (c : Z) (after : str) : str :=
  if c =? SIGMA then [if final_sigma before after then 962 else 963]
  else lower_full c.

(** [s.lower()] *)
Fixpoint lower_scan (before : str) (s : str) : str :=
  match s with
  | [] => []
  | c :: s' => lower_at before c s' ++ lower_scan (c :: before) s'
  end.

Definition lower (s : str) : str := lower_scan [] s.

(** [s.split()]: the maximal runs of non-whitespace characters.  [tok]
    is the run being read. *)
Fixpoint split_scan (tok : str) (s : str) : list str :=
  match s with
  | [] => match tok with [] => [] | _ :: _ => [tok] end
  | c :: s' =>
      if isspace c
      then match tok with
           | [] => split_scan [] s'
           | _ :: _ => tok :: split_scan [] s'
           end
      else split_scan (tok ++ [c]) s'
  end.

Definition split (s : str) : list str := split_scan [] s.

(** [s.split(sep)] for a non-empty [sep]: every occurrence of [sep]
    ends a part, and empty parts are kept. *)
Fixpoint split_on_scan (sep : str) (skip : nat) (cur : str) (s : str) : list str :=
  match s with
  | [] => [cur]
  | c :: s' =>
      match skip with
      | S k => split_on_scan sep k cur s'
      | O =>
          if startswith sep s
          then cur :: split_on_scan sep (Nat.pred (length sep)) [] s'
          else split_on_scan sep O (cur ++ [c]) s'
      end
  end.

Definition split_on (sep : str) (s : str) : result (list str) :=
  match sep with
  | [] => Raise ValueError
  | _ :: _ => Ok (split_on_scan sep O [] s)
  end.

(** [sep.join(parts)] *)
Fixpoint join (sep : str) (parts : list str) : str :=
  match parts with
  | [] => []
  | p :: rest =>
      match rest with
      | [] => p
      | _ :: _ => p ++ sep ++ join sep rest
      end
  end.

(** Text mode with universal newlines: [\r\n] and a lone [\r] are read
    as [\n]. *)
Fixpoint universal_newlines (s : str) : str :=
  match s with
  | [] => []
  | c :: s' =>
      if decide (c = CR)
      then match s' with
           | d :: _ =>
               if decide (d = LF) then universal_newlines s'
               else LF :: universal_newlines s'
           | [] => [LF]
           end
      else c :: universal_newlines s'
  end.

(** [f.readlines()] on the translated text: the lines, each with its
    terminating [\n] (the last line may lack one).  [cur] is the line
    being read. *)
Fixpoint readlines_scan (cur : str) (s : str) : list str :=
  match s with
  | [] => match cur with [] => [] | _ :: _ => [cur] end
  | c :: s' =>
      if decide (c = LF)
      then (cur ++ [c]) :: readlines_scan [] s'
      else readlines_scan (cur ++ [c]) s'
  end.

Definition readlines (content : str) : list str :=
  readlines_scan [] (universal_newlines content).

(** [l[a:b]] for a list and integers [a], [b] (step 1): negative bounds
    count from the end, and both are clamped to the list. *)
Definition clamp_index (len k : Z) : Z :=
  if k <? 0 then Z.max (k + len) 0 else Z.min k len.

Definition slice {A} (l : list A) (a b : Z) : list A :=
  let len := Z.of_nat (length l) in
  let a' := clamp_index len a in
  let b' := clamp_index len b in
  take (Z.to_nat (b' - a')) (drop (Z.to_nat a') l).

(** [str(n)] for an integer. *)
Definition str_of_int (n : Z) : str :=
  lit (NilZero.string_of_int (Z.to_int n)).

End Py.

Arguments Py.isspace : simpl never.
Arguments Py.is_upper : simpl never.
Arguments Py.cased : simpl never.
Arguments Py.case_ignorable : simpl never.
Arguments Py.lower_full : simpl never.

(** ** Cell 3: classes and [preprocess_text] *)

Definition A : Z := 0.
Definition B : Z := 1.
Definition UNKNOWN : Z := -1.

Definition hamilton : str := lit "hamilton".
Definition madison : str := lit "madison".

(** The text up to and including [.lower()]:
    [' '.join(lines[1:]).replace("\n", ' ').replace('  ',' ').lower()] *)
Definition lowered_lines (lines : list str) : str :=
  Py.lower
    (Py.replace (lit "  ") (lit " ")
       (Py.replace [Py.LF] (lit " ")
          (Py.join (lit " ") (tail lines)))).

(** The two assignments to [text] in [preprocess_text] *)
Definition text_of_lines (lines : list str) : str :=
  let text :=
    Py.replace madison [] (Py.replace hamilton [] (lowered_lines lines)) in
  Py.join (lit " ") (Py.split text).

(** The same for the content of a file: its lines are [readlines] of it *)
Definition lowered_text (content : str) : str :=
  lowered_lines (Py.readlines content).

(** What [preprocess_text] computes from the content of the file it
    opens. *)
Definition preprocess_content (content : str) : str :=
  text_of_lines (Py.readlines content).

(** ** NumPy arrays of two dimensions: a shape and a row-major buffer

    [np.zeros] gives arrays of [float64].  The arrays of windows and labels
    hold zeros and Python integers that were converted on assignment, so
    each of their elements is a [float64] whose value is an integer; it is
    written as that integer, of type [Z].  The conversion rounds, and it
    raises beyond the range of [float64].  The predictions of the model are
    floats. *)

Module Np.

(** The [float64] nearest to the integer [x]: integers of up to 53 bits
    are kept, longer ones are rounded to 53 significant bits, to the
    nearest and to the even one of two that are equally near. *)
Definition float64_round (x : Z) : Z :=
  let a := Z.abs x in
  let k := Z.log2 a - 52 in
  if k <=? 0 then x
  else
    let q := a / 2 ^ k in
    let r := a mod 2 ^ k in
    let half := 2 ^ (k - 1) in
    let q' :=
      if r <? half then q
      else if half <? r then q + 1
      else if Z.even q then q else q + 1 in
    Z.sgn x * (q' * 2 ^ k).

(** The nearest [float64] is finite *)
Definition float64_finite (x : Z) : bool := Z.abs (float64_round x) <? 2 ^ 1024.

(** The conversion of a Python [int] that is stored in a [float64] array *)
Definition float64_of_int (x : Z) : result Z :=
  if float64_finite x then Ok (float64_round x) else Raise OverflowError.

(** The conversion of a list of integers, element by element *)
Fixpoint float64_of_ints (v : list Z) : result (list Z) :=
  match v with
  | [] => Ok []
  | x :: v' =>
      x' ← float64_of_int x; rest ← float64_of_ints v'; Ok (x' :: rest)
  end.

(** A two-dimensional array: its shape and its buffer, row after row.
    The arrays [make_subsequences] fills are [float64] arrays that hold
    integers; such an element is written as the integer it is, of type
    [Z], and every integer stored into the array goes through
    [float64_of_int]. *)
Record ndarray (T : Type) : Type := mk { shape : nat * nat; data : list T }.
Arguments mk {T} shape data.
Arguments shape {T} _.
Arguments data {T} _.

Definition nrows {T} (a : ndarray T) : nat := fst (shape a).
Definition ncols {T} (a : ndarray T) : nat := snd (shape a).

(** The buffer holds exactly [nrows * ncols] elements. *)
Definition wf {T} (a : ndarray T) : Prop :=
  length (data a) = (nrows a * ncols a)%nat.

(** [np.zeros((r, c))], an array of [float64] zeros; a negative dimension
    is a [ValueError]. *)
Definition zeros (r c : Z) : result (ndarray Z) :=
  if (r <? 0) || (c <? 0) then Raise ValueError
  else Ok (mk (Z.to_nat r, Z.to_nat c) (replicate (Z.to_nat r * Z.to_nat c) 0)).

(** [a[i]] *)
Definition row {T} (a : ndarray T) (i : nat) : list T :=
  take (ncols a) (drop (i * ncols a) (data a)).

Definition write_row {T} (a : ndarray T) (i : nat) (v : list T) : ndarray T :=
  mk (shape a)
     (take (i * ncols a) (data a) ++ v ++ drop (S i * ncols a) (data a)).

(** [a[i] = v] for a [float64] array [a] and a Python list [v] of
    integers: the elements are converted to [float64]; [v] has the length
    of a row, or one element that is broadcast over the row. *)
Definition set_row (a : ndarray Z) (i : nat) (v : list Z) : result (ndarray Z) :=
  if negb (i <? nrows a)%nat then Raise IndexError
  else
    v ← float64_of_ints v;
    if (length v =? ncols a)%nat then Ok (write_row a i v)
    else match v with
         | [x] => Ok (write_row a i (replicate (ncols a) x))
         | _ => Raise ValueError
         end.

(** [a[i] = x] for a [float64] array [a] and an integer [x] *)
Definition set_row_scalar (a : ndarray Z) (i : nat) (x : Z) : result (ndarray Z) :=
  if negb (i <? nrows a)%nat then Raise IndexError
  else
    x ← float64_of_int x;
    Ok (write_row a i (replicate (ncols a) x)).

(** [np.vstack((a, b))] *)
Definition vstack {T} (a b : ndarray T) : result (ndarray T) :=
  if (ncols a =? ncols b)%nat
  then Ok (mk ((nrows a + nrows b)%nat, ncols a) (data a ++ data b))
  else Raise ValueError.

(** [a.reshape(-1, k)]: the buffer is kept, the number of rows is
    inferred. *)
Definition reshape_rows {T} (a : ndarray T) (k : Z) : result (ndarray T) :=
  let size := (nrows a * ncols a)%nat in
  if k <=? 0 then Raise ValueError
  else if negb (size mod Z.to_nat k =? 0)%nat then Raise ValueError
  else Ok (mk ((size / Z.to_nat k)%nat, Z.to_nat k) (data a)).

(** [a[idx]] for a list of row indices *)
Fixpoint take_rows_data {T} (a : ndarray T) (idx : list nat) : result (list T) :=
  match idx with
  | [] => Ok []
  | i :: idx' =>
      if (i <? nrows a)%nat
      then rest ← take_rows_data a idx'; Ok (row a i ++ rest)
      else Raise IndexError
  end.

Definition take_rows {T} (a : ndarray T) (idx : list nat) : result (ndarray T) :=
  d ← take_rows_data a idx; Ok (mk (length idx, ncols a) d).

(** [a > t], [a == k] and [np.sum] on an array of booleans *)
Definition gt (a : ndarray float) (t : float) : ndarray bool :=
  mk (shape a) (map (fun p => PrimFloat.ltb t p) (data a)).

Definition eq_int (a : ndarray bool) (k : Z) : ndarray bool :=
  mk (shape a) (map (fun b => Z.b2z b =? k) (data a)).

Definition sum (a : ndarray bool) : Z :=
  fold_right (fun b acc => Z.b2z b + acc) 0 (data a).

(** [str(a.shape)] *)
Definition shape_str {T} (a : ndarray T) : str :=
  lit "(" ++ Py.str_of_int (Z.of_nat (nrows a)) ++ lit ", "
    ++ Py.str_of_int (Z.of_nat (ncols a)) ++ lit ")".

End Np.

Import Np(ndarray).

(** ** Cell 5: [SEQ_LEN] and [make_subsequences] *)

Definition SEQ_LEN : Z := 30.

(** One round of the loop:
    [X[i] = long_sequence[i:i+sequence_length]; y[i] = label] *)
Definition make_subsequences_step (long_sequence : list Z) (label : Z)
  (sequence_length : Z) (i : nat) (Xy : ndarray Z * ndarray Z)
  : result (ndarray Z * ndarray Z) :=
  X ← Np.set_row (fst Xy) i
        (Py.slice long_sequence (Z.of_nat i) (Z.of_nat i + sequence_length));
  y ← Np.set_row_scalar (snd Xy) i label;
  Ok (X, y).

(** [make_subsequences(long_sequence, label, sequence_length)] *)
Definition make_subsequences (long_sequence : list Z) (label : Z)
  (sequence_length : Z) : result (ndarray Z * ndarray Z) :=
  let len_sequences := Z.of_nat (length long_sequence) in
  X ← Np.zeros ((len_sequences - sequence_length) + 1) sequence_length;
  y ← Np.zeros (Z.of_nat (Np.nrows X)) 1;
  for_each (make_subsequences_step long_sequence label sequence_length)
    (seq 0 (Np.nrows X)) (X, y).

(** ** The world of a run: files, and the trace of what the run did *)

(** A path names a file whose bytes decode, in the encoding of the
    locale, to the text [content]; a file whose bytes do not decode; a
    directory with its entries in the order [os.listdir] returns them; or
    something the process may not read. *)
Inductive node : Type :=
| File (content : str)
| Undecodable
| Dir (entries : list str)
| Denied.

(** The modes of [open]: ['r'] and ['w'] *)
Inductive open_mode : Type := ModeRead | ModeWrite.

Inductive event : Type :=
| EvListdir (path : str)
| EvOpenRead (path : str)
| EvOpenWrite (path : str)
| EvPrint (line : str)
| EvTokenizerFit
| EvTextsToSequences
| EvTrainTestSplit
| EvModelFit
| EvModelPredict.

(** [cell] is the notebook cell being executed; every event is recorded
    with the cell that issued it.  [opened] holds the paths of the file
    objects that are open. *)
Record world : Type := mkWorld {
  files : gmap str node;
  cell : nat;
  trace : list (nat * event);
  opened : list str
}.

Definition M (T : Type) : Type := world -> world * result T.

#[global] Instance M_ret : MRet M := fun _ a w => (w, Ok a).
#[global] Instance M_bind : MBind M := fun _ _ k m w =>
  match m w with
  | (w', Ok a) => k a w'
  | (w', Raise e) => (w', Raise e)
  end.

Definition lift {T} (r : result T) : M T := fun w => (w, r).

Definition logged (e : event) (w : world) : world :=
  mkWorld (files w) (cell w) (trace w ++ [(cell w, e)]) (opened w).

Definition emit (e : event) : M unit := fun w => (logged e w, Ok tt).

(** A call of the learning library: the trace records that it ended, and
    the call returns or raises what the library does *)
Definition call {T} (e : event) (r : result T) : M T := fun w => (logged e w, r).

Definition run_cell {T} (n : nat) (body : M T) : M T := fun w =>
  body (mkWorld (files w) n (trace w) (opened w)).

(** [for x in l: acc = body(x, acc)] with effects *)
Fixpoint for_M {I S : Type} (body : I -> S -> M S) (l : list I) (s : S) : M S :=
  match l with
  | [] => mret s
  | i :: l' => s' ← body i s; for_M body l' s'
  end.

(** [os.listdir(path)] *)
Definition listdir (path : str) : M (list str) := fun w =>
  (logged (EvListdir path) w,
   match files w !! path with
   | Some (Dir entries) => Ok entries
   | Some (File _) | Some Undecodable => Raise NotADirectoryError
   | Some Denied => Raise PermissionError
   | None => Raise FileNotFoundError
   end).

(** The directory a path lies in: the path up to its last ['/'] *)
Fixpoint last_slash (i best : nat) (path : str) : nat :=
  match path with
  | [] => best
  | c :: path' => last_slash (S i) (if c =? 47 then S i else best) path'
  end.

Definition dirname (path : str) : str := take (last_slash 0 0 path) path.
Definition basename (path : str) : str := drop (last_slash 0 0 path) path.

Definition with_file (f : str) (n : node) (w : world) : world :=
  mkWorld (<[f := n]> (files w)) (cell w) (trace w) (opened w).

Definition with_opened (f : str) (w : world) : world :=
  mkWorld (files w) (cell w) (trace w) (f :: opened w).

(** [open(path, mode)].  The file object is named by its path.  Mode
    ['r'] leaves the files as they are; mode ['w'] empties the file, or
    creates it in the directory it lies in. *)
Definition open_ (path : str) (mode : open_mode) : M str := fun w =>
  match mode with
  | ModeRead =>
      let w := logged (EvOpenRead path) w in
      match files w !! path with
      | Some (File _) | Some Undecodable => (with_opened path w, Ok path)
      | Some (Dir _) => (w, Raise IsADirectoryError)
      | Some Denied => (w, Raise PermissionError)
      | None => (w, Raise FileNotFoundError)
      end
  | ModeWrite =>
      let w := logged (EvOpenWrite path) w in
      match files w !! path with
      | Some (File _) | Some Undecodable =>
          (with_opened path (with_file path (File []) w), Ok path)
      | Some (Dir _) => (w, Raise IsADirectoryError)
      | Some Denied => (w, Raise PermissionError)
      | None =>
          match files w !! dirname path with
          | Some (Dir entries) =>
              (with_opened path
                 (with_file path (File [])
                    (with_file (dirname path) (Dir (entries ++ [basename path])) w)),
               Ok path)
          | Some (File _) | Some Undecodable => (w, Raise NotADirectoryError)
          | Some Denied => (w, Raise PermissionError)
          | None => (w, Raise FileNotFoundError)
          end
      end
  end.

(** [f.close()]: the first file object of that path is closed *)
Fixpoint remove_first (f : str) (l : list str) : list str :=
  match l with
  | [] => []
  | g :: l' => if decide (f = g) then l' else g :: remove_first f l'
  end.

Definition close (f : str) (w : world) : world :=
  mkWorld (files w) (cell w) (trace w) (remove_first f (opened w)).

(** [with open(path, mode) as f: body]: the file is closed when the block
    is left, by its end, by a [return] or by an exception *)
Definition with_open {T} (path : str) (mode : open_mode) (body : str -> M T) : M T :=
  fun w =>
    match open_ path mode w with
    | (w, Ok f) => let '(w, r) := body f w in (close f w, r)
    | (w, Raise e) => (w, Raise e)
    end.

(** [f.readlines()]: the whole file is read and decoded *)
Definition readlines (f : str) : M (list str) := fun w =>
  (w,
   if bool_decide (f ∈ opened w)
   then match files w !! f with
        | Some (File content) => Ok (Py.readlines content)
        | Some Undecodable => Raise UnicodeDecodeError
        | _ => Ok []
        end
   else Raise ValueError).

Definition print (line : str) : M unit := emit (EvPrint line).

(** The lines printed so far *)
Definition console (w : world) : list str :=
  omap (fun ce => match ce.2 with EvPrint l => Some l | _ => None end) (trace w).


(** [preprocess_text(file_path)] *)
Definition preprocess_text (file_path : str) : M str :=
  with_open file_path ModeRead (fun f =>
    lines ← readlines f;
    mret (text_of_lines lines)).

(** ** The learning library

    The tokenizer, [train_test_split] and the model come from Keras and
    scikit-learn.  The notebook only relies on the interface below. *)

Record Library : Type := {
  tokenizer : Type;
  (** [Tokenizer(char_level=b)] *)
  Tokenizer : bool -> tokenizer;
  fit_on_texts : tokenizer -> list str -> tokenizer;
  texts_to_sequences : tokenizer -> list str -> list (list Z);
  (** [len(t.word_index)] *)
  word_index_len : tokenizer -> Z;
  (** a token id is the rank of an entry of [word_index], from 1 on *)
  texts_to_sequences_ids : forall t texts sq i,
    sq ∈ texts_to_sequences t texts -> i ∈ sq -> 1 <= i <= word_index_len t;
  (** [word_index] is a dict in memory; its length stays far below [2^53] *)
  word_index_len_bound : forall t, word_index_len t <= 2 ^ 53;
  (** the row indices that [train_test_split(X, y, train_size=0.8)] draws
      for the training and the validation part of [n] samples *)
  split_indices : nat -> list nat * list nat;
  split_indices_lt : forall n i,
    i ∈ (split_indices n).1 ++ (split_indices n).2 -> (i < n)%nat;
  model : Type;
  (** [Sequential] with an [Embedding(input_dim, embedding_size,
      input_length)], a [SimpleRNN(rnn_size)] and a sigmoid [Dense(1)],
      compiled *)
  compile_model : Z -> Z -> Z -> Z -> model;
  (** the lines [model.summary()] prints *)
  summary : model -> list str;
  (** [model.fit]: the trained model and the progress lines it prints *)
  fit : model -> ndarray Z -> ndarray Z -> Z -> Z -> ndarray Z -> ndarray Z
        -> model * list str;
  predict : model -> ndarray Z -> ndarray float;
  (** one prediction per row of a batch that has rows *)
  predict_shape : forall m X,
    (0 < Np.nrows X)%nat ->
    Np.shape (predict m X) = (Np.nrows X, 1%nat)
    /\ length (Np.data (predict m X)) = Np.nrows X
}.

Section Notebook.

Context (lib : Library).

(** [l[0]] *)
Definition first {T} (l : list T) : result T :=
  match l with
  | x :: _ => Ok x
  | [] => Raise IndexError
  end.

(** *** Cell 3 *)

Definition dir_A : str := lit "./papers/A/".
Definition dir_B : str := lit "./papers/B/".
Definition dir_Unknown : str := lit "./papers/Unknown/".

(** [all = ''] followed by
    [for x in os.listdir(dir): all += preprocess_text(dir + x)] *)
Definition concat_papers (dir : str) : M str :=
  names ← listdir dir;
  for_M (fun x all => t ← preprocess_text (dir ++ x); mret (all ++ t)) names [].

Definition cell3 : M (str * str) :=
  all_authorA ← concat_papers dir_A;
  all_authorB ← concat_papers dir_B;
  _ ← print (lit "AuthorA text length: "
             ++ Py.str_of_int (Z.of_nat (length all_authorA)));
  _ ← print (lit "AuthorB text length: "
             ++ Py.str_of_int (Z.of_nat (length all_authorB)));
  mret (all_authorA, all_authorB).

(** *** Cell 5 *)

(** [t.texts_to_sequences([text])[0]] *)
Definition encode (t : tokenizer lib) (text : str) : M (list Z) :=
  sequences ← call EvTextsToSequences (Ok (texts_to_sequences lib t [text]));
  lift (first sequences).

Definition cell5 (all_authorA all_authorB : str)
  : M (tokenizer lib * (ndarray Z * ndarray Z) * (ndarray Z * ndarray Z)) :=
  let t0 := Tokenizer lib true in
  t ← call EvTokenizerFit
        (Ok (fit_on_texts lib t0 (map (fun c => [c]) (all_authorA ++ all_authorB))));
  authorA_long_sequence ← encode t all_authorA;
  authorB_long_sequence ← encode t all_authorB;
  XyA ← lift (make_subsequences authorA_long_sequence A SEQ_LEN);
  XyB ← lift (make_subsequences authorB_long_sequence B SEQ_LEN);
  _ ← print (lit "Number of characters: " ++ Py.str_of_int (word_index_len lib t));
  _ ← print (lit "author A sequences: " ++ Np.shape_str XyA.1);
  _ ← print (lit "author B sequences: " ++ Np.shape_str XyB.1);
  mret (t, XyA, XyB).

(** *** Cell 7 *)

Definition cell7 (all_authorA all_authorB : str) : M unit :=
  let word_tokenizer := Tokenizer lib false in
  word_tokenizer ← call EvTokenizerFit
        (Ok (fit_on_texts lib word_tokenizer [all_authorA; all_authorB]));
  ws ← lift (Py.split_on (lit " ") (all_authorA ++ lit " " ++ all_authorB));
  _ ← print (lit "Total word count: " ++ lit " "
             ++ Py.str_of_int (Z.of_nat (length ws)));
  print (lit "Total number of unique words: " ++ lit " "
         ++ Py.str_of_int (word_index_len lib word_tokenizer)).

(** *** Cell 9 *)

(** [train_test_split(X, y, train_size=0.8)]: the rows of [X] and of [y]
    at the indices drawn for the two parts *)
Definition train_test_split (X y : ndarray Z)
  : result (ndarray Z * ndarray Z * ndarray Z * ndarray Z) :=
  if negb (Np.nrows X =? Np.nrows y)%nat then Raise ValueError
  else
    let idx := split_indices lib (Np.nrows X) in
    X_train ← Np.take_rows X idx.1;
    X_val ← Np.take_rows X idx.2;
    y_train ← Np.take_rows y idx.1;
    y_val ← Np.take_rows y idx.2;
    Ok (X_train, X_val, y_train, y_val).

Definition cell9 (XyA XyB : ndarray Z * ndarray Z)
  : M (ndarray Z * ndarray Z * ndarray Z * ndarray Z) :=
  X ← lift (Np.vstack XyA.1 XyB.1);
  y ← lift (Np.vstack XyA.2 XyB.2);
  '(X_train, X_val, y_train, y_val) ← call EvTrainTestSplit (train_test_split X y);
  X_train ← lift (Np.reshape_rows X_train SEQ_LEN);
  X_val ← lift (Np.reshape_rows X_val SEQ_LEN);
  _ ← print (lit "X_train shape: " ++ Np.shape_str X_train);
  _ ← print (lit "y_train shape: " ++ Np.shape_str y_train);
  _ ← print (lit "X_validate shape: " ++ Np.shape_str X_val);
  _ ← print (lit "y_validate shape: " ++ Np.shape_str y_val);
  mret (X_train, X_val, y_train, y_val).

(** *** Cells 11 and 13 *)

Definition Embedding_size : Z := 100.
Definition RNN_size : Z := 256.
Definition Batch_size : Z := 4096.
Definition Epochs : Z := 20.

(** What a library call prints, line by line *)
Definition print_lines (ls : list str) : M unit :=
  for_M (fun l _ => print l) ls tt.

Definition cell11 (t : tokenizer lib) : M (model lib) :=
  let m := compile_model lib (word_index_len lib t + 1) Embedding_size RNN_size 30 in
  _ ← print_lines (summary lib m);
  mret m.

Definition cell13 (m : model lib) (X_train X_val y_train y_val : ndarray Z)
  : M (model lib) :=
  let r := fit lib m X_train y_train Batch_size Epochs X_val y_val in
  _ ← print_lines r.2;
  call EvModelFit (Ok r.1).

(** *** Cell 15: the vote-predict loop *)

(** [y = y>0.5], [np.sum(y==0)] and [np.sum(y==1)] *)
Definition votes (y : ndarray float) : Z * Z :=
  let y := Np.gt y 0.5%float in
  let votes_for_authorA := Np.sum (Np.eq_int y 0) in
  let votes_for_authorB := Np.sum (Np.eq_int y 1) in
  (votes_for_authorA, votes_for_authorB).

(** ["Author A" if votes_for_authorA > votes_for_authorB else "Author B"] *)
Definition verdict (votes_for_authorA votes_for_authorB : Z) : str :=
  if votes_for_authorB <? votes_for_authorA then lit "Author A" else lit "Author B".

(** The formatted line for the paper in file [x] *)
Definition report (x : str) (votes_for_authorA votes_for_authorB : Z) : str :=
  lit "Paper "
    ++ Py.replace (lit ".txt") [] (Py.replace (lit "paper_") [] x)
    ++ lit " is predicted to have been written by "
    ++ verdict votes_for_authorA votes_for_authorB
    ++ lit ", " ++ Py.str_of_int (Z.max votes_for_authorA votes_for_authorB)
    ++ lit " to " ++ Py.str_of_int (Z.min votes_for_authorA votes_for_authorB).

(** The body of the loop, for the paper in file [x] *)
Definition attribute (t : tokenizer lib) (m : model lib) (x : str) : M unit :=
  unknown ← preprocess_text (dir_Unknown ++ x);
  unknown_long_sequences ← encode t unknown;
  Xy ← lift (make_subsequences unknown_long_sequences UNKNOWN SEQ_LEN);
  X_sequences ← lift (Np.reshape_rows Xy.1 SEQ_LEN);
  y ← call EvModelPredict (Ok (predict lib m X_sequences));
  let v := votes y in
  print (report x v.1 v.2).

Definition cell15 (t : tokenizer lib) (m : model lib) : M unit :=
  names ← listdir dir_Unknown;
  for_M (fun x _ => attribute t m x) names tt.

(** *** The notebook, run from top to bottom *)

(** Cells 3 to 13: what is in memory when the vote-predict loop starts *)
Definition training : M (tokenizer lib * model lib) :=
  '(all_authorA, all_authorB) ← run_cell 3 cell3;
  '(t, XyA, XyB) ← run_cell 5 (cell5 all_authorA all_authorB);
  _ ← run_cell 7 (cell7 all_authorA all_authorB);
  '(X_train, X_val, y_train, y_val) ← run_cell 9 (cell9 XyA XyB);
  m ← run_cell 11 (cell11 t);
  m ← run_cell 13 (cell13 m X_train X_val y_train y_val);
  mret (t, m).

Definition notebook : M unit :=
  '(t, m) ← training;
  run_cell 15 (cell15 t m).

End Notebook.

(** The pipeline stage a cell belongs to *)
Inductive stage : Type := Preprocess | Tokenize | Split | Train | VotePredict.

Definition stage_index (s : stage) : nat :=
  match s with
  | Preprocess => 0
  | Tokenize => 1
  | Split => 2
  | Train => 3
  | VotePredict => 4
  end.

Definition stage_of_cell (n : nat) : stage :=
  if (n <=? 3)%nat then Preprocess
  else if (n <=? 7)%nat then Tokenize
  else if (n <=? 9)%nat then Split
  else if (n <=? 13)%nat then Train
  else VotePredict.

(** ** Words and names, for the statements about [preprocess_text] *)

Definition is_letter (c : Z) : bool := (97 <=? c) && (c <=? 122).

Definition starts_name (s : str) : bool :=
  Py.startswith hamilton s || Py.startswith madison s.

(** Every occurrence of an author's name in [s] starts a word: it is at
    the start of the text or follows a character that is not a lower-case
    letter.  [after_letter] tells whether the character before [s] is a
    letter. *)
Fixpoint names_start_words (after_letter : bool) (s : str) : bool :=
  match s with
  | [] => true
  | c :: s' =>
      (negb after_letter || negb (starts_name s))
      && names_start_words (is_letter c) s'
  end.

(** No two adjacent characters of [s] are both whitespace. *)
Fixpoint no_double_space (s : str) : bool :=
  match s with
  | [] => true
  | a :: s' =>
      match s' with
      | [] => true
      | b :: _ => negb (Py.isspace a && Py.isspace b) && no_double_space s'
      end
  end.

(** The author a prediction stands for, and the number of predictions
    for an author: the votes, counted one prediction at a time. *)
Definition predicted_author (p : float) : Z :=
  if PrimFloat.ltb 0.5%float p then B else A.

Definition count_predicted (author : Z) (y : ndarray float) : Z :=
  Z.of_nat (length (filter (fun p => predicted_author p = author) (Np.data y))).

(** The line a majority vote over the predictions [y] gives for the paper
    in file [x]: author A when strictly more predictions stand for A, and
    author B otherwise; then the larger and the smaller count. *)
Definition majority_line (x : str) (y : ndarray float) : str :=
  let a := count_predicted A y in
  let b := count_predicted B y in
  lit "Paper "
    ++ Py.replace (lit ".txt") [] (Py.replace (lit "paper_") [] x)
    ++ lit " is predicted to have been written by "
    ++ (if decide (b < a) then lit "Author A" else lit "Author B")
    ++ lit ", " ++ Py.str_of_int (Z.max a b)
    ++ lit " to " ++ Py.str_of_int (Z.min a b).

(** ** The discipline of a run

    [event_ok fs tr c e]: after the trace [tr], cell [c] may issue [e].
    No earlier event belongs to a later stage; a directory listing is of
    one of the three papers directories; a file that is read is an entry
    of one of them; a text is encoded only after the character tokenizer
    was fitted in cell 5, and the model predicts only after [model.fit]
    returned in cell 13. *)
Definition papers_dirs : list str := [dir_A; dir_B; dir_Unknown].

Definition stage_le (c1 c2 : nat) : Prop :=
  (stage_index (stage_of_cell c1) <= stage_index (stage_of_cell c2))%nat.

Definition event_ok (fs : gmap str node) (tr : list (nat * event))
    (c : nat) (e : event) : Prop :=
  Forall (fun ce => stage_le ce.1 c) tr
  /\ match e with
     | EvListdir p => p ∈ papers_dirs
     | EvOpenRead p =>
         exists d x entries,
           d ∈ papers_dirs /\ p = d ++ x
           /\ fs !! d = Some (Dir entries) /\ x ∈ entries
     | EvOpenWrite _ => False
     | EvTextsToSequences => (5%nat, EvTokenizerFit) ∈ tr
     | EvModelPredict => (13%nat, EvModelFit) ∈ tr
     | _ => True
     end.

Inductive disciplined (fs : gmap str node) : list (nat * event) -> Prop :=
| disciplined_nil : disciplined fs []
| disciplined_snoc tr c e :
    disciplined fs tr -> event_ok fs tr c e -> disciplined fs (tr ++ [(c, e)]).


(** A run of the notebook from a fresh kernel *)
Definition run (lib : Library) (fs : gmap str node) : world * result unit :=
  notebook lib (mkWorld fs 0 [] []).

(** ** Definitions used in the statements and proofs *)

Definition is_name (q : str) : Prop := q = hamilton \/ q = madison.

Definition nonspace (w : str) : Prop := Forall (fun c => Py.isspace c = false) w.

Definition head_nonspace (s : str) : Prop :=
  match s with
  | [] => True
  | c :: _ => Py.isspace c = false
  end.

(** The window of [s] elements that starts at index [i], the first [k]
    windows, and the state of the loop of [make_subsequences] after [k]
    rounds. *)
Definition window (long_sequence : list Z) (s i : nat) : list Z :=
  take s (drop i long_sequence).

Definition windows (long_sequence : list Z) (s k : nat) : list (list Z) :=
  map (window long_sequence s) (seq 0 k).

Definition filled (long_sequence : list Z) (label : Z) (n s k : nat)
  : ndarray Z * ndarray Z :=
  (Np.mk (n, s) (concat (windows long_sequence s k) ++ replicate ((n - k) * s) 0),
   Np.mk (n, 1%nat) (concat (replicate k [label]) ++ replicate ((n - k) * 1) 0)).


(** [triple P m Q R]: from a world that satisfies [P], the run of [m]
    either returns [a] in a world that satisfies [Q a], or raises in a
    world that satisfies [R]. *)
Definition triple {T} (P : world -> Prop) (m : M T)
    (Q : T -> world -> Prop) (R : world -> Prop) : Prop :=
  forall w, P w ->
    match m w with
    | (w', Ok a) => Q a w'
    | (w', Raise _) => R w'
    end.

Definition fitted_tokenizer : nat * event := (5%nat, EvTokenizerFit).
Definition fitted_model : nat * event := (13%nat, EvModelFit).

(** What a cell may issue once the events of [need] are in the trace *)
Definition may_emit (fs : gmap str node) (need : list (nat * event)) (e : event)
  : Prop :=
  match e with
  | EvListdir p => p ∈ papers_dirs
  | EvOpenRead p =>
      exists d x entries,
        d ∈ papers_dirs /\ p = d ++ x /\ fs !! d = Some (Dir entries) /\ x ∈ entries
  | EvOpenWrite _ => False
  | EvTextsToSequences => fitted_tokenizer ∈ need
  | EvModelPredict => fitted_model ∈ need
  | _ => True
  end.

(** The invariant while cell [n] runs *)
Definition inside (fs : gmap str node) (n : nat) (need : list (nat * event))
    (w : world) : Prop :=
  files w = fs /\ disciplined fs (trace w) /\ cell w = n
  /\ Forall (fun ce => stage_le ce.1 n) (trace w)
  /\ Forall (fun ce => ce ∈ trace w) need
  /\ opened w = [].

Definition safe (fs : gmap str node) (w : world) : Prop :=
  files w = fs /\ disciplined fs (trace w) /\ opened w = [].

Definition fresh (fs : gmap str node) (w : world) : Prop :=
  files w = fs /\ trace w = [] /\ opened w = [].

(** ** A small library instance

    Token ids are character codes modulo 256, from 1 on, the split takes the first four fifths
    of the rows for training, and the model scores a window by its first
    character. *)

Module Demo.

Definition char_codes (texts : list str) : list (list Z) :=
  map (map (fun c => c mod 256 + 1)) texts.

Lemma char_codes_ids (texts : list str) (sq : list Z) (i : Z) :
  sq ∈ char_codes texts -> i ∈ sq -> 1 <= i <= 256.
Proof.
  unfold char_codes. intros (text & -> & _)%list_elem_of_fmap.
  intros (c & -> & _)%list_elem_of_fmap.
  pose proof (Z.mod_pos_bound c 256). lia.
Qed.

Definition split_80_20 (n : nat) : list nat * list nat :=
  let k := (n * 4 / 5)%nat in (seq 0 k, seq k (n - k)).

Lemma split_80_20_lt n i :
  i ∈ (split_80_20 n).1 ++ (split_80_20 n).2 -> (i < n)%nat.
Proof.
  unfold split_80_20. cbn [fst snd].
  assert (n * 4 / 5 <= n)%nat by (apply Nat.Div0.div_le_upper_bound; lia).
  intros [Hi|Hi]%elem_of_app; apply elem_of_seq in Hi; lia.
Qed.

Definition score (m : unit) (X : ndarray Z) : ndarray float :=
  Np.mk (Np.nrows X, 1%nat)
    (map (fun i => if hd 0 (Np.row X i) <? 111 then 0.25%float else 0.75%float)
         (seq 0 (Np.nrows X))).

Lemma score_shape (m : unit) (X : ndarray Z) :
  (0 < Np.nrows X)%nat ->
  Np.shape (score m X) = (Np.nrows X, 1%nat)
  /\ length (Np.data (score m X)) = Np.nrows X.
Proof.
  intros _. split; [done|]. unfold score. cbn. by rewrite length_map, length_seq.
Qed.

Definition library : Library := {|
  tokenizer := unit;
  Tokenizer := fun _ => tt;
  fit_on_texts := fun t _ => t;
  texts_to_sequences := fun _ => char_codes;
  word_index_len := fun _ => 256;
  texts_to_sequences_ids := fun _ => char_codes_ids;
  word_index_len_bound := fun _ => ltac:(vm_compute; discriminate);
  split_indices := split_80_20;
  split_indices_lt := split_80_20_lt;
  model := unit;
  compile_model := fun _ _ _ _ => tt;
  summary := fun _ => [];
  fit := fun m _ _ _ _ _ _ => (m, []);
  predict := score;
  predict_shape := score_shape
|}.

(** The integers [0 .. n-1] as an encoded text *)
Definition ramp (n : nat) : list Z := map Z.of_nat (seq 0 n).

(** A papers directory with one paper of each author and two unknown
    papers, the second of which is too short to give one window. *)
Definition paper (title body : string) : node :=
  File (lit title ++ Py.LF :: lit body ++ [Py.LF]).

Definition papers : gmap str node :=
  list_to_map
    [ (lit "./papers/A/", Dir [lit "paper_10.txt"]);
      (lit "./papers/A/paper_10.txt",
       paper "FEDERALIST No. 10"
             "Among the numerous advantages promised by a well constructed Union");
      (lit "./papers/B/", Dir [lit "paper_14.txt"]);
      (lit "./papers/B/paper_14.txt",
       paper "FEDERALIST No. 14"
             "We have seen the necessity of the Union, as our bulwark against danger");
      (lit "./papers/Unknown/", Dir [lit "paper_1.txt"; lit "paper_2.txt"]);
      (lit "./papers/Unknown/paper_1.txt",
       paper "FEDERALIST No. 49"
             "The author of the Notes on the State of Virginia, quoted in the last paper");
      (lit "./papers/Unknown/paper_2.txt", paper "FEDERALIST No. 50" "It may be") ].

Definition start : world := mkWorld papers 0 [] [].



End Demo.

(** A paper whose text nests one name inside another *)
Definition nested_name_world : world :=
  mkWorld {[ lit "./papers/Unknown/paper_9.txt" :=
               File (lit "FEDERALIST No. 9" ++ Py.LF :: lit "By Hamhamiltonilton") ]}
          15 [] [].

(** A paper whose text is an upper-case character without a lower-case
    form, U+2102 *)
Definition double_struck_world : world :=
  mkWorld {[ lit "./papers/Unknown/paper_9.txt" :=
               File (lit "FEDERALIST No. 9" ++ [Py.LF; 8450]) ]}
          15 [] [].

(** A paper that mentions the names as words *)
Definition plain_paper : str :=
  lit "FEDERALIST No. 1" ++ Py.LF :: lit "To  the People:" ++ Py.LF
    :: Py.LF :: lit "AFTER Hamilton's view, MADISON replied." ++ [Py.LF].

Definition plain_world : world :=
  mkWorld {[ lit "./papers/Unknown/paper_1.txt" := File plain_paper ]} 15 [] [].

(** A character that [lower] leaves as it is, wherever it stands: it has
    no other lower-case form *)
Definition own_lower_case (c : Z) : bool :=
  negb (c =? Py.SIGMA) && negb (c =? 304)
  && (Py.lower_delta Py.lowercase_table c =? 0).

(** The code points of a run, and those the lower-case table maps *)
Definition run_points (r : Z * Z * Z) : list Z :=
  let '(lo, hi, step) := r in
  map (fun k => lo + step * Z.of_nat k) (seq 0 (S (Z.to_nat ((hi - lo) / step)))).

Definition lower_domain (t : list (Z * Z * Z * Z)) : list Z :=
  flat_map (fun r => run_points r.1) t.

(** Line ends and the blank *)
Definition is_sep (c : Z) : bool := (c =? Py.LF) || (c =? Py.CR) || (c =? Py.SP).

(** What the file gives when it is opened and read *)
Definition read_outcome (n : option node) : result str :=
  match n with
  | Some (File content) => Ok (preprocess_content content)
  | Some Undecodable => Raise UnicodeDecodeError
  | Some (Dir _) => Raise IsADirectoryError
  | Some Denied => Raise PermissionError
  | None => Raise FileNotFoundError
  end.

(** ** Definitions for the further properties *)

(** The sequence read back from its windows: the first window, then the
    last element of every later window. *)
Definition unwindow (X : ndarray Z) : list Z :=
  Np.row X 0
    ++ flat_map (fun i => drop (Np.ncols X - 1) (Np.row X i))
         (seq 1 (Np.nrows X - 1)).

(** The text of a file after both names are removed, before its
    whitespace is normalised *)
Definition cleaned_text (content : str) : str :=
  Py.replace madison [] (Py.replace hamilton [] (lowered_text content)).

Definition starts_nonspace (s : str) : bool :=
  match s with
  | [] => false
  | c :: _ => negb (Py.isspace c)
  end.

(** Every whitespace character of [s] is a space that is directly followed
    by a character that is not whitespace. *)
Fixpoint spaces_inside (s : str) : bool :=
  match s with
  | [] => true
  | c :: r =>
      (negb (Py.isspace c) || (bool_decide (c = Py.SP) && starts_nonspace r))
      && spaces_inside r
  end.

(** Words separated by single spaces, with no whitespace at either end *)
Definition single_spaced (s : str) : bool :=
  match s with
  | [] => true
  | _ :: _ => starts_nonspace s && spaces_inside s
  end.

Definition count_spaces (s : str) : nat :=
  length (filter (fun c => c = Py.SP) s).

(** Row [r] with label row [l] is a window of author A's sequence with
    label [A], or a window of author B's sequence with label [B]. *)
Definition labelled_window (seqA seqB : list Z) (r l : list Z) : Prop :=
  (exists i : nat,
     (i + 30 <= length seqA)%nat /\ r = take 30 (drop i seqA) /\ l = [A])
  \/ (exists i : nat,
        (i + 30 <= length seqB)%nat /\ r = take 30 (drop i seqB) /\ l = [B]).

(** [line] is the report for the paper in file [x] of [./papers/Unknown/]:
    the majority line of the predictions on the windows of the encoded,
    preprocessed content of that file. *)
Definition paper_line (lib : Library) (t : tokenizer lib) (m : model lib)
    (fs : gmap str node) (x line : str) : Prop :=
  exists content (unknown_long_sequences : list Z) (X_sequences ys : ndarray Z),
    fs !! (dir_Unknown ++ x) = Some (File content)
    /\ first (texts_to_sequences lib t [preprocess_content content])
       = Ok unknown_long_sequences
    /\ make_subsequences unknown_long_sequences UNKNOWN SEQ_LEN = Ok (X_sequences, ys)
    /\ line = majority_line x (predict lib m X_sequences).

(** The world when cell [n] starts, and the world after the cell that runs
    has issued the events [evs] *)
Definition in_cell (n : nat) (w : world) : world :=
  mkWorld (files w) n (trace w) (opened w).

Definition after (w : world) (evs : list event) : world :=
  mkWorld (files w) (cell w) (trace w ++ map (fun e => (cell w, e)) evs) (opened w).


(** The files [names] of [dir] are text files with the contents
    [contents]; the events of listing [dir] and opening them; the text
    cell 3 makes of them; and the two lines cell 3 prints. *)
Definition readable (fs : gmap str node) (dir : str) (names contents : list str)
  : Prop :=
  Forall2 (fun x c => fs !! (dir ++ x) = Some (File c)) names contents.

Definition opens (dir : str) (names : list str) : list event :=
  map (fun x => EvOpenRead (dir ++ x)) names.

Definition reads (dir : str) (names : list str) : list event :=
  EvListdir dir :: opens dir names.

Definition author_text (contents : list str) : str :=
  concat (map preprocess_content contents).


(** The character tokenizer cell 5 fits on the two texts *)
Definition fitted (lib : Library) (all_authorA all_authorB : str) : tokenizer lib :=
  fit_on_texts lib (Tokenizer lib true) (map (fun c => [c]) (all_authorA ++ all_authorB)).

(** [t] and [m] are the tokenizer and the model that cells 5 to 13 make
    of the two texts: each value is computed from the values before it. *)
Definition pipeline (lib : Library) (all_authorA all_authorB : str)
    (t : tokenizer lib) (m : model lib) : Prop :=
  exists (authorA_long_sequence authorB_long_sequence : list Z)
         (XyA XyB : ndarray Z * ndarray Z)
         (X y X_split X_val_split X_train X_val y_train y_val : ndarray Z),
    t = fitted lib all_authorA all_authorB
    /\ first (texts_to_sequences lib t [all_authorA]) = Ok authorA_long_sequence
    /\ first (texts_to_sequences lib t [all_authorB]) = Ok authorB_long_sequence
    /\ make_subsequences authorA_long_sequence A SEQ_LEN = Ok XyA
    /\ make_subsequences authorB_long_sequence B SEQ_LEN = Ok XyB
    /\ Np.vstack XyA.1 XyB.1 = Ok X
    /\ Np.vstack XyA.2 XyB.2 = Ok y
    /\ train_test_split lib X y = Ok (X_split, X_val_split, y_train, y_val)
    /\ Np.reshape_rows X_split SEQ_LEN = Ok X_train
    /\ Np.reshape_rows X_val_split SEQ_LEN = Ok X_val
    /\ m = (fit lib
              (compile_model lib (word_index_len lib t + 1) Embedding_size RNN_size 30)
              X_train y_train Batch_size Epochs X_val y_val).1.

(** What cell 15 has printed when it ends in world [w'] with result [r],
    having started after [w13]: one report per unknown paper, made with
    the tokenizer [t] and the model [m], up to the paper that failed *)
Definition reported (lib : Library) (t : tokenizer lib) (m : model lib)
    (fs : gmap str node) (w13 : world) (end_ : world * result unit) : Prop :=
  match end_ with
  | (w', Ok _) =>
      exists names lines,
        fs !! dir_Unknown = Some (Dir names)
        /\ Forall2 (paper_line lib t m fs) names lines
        /\ console w' = console w13 ++ lines
  | (w', Raise _) =>
      match fs !! dir_Unknown with
      | Some (Dir names) =>
          exists pre x post lines,
            names = pre ++ x :: post
            /\ Forall2 (paper_line lib t m fs) pre lines
            /\ console w' = console w13 ++ lines
      | _ => console w' = console w13
      end
  end.

(** * Properties *)

(** ** The operations on small inputs *)

Example replace_empty_old : Py.replace [] (lit "-") (lit "abc") = lit "-a-b-c-".
Proof. reflexivity. Qed.

Example replace_left_to_right : Py.replace (lit "aa") (lit "b") (lit "aaa") = lit "ba".
Proof. reflexivity. Qed.

Example split_whitespace :
  Py.split (lit " a  b " ++ Py.LF :: lit " c ") = [lit "a"; lit "b"; lit "c"].
Proof. reflexivity. Qed.

(** Capital sigma at the end of a word and elsewhere, capital I with dot
    above, and an upper-case character without a lower-case form *)
Example lower_unicode :
  Py.lower [927; 916; 927; 931; 32; 931; 304; 8450; 65; 39; 931; 39; 66]
  = [959; 948; 959; 962; 32; 963; 105; 775; 8450; 97; 39; 963; 39; 98].
Proof. vm_compute. reflexivity. Qed.

Example split_unicode_whitespace :
  Py.split (lit "x y" ++ 133 :: lit "z" ++ 28 :: lit "w")
  = [lit "x"; lit "y"; lit "z"; lit "w"].
Proof. vm_compute. reflexivity. Qed.

Example split_on_space : Py.split_on (lit " ") (lit "a  b") = Ok [lit "a"; []; lit "b"].
Proof. reflexivity. Qed.

Example readlines_newlines :
  Py.readlines (lit "a" ++ Py.CR :: Py.LF :: lit "b" ++ Py.CR :: lit "c"
                  ++ Py.LF :: Py.LF :: lit "d")
  = [lit "a" ++ [Py.LF]; lit "b" ++ [Py.LF]; lit "c" ++ [Py.LF]; [Py.LF]; lit "d"].
Proof. reflexivity. Qed.

Example slice_clamped :
  Py.slice [1; 2; 3; 4] 1 10 = [2; 3; 4] /\ Py.slice [1; 2; 3; 4] (-1) 3 = []
  /\ Py.slice [1; 2; 3; 4] 5 7 = [] /\ Py.slice [1; 2; 3] 2 1 = [].
Proof. repeat split; reflexivity. Qed.

Example preprocess_content_paper :
  preprocess_content plain_paper = lit "to the people: after 's view, replied.".
Proof. vm_compute. reflexivity. Qed.

Example make_subsequences_small :
  make_subsequences [7; 8; 9; 10] B 3
  = Ok (Np.mk (2%nat, 3%nat) [7; 8; 9; 8; 9; 10], Np.mk (2%nat, 1%nat) [1; 1])
  /\ make_subsequences [7; 8; 9; 10] B 5
     = Ok (Np.mk (0%nat, 5%nat) [], Np.mk (0%nat, 1%nat) [])
  /\ make_subsequences [7; 8; 9; 10] B 6 = Raise ValueError.
Proof. repeat split; reflexivity. Qed.

Example run_papers :
  (run Demo.library Demo.papers).2 = Raise ValueError
  /\ last (console (run Demo.library Demo.papers).1)
     = Some (lit "Paper 1 is predicted to have been written by Author A, 25 to 20").
Proof. vm_compute. auto. Qed.

(** ** Strings *)

Section StringFacts.

Implicit Types (p q s r w : str) (c x : Z).

Lemma startswith_prefix p s : Py.startswith p s = true <-> exists r, s = p ++ r.
Proof.
  revert s. induction p as [|a p IH]; intros s; simpl.
  - split; [intros _; by exists s | done].
  - destruct s as [|b s].
    + split; [done | intros [r Hr]; discriminate].
    + destruct (decide (a = b)) as [->|Hab].
      * rewrite IH. split; intros [r Hr]; exists r; simpl in *; congruence.
      * split; [done | intros [r Hr]; simpl in Hr; congruence].
Qed.

Lemma startswith_app p r : Py.startswith p (p ++ r) = true.
Proof. apply startswith_prefix. by exists r. Qed.

Lemma contains_nil q : q <> [] -> Py.contains q [] = false.
Proof. by destruct q. Qed.

Lemma contains_occurs q s :
  Py.contains q s = true <-> exists a b, s = a ++ q ++ b.
Proof.
  induction s as [|c s IH]; simpl.
  - rewrite startswith_prefix. split.
    + intros [r Hr]. exists [], r. done.
    + intros (a & b & Hab). destruct a; [|done]. by exists b.
  - rewrite orb_true_iff, IH, startswith_prefix. split.
    + intros [[r Hr]|(a & b & Hab)].
      * exists [], r. done.
      * exists (c :: a), b. simpl. by f_equal.
    + intros (a & b & Hab). destruct a as [|c' a]; simpl in Hab.
      * left. by exists b.
      * right. exists a, b. congruence.
Qed.

Lemma contains_false_tail q c s :
  Py.contains q (c :: s) = false -> Py.contains q s = false.
Proof. simpl. by intros [_ ?]%orb_false_iff. Qed.

Lemma contains_false_app_r q a s :
  Py.contains q (a ++ s) = false -> Py.contains q s = false.
Proof.
  induction a as [|c a IH]; [done|]. simpl.
  intros [_ ?]%orb_false_iff. auto.
Qed.

Lemma contains_app_l q a b :
  Py.contains q a = true -> Py.contains q (a ++ b) = true.
Proof.
  rewrite !contains_occurs. intros (a1 & a2 & ->).
  exists a1, (a2 ++ b). by rewrite <- !app_assoc.
Qed.

Lemma contains_app_r q a b :
  Py.contains q b = true -> Py.contains q (a ++ b) = true.
Proof.
  rewrite !contains_occurs. intros (b1 & b2 & ->).
  exists (a ++ b1), b2. by rewrite <- !app_assoc.
Qed.

(** An occurrence of [q] in [a ++ c :: b] lies in [a] or in [b] when [c]
    is not a character of [q]. *)
Lemma contains_app_sep q a c b :
  c ∉ q ->
  Py.contains q (a ++ c :: b) = true ->
  Py.contains q a = true \/ Py.contains q b = true.
Proof.
  intros Hc. rewrite !contains_occurs. intros (u & v & Huv).
  apply app_eq_inv in Huv as [(k & Ha & Hk)|(k & Hu & Hk)].
  - (* the occurrence starts in [a] *)
    apply app_eq_inv in Hk as [(k' & Hq & Hb)|(k' & Hk' & Hv)].
    + destruct k' as [|d k']; simpl in Hb.
      * left. exists u, []. rewrite app_nil_r in *. by subst.
      * exfalso. apply Hc. injection Hb as -> _. rewrite Hq.
        apply elem_of_app. right. left.
    + left. exists u, k'. by rewrite Ha, Hk', app_assoc.
  - (* the occurrence starts after [a] *)
    destruct k as [|d k]; simpl in Hk.
    + destruct q as [|d q]; simpl in Hk.
      * left. exists a, []. by rewrite !app_nil_r.
      * exfalso. apply Hc. injection Hk as -> _. left.
    + right. injection Hk as _ ->. by exists k, v.
Qed.

(** *** [str.replace] *)

Lemma replace_scan_skip old new k s :
  Py.replace_scan old new k s = Py.replace_scan old new O (drop k s).
Proof.
  revert k. induction s as [|c s IH]; intros [|k]; simpl; done.
Qed.

Lemma remove_nil p : Py.replace p [] [] = [].
Proof. by destruct p. Qed.

Lemma remove_match p r : p <> [] -> Py.replace p [] (p ++ r) = Py.replace p [] r.
Proof.
  destruct p as [|a p]; [done|]. intros _. unfold Py.replace.
  change ((a :: p) ++ r) with (a :: (p ++ r)).
  cbn [Py.replace_scan]. change (a :: p ++ r) with ((a :: p) ++ r).
  rewrite startswith_app. cbn [app length Nat.pred].
  rewrite replace_scan_skip, drop_app_length. done.
Qed.

Lemma remove_skip p c s :
  Py.startswith p (c :: s) = false ->
  Py.replace p [] (c :: s) = c :: Py.replace p [] s.
Proof.
  destruct p as [|a p]; [done|]. intros H. unfold Py.replace.
  cbn [Py.replace_scan]. by rewrite H.
Qed.

(** The cases of one removal, as an induction principle on the scan. *)
Lemma remove_ind p (P : str -> str -> Prop) :
  p <> [] ->
  P [] [] ->
  (forall r, P r (Py.replace p [] r) -> P (p ++ r) (Py.replace p [] r)) ->
  (forall c s, Py.startswith p (c :: s) = false ->
               P s (Py.replace p [] s) -> P (c :: s) (c :: Py.replace p [] s)) ->
  forall s, P s (Py.replace p [] s).
Proof.
  intros Hp Hnil Hmatch Hskip s.
  induction s as [s IH] using (induction_ltof1 _ (@length Z)).
  unfold ltof in IH. destruct s as [|c s].
  - by rewrite remove_nil.
  - destruct (Py.startswith p (c :: s)) eqn:Hpre.
    + apply startswith_prefix in Hpre as [r Hr]. rewrite Hr.
      rewrite remove_match by done. apply Hmatch, IH.
      rewrite Hr, length_app. destruct p; [done | simpl; lia].
    + rewrite remove_skip by done. apply Hskip; [done|]. apply IH. simpl. lia.
Qed.

Lemma remove_elem_of p s x : x ∈ Py.replace p [] s -> p <> [] -> x ∈ s.
Proof.
  intros Hx Hp. revert Hx.
  apply (remove_ind p (fun s r => x ∈ r -> x ∈ s)); try done.
  - intros r IH Hx. apply elem_of_app. right. auto.
  - intros c s' _ IH [->|Hx]%elem_of_cons; [left | right; auto].
Qed.

(** *** Removing the authors' names *)

Lemma name_letters q :
  is_name q -> q <> [] /\ Forall (fun c => is_letter c = true) q.
Proof.
  intros [->| ->]; (split; [done|]); repeat constructor.
Qed.

Lemma name_no_space q c : is_name q -> c ∈ q -> Py.isspace c = false.
Proof.
  intros [->| ->] Hc; unfold hamilton, madison, lit in Hc; simpl in Hc;
    repeat (apply elem_of_cons in Hc as [->|Hc]; [reflexivity|]);
    by apply elem_of_nil in Hc.
Qed.

Lemma starts_name_false s q :
  is_name q -> starts_name s = false -> Py.startswith q s = false.
Proof.
  unfold starts_name. intros [->| ->] [? ?]%orb_false_iff; done.
Qed.

Lemma starts_name_true s q :
  is_name q -> Py.startswith q s = true -> starts_name s = true.
Proof.
  unfold starts_name. intros [->| ->] ->; [done|]. apply orb_true_r.
Qed.

Lemma names_start_words_weaken b s :
  names_start_words true s = true -> names_start_words b s = true.
Proof.
  destruct s as [|c s]; [done|]. cbn [names_start_words].
  intros [H1 H2]%andb_true_iff. apply andb_true_iff. split; [|done].
  destruct b; [done|]. done.
Qed.

Lemma names_start_words_after w r b :
  w <> [] -> Forall (fun c => is_letter c = true) w ->
  names_start_words b (w ++ r) = true -> names_start_words true r = true.
Proof.
  intros Hw Hl. revert b. induction Hl as [|c w Hc Hl IH]; [done|].
  intros b. cbn [app names_start_words]. rewrite Hc.
  intros [_ H]%andb_true_iff. destruct w as [|d w]; [done|].
  by apply (IH ltac:(done) true).
Qed.

(** After a letter, a run of letters at the head of the cleaned text was
    already at the head of the text: nothing is removed inside a word. *)
Lemma remove_head_letters p w s :
  is_name p -> Forall (fun c => is_letter c = true) w ->
  names_start_words true s = true ->
  Py.startswith w (Py.replace p [] s) = true -> Py.startswith w s = true.
Proof.
  intros Hp Hl. revert s. induction Hl as [|x w Hx Hl IH]; [done|].
  intros [|c s]; [by rewrite remove_nil|].
  cbn [names_start_words negb orb]. intros [Hn Hs]%andb_true_iff.
  apply negb_true_iff in Hn.
  rewrite remove_skip by (by apply starts_name_false).
  cbn [Py.startswith]. destruct (decide (x = c)) as [->|]; [|done].
  rewrite Hx in Hs. by apply IH.
Qed.

Lemma remove_head_name p q c s :
  is_name p -> is_name q ->
  names_start_words (is_letter c) s = true ->
  Py.startswith q (c :: Py.replace p [] s) = true ->
  Py.startswith q (c :: s) = true.
Proof.
  intros Hp Hq Hs. destruct (name_letters q Hq) as [Hne Hl].
  destruct Hl as [|x q' Hx Hl]; [done|].
  cbn [Py.startswith]. destruct (decide (x = c)) as [->|]; [|done].
  rewrite Hx in Hs. by apply remove_head_letters.
Qed.

(** One removal pass keeps the names at word starts, removes the name it
    looks for and brings back no name that was absent. *)
Lemma remove_name_pass p s b :
  is_name p -> names_start_words b s = true ->
  names_start_words b (Py.replace p [] s) = true
  /\ forall q, is_name q -> q = p \/ Py.contains q s = false ->
               Py.contains q (Py.replace p [] s) = false.
Proof.
  intros Hp. destruct (name_letters p Hp) as [Hne Hl]. revert b.
  apply (remove_ind p (fun s r => forall b,
    names_start_words b s = true ->
    names_start_words b r = true
    /\ forall q, is_name q -> q = p \/ Py.contains q s = false ->
                 Py.contains q r = false)); [done|..].
  - intros b _. split; [done|]. intros q Hq _.
    apply contains_nil, (name_letters q Hq).
  - intros r IH b Hb.
    destruct (IH true (names_start_words_after p r b Hne Hl Hb)) as [IH1 IH2].
    split; [by apply names_start_words_weaken|].
    intros q Hq [->|Hc]; [apply IH2; auto|].
    apply IH2; [done|]. right. by apply contains_false_app_r in Hc.
  - intros c s' Hskip IH b Hb. cbn [names_start_words] in Hb.
    apply andb_true_iff in Hb as [Hhead Hs].
    destruct (IH _ Hs) as [IH1 IH2]. split.
    + cbn [names_start_words]. rewrite IH1, andb_true_r.
      destruct b; [|done]. cbn [negb orb] in *.
      apply negb_true_iff in Hhead. apply negb_true_iff.
      unfold starts_name in *.
      apply orb_false_iff in Hhead as [Hh Hm]. apply orb_false_iff.
      split; apply not_true_is_false; intros Hq;
        apply remove_head_name in Hq; try done; try congruence;
        [by left | by right].
    + intros q Hq Hor. cbn [Py.contains]. apply orb_false_iff. split.
      * apply not_true_is_false. intros Hhd.
        apply remove_head_name in Hhd; [|done..].
        destruct Hor as [->|Hc]; [congruence|].
        cbn [Py.contains] in Hc. apply orb_false_iff in Hc as [Hc _]. congruence.
      * apply IH2; [done|]. destruct Hor as [->|Hc]; [by left|].
        right. by apply contains_false_tail in Hc.
Qed.

Lemma remove_names_clean t :
  names_start_words false t = true ->
  let text := Py.replace madison [] (Py.replace hamilton [] t) in
  Py.contains hamilton text = false /\ Py.contains madison text = false.
Proof.
  intros Ht.
  destruct (remove_name_pass hamilton t false (or_introl eq_refl) Ht) as [H1 H2].
  destruct (remove_name_pass madison _ false (or_intror eq_refl) H1) as [_ H3].
  split; apply H3; [by left | | by right | by left].
  right. apply H2; [by left | by left].
Qed.

(** *** [split] and [join] *)

Lemma join_cons sep w1 w2 ws :
  Py.join sep (w1 :: w2 :: ws) = w1 ++ sep ++ Py.join sep (w2 :: ws).
Proof. done. Qed.

Lemma split_scan_tokens tok s :
  nonspace tok ->
  Forall (fun w => w <> [] /\ nonspace w) (Py.split_scan tok s).
Proof.
  revert tok. induction s as [|c s IH]; intros tok Htok; cbn [Py.split_scan].
  - destruct tok; constructor; [done | constructor].
  - destruct (Py.isspace c) eqn:Hc.
    + destruct tok.
      * apply IH. constructor.
      * constructor; [done|]. apply IH. constructor.
    + apply IH. apply Forall_app. split; [done | by repeat constructor].
Qed.

Lemma split_scan_elem tok s w x :
  w ∈ Py.split_scan tok s -> x ∈ w -> x ∈ tok ++ s.
Proof.
  revert tok. induction s as [|c s IH]; intros tok; cbn [Py.split_scan].
  - destruct tok; [by intros ?%elem_of_nil|].
    intros ->%list_elem_of_singleton. by rewrite app_nil_r.
  - destruct (Py.isspace c).
    + destruct tok as [|t tok].
      * intros Hw Hx. right. by apply (IH []).
      * intros [->|Hw]%elem_of_cons Hx.
        -- apply elem_of_app. by left.
        -- apply elem_of_app. right. right. by apply (IH []).
    + intros Hw Hx. specialize (IH _ Hw Hx). by rewrite <- app_assoc in IH.
Qed.

Lemma join_elem sep ws x :
  x ∈ Py.join sep ws -> x ∈ sep \/ exists w, w ∈ ws /\ x ∈ w.
Proof.
  induction ws as [|w1 [|w2 ws] IH].
  - by intros ?%elem_of_nil.
  - intros Hx. right. exists w1. split; [left | done].
  - rewrite join_cons. intros [Hx|[Hx|Hx]%elem_of_app]%elem_of_app.
    + right. exists w1. split; [left | done].
    + by left.
    + destruct (IH Hx) as [?|(w & Hw & ?)]; [by left|].
      right. exists w. split; [by right | done].
Qed.

(** A name found in the re-joined words was in the text. *)
Lemma join_split_contains q tok s :
  q <> [] -> Py.SP ∉ q ->
  Py.contains q (Py.join [Py.SP] (Py.split_scan tok s)) = true ->
  Py.contains q (tok ++ s) = true.
Proof.
  intros Hq Hsp. revert tok.
  induction s as [|c s IH]; intros tok; cbn [Py.split_scan].
  - rewrite app_nil_r. by destruct tok.
  - destruct (Py.isspace c).
    + destruct tok as [|t tok].
      * intros H. apply (contains_app_r _ [c]), (IH [] H).
      * destruct (Py.split_scan [] s) as [|w2 ws] eqn:Hrest.
        -- cbn [Py.join]. apply contains_app_l.
        -- rewrite join_cons. intros H.
           apply (contains_app_sep q (t :: tok) Py.SP) in H as [H|H];
             [by apply contains_app_l | | done].
           apply contains_app_r, (contains_app_r _ [c]), (IH []).
           by rewrite Hrest.
    + intros H. specialize (IH _ H). by rewrite <- app_assoc in IH.
Qed.

Lemma no_double_space_nonspace c r :
  Py.isspace c = false -> no_double_space (c :: r) = no_double_space r.
Proof. intros Hc. cbn [no_double_space]. rewrite Hc. by destruct r. Qed.

Lemma no_double_space_word w r :
  nonspace w -> no_double_space (w ++ r) = no_double_space r.
Proof.
  induction 1 as [|c w Hc _ IH]; [done|].
  cbn [app]. by rewrite no_double_space_nonspace.
Qed.

Lemma no_double_space_sep a c r :
  Py.isspace c = false -> no_double_space (a :: c :: r) = no_double_space (c :: r).
Proof.
  intros Hc. change (no_double_space (a :: c :: r))
    with (negb (Py.isspace a && Py.isspace c) && no_double_space (c :: r)).
  by rewrite Hc, andb_false_r.
Qed.

Lemma join_tokens_spacing ws :
  Forall (fun w => w <> [] /\ nonspace w) ws ->
  no_double_space (Py.join [Py.SP] ws) = true
  /\ head_nonspace (Py.join [Py.SP] ws).
Proof.
  induction ws as [|w1 [|w2 ws] IH]; intros Hws.
  - done.
  - apply Forall_inv in Hws as [Hne Hw]. simpl. split.
    + rewrite <- (app_nil_r w1). by rewrite no_double_space_word.
    + destruct Hw; [done | done].
  - apply Forall_cons in Hws as [[Hne Hw] Hws].
    destruct (IH Hws) as [IH1 IH2]. rewrite join_cons. split.
    + rewrite no_double_space_word by done. cbn [app].
      destruct (Py.join [Py.SP] (w2 :: ws)) as [|c r] eqn:Hj; [done|].
      by rewrite no_double_space_sep.
    + destruct Hw; [done | done].
Qed.

(** *** Reading lines *)

Lemma universal_newlines_first a r :
  Py.CR ∉ a ->
  Py.universal_newlines (a ++ Py.LF :: r) = a ++ Py.LF :: Py.universal_newlines r.
Proof.
  induction a as [|c a IH]; intros Ha.
  - done.
  - cbn [app Py.universal_newlines].
    destruct (decide (c = Py.CR)) as [->|_]; [exfalso; apply Ha; left|].
    rewrite IH; [done|]. intros ?. apply Ha. by right.
Qed.

Lemma universal_newlines_plain a :
  Py.CR ∉ a -> Py.universal_newlines a = a.
Proof.
  induction a as [|c a IH]; intros Ha; [done|].
  cbn [Py.universal_newlines].
  destruct (decide (c = Py.CR)) as [->|_]; [exfalso; apply Ha; left|].
  rewrite IH; [done|]. intros ?. apply Ha. by right.
Qed.

Lemma readlines_scan_first cur a r :
  Py.LF ∉ a ->
  Py.readlines_scan cur (a ++ Py.LF :: r)
  = (cur ++ a ++ [Py.LF]) :: Py.readlines_scan [] r.
Proof.
  revert cur. induction a as [|c a IH]; intros cur Ha.
  - simpl. done.
  - cbn [app Py.readlines_scan].
    destruct (decide (c = Py.LF)) as [->|_]; [exfalso; apply Ha; left|].
    rewrite IH by (intros ?; apply Ha; by right).
    by rewrite <- app_assoc.
Qed.

Lemma readlines_scan_single cur a :
  Py.LF ∉ a -> tail (Py.readlines_scan cur a) = [].
Proof.
  revert cur. induction a as [|c a IH]; intros cur Ha.
  - simpl. by destruct cur.
  - cbn [Py.readlines_scan].
    destruct (decide (c = Py.LF)) as [->|_]; [exfalso; apply Ha; left|].
    apply IH. intros ?. apply Ha. by right.
Qed.

Lemma readlines_first a r :
  Py.LF ∉ a -> Py.CR ∉ a ->
  tail (Py.readlines (a ++ Py.LF :: r)) = Py.readlines r.
Proof.
  intros Hl Hc. unfold Py.readlines.
  by rewrite universal_newlines_first, readlines_scan_first.
Qed.

Lemma readlines_single a :
  Py.LF ∉ a -> Py.CR ∉ a -> tail (Py.readlines a) = [].
Proof.
  intros Hl Hc. unfold Py.readlines.
  rewrite universal_newlines_plain by done. by apply readlines_scan_single.
Qed.

End StringFacts.

(** ** Lower case

    What is proved of every code point is read off the tables: a code
    point that the lower-case table maps is one of the points of its
    runs, and these are checked one by one. *)

Section LowerCase.

Implicit Types (s a r before after : str) (c d n : Z).

Lemma forallb_Forall {X} (P : X -> bool) (l : list X) :
  forallb P l = true -> Forall (fun x => P x = true) l.
Proof.
  induction l as [|x l IH]; cbn; [constructor|].
  intros [Hx Hl]%andb_true_iff. constructor; auto.
Qed.

Lemma in_run_points (lo hi step c : Z) :
  0 < step -> Py.in_run (lo, hi, step) c = true -> c ∈ run_points (lo, hi, step).
Proof.
  intros Hstep. unfold Py.in_run, run_points.
  intros [[Hlo Hhi]%andb_true_iff Hmod]%andb_true_iff.
  apply Z.leb_le in Hlo, Hhi. apply Z.eqb_eq in Hmod.
  apply list_elem_of_fmap. exists (Z.to_nat ((c - lo) / step)). split.
  - rewrite Z2Nat.id by (apply Z.div_pos; lia).
    pose proof (Z.div_mod (c - lo) step ltac:(lia)). lia.
  - apply elem_of_seq. split; [lia|]. cbn.
    assert ((c - lo) / step <= (hi - lo) / step) by (apply Z.div_le_mono; lia).
    assert (0 <= (c - lo) / step) by (apply Z.div_pos; lia). lia.
Qed.

Lemma lower_delta_domain (t : list (Z * Z * Z * Z)) c :
  Forall (fun run => (0 <? run.1.2) = true) t ->
  Py.lower_delta t c <> 0 -> c ∈ lower_domain t.
Proof.
  induction 1 as [|[[[lo hi] step] delta] t Hstep _ IH]; [done|].
  cbn [Py.lower_delta lower_domain flat_map]. cbn [fst snd] in Hstep.
  apply Z.ltb_lt in Hstep.
  destruct (Py.in_run (lo, hi, step) c) eqn:Hrun; intros Hd.
  - apply elem_of_app. left. by apply in_run_points.
  - apply elem_of_app. right. by apply IH.
Qed.

(** A property of every code point that the lower-case table maps *)
Lemma lowercase_table_ind (P : Z -> bool) :
  forallb P (lower_domain Py.lowercase_table) = true ->
  forall c, Py.lower_delta Py.lowercase_table c <> 0 -> P c = true.
Proof.
  intros HP c Hc. apply forallb_Forall in HP. rewrite Forall_forall in HP.
  apply HP, lower_delta_domain; [|done].
  apply forallb_Forall. vm_compute. reflexivity.
Qed.

Lemma to_lower_own c : c <> 304 -> own_lower_case (Py.to_lower c) = true.
Proof.
  intros H304. unfold Py.to_lower.
  destruct (decide (Py.lower_delta Py.lowercase_table c = 0)) as [E|E].
  - rewrite E, Z.add_0_r. unfold own_lower_case. rewrite E.
    destruct (Z.eqb_spec c Py.SIGMA) as [->|]; [vm_compute in E; discriminate|].
    destruct (Z.eqb_spec c 304); [done|]. done.
  - apply (lowercase_table_ind
             (fun c => own_lower_case (c + Py.lower_delta Py.lowercase_table c)));
      [|done].
    vm_compute. reflexivity.
Qed.

Lemma lower_at_own before c after :
  Forall (fun d => own_lower_case d = true) (Py.lower_at before c after).
Proof.
  unfold Py.lower_at, Py.lower_full.
  destruct (c =? Py.SIGMA).
  - destruct (Py.final_sigma before after); by constructor.
  - destruct (Z.eqb_spec c 304).
    + constructor; [done|]. by constructor.
    + constructor; [by apply to_lower_own|constructor].
Qed.

Lemma lower_scan_own before s :
  Forall (fun d => own_lower_case d = true) (Py.lower_scan before s).
Proof.
  revert before. induction s as [|c s IH]; intros before; [constructor|].
  cbn [Py.lower_scan]. apply Forall_app. split; [apply lower_at_own|apply IH].
Qed.

Lemma lower_at_fixed before c after :
  own_lower_case c = true -> Py.lower_at before c after = [c].
Proof.
  unfold own_lower_case, Py.lower_at, Py.lower_full, Py.to_lower.
  intros [[H1 H2]%andb_true_iff H3]%andb_true_iff.
  apply negb_true_iff in H1, H2. apply Z.eqb_eq in H3.
  rewrite H1, H2, H3. by rewrite Z.add_0_r.
Qed.

Lemma lower_scan_fixed before s :
  Forall (fun d => own_lower_case d = true) s -> Py.lower_scan before s = s.
Proof.
  intros H. revert before. induction H as [|c s Hc _ IH]; intros before; [done|].
  cbn [Py.lower_scan]. by rewrite lower_at_fixed, IH.
Qed.

Lemma lower_fixed s :
  Forall (fun d => own_lower_case d = true) s -> Py.lower s = s.
Proof. apply lower_scan_fixed. Qed.

Lemma lower_idemp s : Py.lower (Py.lower s) = Py.lower s.
Proof. apply lower_fixed, lower_scan_own. Qed.

(** Blanks and line ends: [lower] keeps them, makes none, and the context
    of a capital sigma does not reach across them. *)
Lemma is_sep_cases n : is_sep n = true -> n = Py.LF \/ n = Py.CR \/ n = Py.SP.
Proof.
  unfold is_sep. intros [[H|H]%orb_true_iff|H]%orb_true_iff;
    apply Z.eqb_eq in H; auto.
Qed.

Lemma sep_own n : is_sep n = true -> own_lower_case n = true.
Proof. by intros [->|[->| ->]]%is_sep_cases. Qed.

Lemma sep_uncased n :
  is_sep n = true -> Py.cased n = false /\ Py.case_ignorable n = false.
Proof. by intros [->|[->| ->]]%is_sep_cases. Qed.

Lemma lower_at_sep before c after d :
  is_sep d = true -> d ∈ Py.lower_at before c after -> c = d.
Proof.
  intros Hd. unfold Py.lower_at, Py.lower_full, Py.to_lower.
  destruct (c =? Py.SIGMA).
  - destruct (Py.final_sigma before after); intros ->%list_elem_of_singleton;
      done.
  - destruct (c =? 304).
    + intros [->| ->%list_elem_of_singleton]%elem_of_cons; done.
    + intros ->%list_elem_of_singleton.
      destruct (decide (Py.lower_delta Py.lowercase_table c = 0)) as [E|E];
        [rewrite E; lia|].
      pose proof (lowercase_table_ind
                    (fun c => negb (is_sep (c + Py.lower_delta Py.lowercase_table c)))
                    ltac:(vm_compute; reflexivity) c E) as H.
      cbn beta in H. by rewrite Hd in H.
Qed.

Lemma lower_scan_sep before s d :
  is_sep d = true -> d ∈ Py.lower_scan before s -> d ∈ s.
Proof.
  intros Hd. revert before. induction s as [|c s IH]; intros before; [done|].
  cbn [Py.lower_scan]. intros [H|H]%elem_of_app.
  - apply lower_at_sep in H as ->; [left|done].
  - right. by eapply IH.
Qed.

Lemma final_sigma_before_sep a n before after :
  is_sep n = true ->
  Py.final_sigma (a ++ n :: before) after = Py.final_sigma a after.
Proof.
  intros [Hc Hi]%sep_uncased. unfold Py.final_sigma.
  induction a as [|c a IH]; cbn [app Py.skip_ignorable].
  - by rewrite Hi, Hc.
  - destruct (Py.case_ignorable c); [exact IH|done].
Qed.

Lemma final_sigma_after_sep a n before after :
  is_sep n = true ->
  Py.final_sigma before (a ++ n :: after) = Py.final_sigma before a.
Proof.
  intros [Hc Hi]%sep_uncased. unfold Py.final_sigma.
  destruct (Py.skip_ignorable before) as [|c0 ?]; [done|]. f_equal.
  induction a as [|c a IH]; cbn [app Py.skip_ignorable].
  - by rewrite Hi, Hc.
  - destruct (Py.case_ignorable c); [exact IH|done].
Qed.

Lemma lower_scan_before_sep a n before s :
  is_sep n = true ->
  Py.lower_scan (a ++ n :: before) s = Py.lower_scan a s.
Proof.
  intros Hn. revert a. induction s as [|c s IH]; intros a; [done|].
  cbn [Py.lower_scan]. unfold Py.lower_at.
  rewrite final_sigma_before_sep by done. f_equal. apply (IH (c :: a)).
Qed.

Lemma lower_scan_app_sep before a n r :
  is_sep n = true ->
  Py.lower_scan before (a ++ n :: r)
  = Py.lower_scan before a ++ n :: Py.lower_scan [] r.
Proof.
  intros Hn. revert before. induction a as [|c a IH]; intros before.
  - cbn [app Py.lower_scan]. rewrite lower_at_fixed by (by apply sep_own).
    cbn [app]. f_equal. apply (lower_scan_before_sep [] n before r Hn).
  - cbn [app Py.lower_scan]. rewrite IH, <- app_assoc. f_equal.
    unfold Py.lower_at. by rewrite final_sigma_after_sep.
Qed.

Lemma lower_at_nonempty before c after : Py.lower_at before c after <> [].
Proof.
  unfold Py.lower_at, Py.lower_full.
  destruct (c =? Py.SIGMA); [done|]. by destruct (c =? 304).
Qed.

Lemma lower_app_sep a n r :
  is_sep n = true -> Py.lower (a ++ n :: r) = Py.lower a ++ n :: Py.lower r.
Proof. apply lower_scan_app_sep. Qed.

Lemma lower_sep s d : is_sep d = true -> d ∈ Py.lower s -> d ∈ s.
Proof. apply lower_scan_sep. Qed.

Lemma lower_nonempty s : s <> [] -> Py.lower s <> [].
Proof.
  destruct s as [|c s]; [done|]. intros _. unfold Py.lower. cbn [Py.lower_scan].
  pose proof (lower_at_nonempty [] c s). by destruct (Py.lower_at [] c s).
Qed.

End LowerCase.

(** ** Arrays and [make_subsequences] *)

Section ArrayFacts.

Context {T : Type}.
Implicit Types (a b : ndarray T) (v : list T) (ls : list (list T)).

(** Row [i] of a buffer made of rows of one length *)
Lemma concat_row ls (s i : nat) v rest :
  Forall (fun r => length r = s) ls ->
  ls !! i = Some v ->
  take s (drop (i * s) (concat ls ++ rest)) = v.
Proof.
  intros Hls. revert i. induction Hls as [|r ls Hr Hls IH]; intros i Hi.
  - done.
  - destruct i as [|i]; simpl in Hi.
    + injection Hi as ->. simpl. rewrite <- app_assoc, drop_0.
      by rewrite take_app_length' by done.
    + cbn [concat]. rewrite <- app_assoc.
      replace (S i * s)%nat with (length r + i * s)%nat by lia.
      rewrite drop_app_add. by apply IH.
Qed.

Lemma length_concat_rows ls (s : nat) :
  Forall (fun r => length r = s) ls -> length (concat ls) = (length ls * s)%nat.
Proof.
  induction 1 as [|r ls Hr _ IH]; [done|].
  cbn [concat length]. rewrite length_app, IH, Hr. lia.
Qed.

(** Writing row [k] into a buffer whose first [k] rows are written *)
Lemma write_row_next (n s k : nat) ls v (z : T) :
  Forall (fun r => length r = s) ls -> length ls = k -> length v = s ->
  (k < n)%nat ->
  Np.write_row (Np.mk (n, s) (concat ls ++ replicate ((n - k) * s) z)) k v
  = Np.mk (n, s) (concat (ls ++ [v]) ++ replicate ((n - S k) * s) z).
Proof.
  intros Hls Hk Hv Hlt. unfold Np.write_row, Np.ncols. cbn [Np.shape Np.data snd].
  f_equal. pose proof (length_concat_rows ls s Hls) as Hlen. rewrite Hk in Hlen.
  rewrite take_app_length' by done.
  replace (S k * s)%nat with (length (concat ls) + s)%nat by lia.
  rewrite drop_app_add, drop_replicate.
  rewrite concat_app. cbn [concat]. rewrite app_nil_r, <- !app_assoc.
  do 3 f_equal. nia.
Qed.

Lemma vstack_ok a b :
  Np.ncols a = Np.ncols b ->
  Np.vstack a b
  = Ok (Np.mk ((Np.nrows a + Np.nrows b)%nat, Np.ncols a) (Np.data a ++ Np.data b)).
Proof. intros H. unfold Np.vstack. by rewrite H, Nat.eqb_refl. Qed.

Lemma vstack_wf a b :
  Np.wf a -> Np.wf b -> Np.ncols a = Np.ncols b ->
  Np.wf (Np.mk ((Np.nrows a + Np.nrows b)%nat, Np.ncols a) (Np.data a ++ Np.data b)).
Proof.
  unfold Np.wf, Np.nrows, Np.ncols. cbn [Np.shape Np.data fst snd].
  intros Ha Hb Hc. rewrite length_app, Ha, Hb, Hc. lia.
Qed.

(** [reshape(-1, k)] of an array that already has [k] columns returns
    the array. *)
Lemma reshape_rows_same a (k : Z) :
  0 < k -> Np.ncols a = Z.to_nat k -> Np.reshape_rows a k = Ok a.
Proof.
  intros Hk Hc. unfold Np.reshape_rows.
  destruct (Z.leb_spec k 0); [lia|]. rewrite <- Hc.
  assert (Np.ncols a <> 0)%nat by lia.
  rewrite Nat.Div0.mod_mul. cbn [negb Nat.eqb].
  rewrite Nat.div_mul by done.
  destruct a as [[r c] d]. done.
Qed.

Lemma length_row a (i : nat) :
  Np.wf a -> (i < Np.nrows a)%nat -> length (Np.row a i) = Np.ncols a.
Proof.
  unfold Np.wf, Np.row. intros Hwf Hi.
  rewrite length_take, length_drop, Hwf. nia.
Qed.

Lemma take_rows_data_ok a (idx : list nat) :
  Np.wf a -> Forall (fun i => (i < Np.nrows a)%nat) idx ->
  exists d, Np.take_rows_data a idx = Ok d
            /\ length d = (length idx * Np.ncols a)%nat.
Proof.
  intros Hwf. induction 1 as [|i idx Hi _ (d & IH & Hd)].
  - by exists [].
  - exists (Np.row a i ++ d). cbn [Np.take_rows_data].
    destruct (Nat.ltb_spec i (Np.nrows a)); [|lia].
    rewrite IH. split; [done|].
    rewrite length_app, length_row, Hd by done. simpl. lia.
Qed.

Lemma take_rows_ok a (idx : list nat) :
  Np.wf a -> Forall (fun i => (i < Np.nrows a)%nat) idx ->
  exists r, Np.take_rows a idx = Ok r
            /\ Np.shape r = (length idx, Np.ncols a) /\ Np.wf r.
Proof.
  intros Hwf Hidx. destruct (take_rows_data_ok a idx Hwf Hidx) as (d & Hd & Hlen).
  exists (Np.mk (length idx, Np.ncols a) d). unfold Np.take_rows.
  rewrite Hd. split; [done|]. split; [done|]. done.
Qed.

End ArrayFacts.

(** ** Integers in [float64] arrays *)

Section Float64.

Implicit Types (x : Z) (v : list Z) (a : ndarray Z).

Lemma float64_round_exact x : Z.abs x <= 2 ^ 53 -> Np.float64_round x = x.
Proof.
  intros Hx. unfold Np.float64_round. cbn zeta.
  destruct (Z.leb_spec (Z.log2 (Z.abs x) - 52) 0) as [|Hk]; [done|].
  assert (Z.abs x = 2 ^ 53) as Ha.
  { destruct (Z.lt_ge_cases (Z.abs x) (2 ^ 53)) as [Hlt|]; [|lia].
    destruct (decide (Z.abs x = 0)) as [E|]; [rewrite E in Hk; cbn in Hk; lia|].
    apply Z.log2_lt_pow2 in Hlt; lia. }
  assert (x = 2 ^ 53 \/ x = - 2 ^ 53) as [-> | ->] by lia; reflexivity.
Qed.

Lemma float64_finite_exact x : Z.abs x <= 2 ^ 53 -> Np.float64_finite x = true.
Proof.
  intros Hx. unfold Np.float64_finite. rewrite float64_round_exact by done.
  apply Z.ltb_lt. assert (2 ^ 53 < 2 ^ 1024) by (apply Z.pow_lt_mono_r; lia). lia.
Qed.

Lemma float64_of_ints_ok v :
  Forall (fun x => Np.float64_finite x = true) v ->
  Np.float64_of_ints v = Ok (map Np.float64_round v).
Proof.
  induction 1 as [|x v Hx _ IH]; [done|].
  cbn [Np.float64_of_ints map]. unfold Np.float64_of_int. by rewrite Hx, IH.
Qed.


Lemma map_float64_round_exact v :
  Forall (fun x => Z.abs x <= 2 ^ 53) v -> map Np.float64_round v = v.
Proof.
  induction 1 as [|x v Hx _ IH]; [done|].
  cbn [map]. by rewrite IH, float64_round_exact.
Qed.

Lemma Forall_finite_exact v :
  Forall (fun x => Z.abs x <= 2 ^ 53) v ->
  Forall (fun x => Np.float64_finite x = true) v.
Proof. intros H. eapply Forall_impl; [exact H|]. apply float64_finite_exact. Qed.

Lemma set_row_ok a (i : nat) v :
  (i < Np.nrows a)%nat -> length v = Np.ncols a ->
  Forall (fun x => Np.float64_finite x = true) v ->
  Np.set_row a i v = Ok (Np.write_row a i (map Np.float64_round v)).
Proof.
  intros Hi Hv Hfin. unfold Np.set_row.
  destruct (Nat.ltb_spec i (Np.nrows a)); [|lia]. cbn [negb].
  rewrite float64_of_ints_ok by done. cbn [mbind result_bind].
  by rewrite length_map, Hv, Nat.eqb_refl.
Qed.


Lemma set_row_scalar_ok a (i : nat) x :
  (i < Np.nrows a)%nat -> Np.float64_finite x = true ->
  Np.set_row_scalar a i x
  = Ok (Np.write_row a i (replicate (Np.ncols a) (Np.float64_round x))).
Proof.
  intros Hi Hx. unfold Np.set_row_scalar, Np.float64_of_int.
  destruct (Nat.ltb_spec i (Np.nrows a)); [|lia]. by rewrite Hx.
Qed.


Lemma labels_exact :
  Z.abs A <= 2 ^ 53 /\ Z.abs B <= 2 ^ 53 /\ Z.abs UNKNOWN <= 2 ^ 53.
Proof. vm_compute. split_and!; discriminate. Qed.

End Float64.

Section MakeSubsequences.

Variables (long_sequence : list Z) (label : Z).

Local Abbreviation window := (window long_sequence).
Local Abbreviation windows := (windows long_sequence).
Local Abbreviation filled := (filled long_sequence label).

Lemma slice_window (s i : nat) :
  Py.slice long_sequence (Z.of_nat i) (Z.of_nat i + Z.of_nat s) = window s i.
Proof.
  unfold Py.slice, Py.clamp_index, window.
  destruct (Z.ltb_spec (Z.of_nat i) 0); [lia|].
  destruct (Z.ltb_spec (Z.of_nat i + Z.of_nat s) 0); [lia|].
  destruct (decide (i <= length long_sequence)%nat) as [Hi|Hi].
  - rewrite (Z.min_l (Z.of_nat i)) by lia. rewrite Nat2Z.id.
    destruct (decide (i + s <= length long_sequence)%nat).
    + rewrite Z.min_l by lia. f_equal. lia.
    + rewrite Z.min_r by lia.
      rewrite !take_ge; [done| |]; rewrite length_drop; lia.
  - rewrite !Z.min_r by lia. rewrite Nat2Z.id.
    rewrite !drop_ge by lia. by rewrite !take_nil.
Qed.

Lemma length_window (s i : nat) :
  (i + s <= length long_sequence)%nat -> length (window s i) = s.
Proof. intros H. unfold window. rewrite length_take, length_drop. lia. Qed.

Lemma windows_S s k : windows s (S k) = windows s k ++ [window s k].
Proof. unfold windows. by rewrite seq_S, map_app. Qed.

Lemma windows_length s k :
  (k + s <= S (length long_sequence))%nat ->
  Forall (fun r => length r = s) (windows s k).
Proof.
  intros H. apply Forall_forall. intros r Hr.
  apply list_elem_of_fmap in Hr as (i & -> & Hi).
  apply elem_of_seq in Hi. apply length_window. lia.
Qed.

Lemma make_subsequences_raises (sequence_length : Z) :
  sequence_length < 0 \/ Z.of_nat (length long_sequence) + 1 < sequence_length ->
  make_subsequences long_sequence label sequence_length = Raise ValueError.
Proof.
  intros H. unfold make_subsequences, Np.zeros.
  destruct (Z.ltb_spec (Z.of_nat (length long_sequence) - sequence_length + 1) 0);
    [done|].
  destruct (Z.ltb_spec sequence_length 0); [done|]. lia.
Qed.

Lemma filled_row (n s i : nat) :
  (n + s = S (length long_sequence))%nat -> (i < n)%nat ->
  Np.row (filled n s n).1 i = window s i
  /\ Np.row (filled n s n).2 i = [label].
Proof.
  intros Hn Hi. unfold Np.row, Np.ncols, filled. cbn [fst snd Np.shape Np.data].
  split.
  - apply concat_row; [apply windows_length; lia|].
    unfold windows. rewrite list_lookup_fmap, lookup_seq_lt by done. done.
  - apply (concat_row _ 1); [|by apply lookup_replicate_2].
    by apply Forall_replicate.
Qed.

Lemma filled_wf (n s : nat) :
  (n + s = S (length long_sequence))%nat ->
  Np.wf (filled n s n).1 /\ Np.wf (filled n s n).2.
Proof.
  intros Hn. unfold Np.wf, Np.nrows, Np.ncols, filled.
  cbn [fst snd Np.shape Np.data]. rewrite !Nat.sub_diag. cbn [replicate Nat.mul].
  rewrite !app_nil_r. split.
  - rewrite (length_concat_rows _ s) by (apply windows_length; lia).
    unfold windows. by rewrite length_map, length_seq.
  - rewrite (length_concat_rows _ 1), length_replicate; [done|].
    by apply Forall_replicate.
Qed.

End MakeSubsequences.

(** The loop of [make_subsequences]: the rows written so far hold the
    windows of the sequence as [float64] stores it. *)

Section MakeSubsequencesLoop.

Variables (long_sequence : list Z) (label : Z).

Local Abbreviation stored := (map Np.float64_round long_sequence).
Local Abbreviation filled_stored := (filled stored (Np.float64_round label)).

Lemma window_stored (s i : nat) :
  window stored s i = map Np.float64_round (window long_sequence s i).
Proof. unfold window. by rewrite <- fmap_drop, <- fmap_take. Qed.

Lemma make_subsequences_step_filled (n s k : nat) :
  (n + s = S (length long_sequence))%nat -> (k < n)%nat ->
  Forall (fun x => Np.float64_finite x = true) (window long_sequence s k) ->
  Np.float64_finite label = true ->
  make_subsequences_step long_sequence label (Z.of_nat s) k (filled_stored n s k)
  = Ok (filled_stored n s (S k)).
Proof.
  intros Hn Hk Hfin Hlabel. unfold make_subsequences_step, filled. cbn [fst snd].
  rewrite slice_window.
  rewrite set_row_ok
    by (unfold Np.nrows, Np.ncols; cbn [Np.shape fst snd];
        first [lia | apply length_window; lia | done]).
  cbn [mbind result_bind].
  rewrite set_row_scalar_ok by (unfold Np.nrows; cbn [Np.shape fst]; lia || done).
  cbn [mbind result_bind]. rewrite <- window_stored.
  rewrite (write_row_next n s k (windows stored s k) (window stored s k) 0).
  - rewrite <- windows_S.
    unfold Np.ncols at 1. cbn [Np.shape snd replicate].
    rewrite (write_row_next n 1 k (replicate k [Np.float64_round label])
               [Np.float64_round label] 0).
    + by rewrite <- replicate_S_end.
    + by apply Forall_replicate.
    + apply length_replicate.
    + done.
    + done.
  - apply windows_length. rewrite length_map. lia.
  - unfold windows. by rewrite length_map, length_seq.
  - apply length_window. rewrite length_map. lia.
  - done.
Qed.

Lemma Forall_window (P : Z -> Prop) (s i : nat) :
  Forall P long_sequence -> Forall P (window long_sequence s i).
Proof. intros H. unfold window. by apply Forall_take, Forall_drop. Qed.

Lemma make_subsequences_loop (n s j k : nat) :
  (n + s = S (length long_sequence))%nat -> (j + k = n)%nat ->
  Forall (fun x => Np.float64_finite x = true) long_sequence ->
  Np.float64_finite label = true ->
  for_each (make_subsequences_step long_sequence label (Z.of_nat s))
    (seq j k) (filled_stored n s j)
  = Ok (filled_stored n s n).
Proof.
  intros Hn Hj Hfin Hlabel. revert j Hj. induction k as [|k IH]; intros j Hj.
  - rewrite Nat.add_0_r in Hj. by subst.
  - cbn [seq for_each].
    rewrite make_subsequences_step_filled by (lia || done || by apply Forall_window).
    apply IH. lia.
Qed.

(** The arrays [np.zeros] gives, and the state before the first round *)
Lemma make_subsequences_zeros (sequence_length : Z) :
  0 <= sequence_length ->
  sequence_length <= Z.of_nat (length long_sequence) + 1 ->
  let s := Z.to_nat sequence_length in
  let n := (S (length long_sequence) - s)%nat in
  make_subsequences long_sequence label sequence_length
  = for_each (make_subsequences_step long_sequence label (Z.of_nat s))
      (seq 0 n) (filled_stored n s 0).
Proof.
  intros H0 Hle s n. unfold make_subsequences, Np.zeros.
  destruct (Z.ltb_spec (Z.of_nat (length long_sequence) - sequence_length + 1) 0);
    [lia|].
  destruct (Z.ltb_spec sequence_length 0); [lia|].
  cbn [orb mbind result_bind]. unfold Np.nrows. cbn [Np.shape fst].
  replace (Z.to_nat (Z.of_nat (length long_sequence) - sequence_length + 1))
    with n by lia.
  destruct (Z.ltb_spec (Z.of_nat n) 0); [lia|].
  change (1 <? 0) with false. cbn [orb mbind result_bind Np.shape fst].
  rewrite Nat2Z.id. fold s.
  replace sequence_length with (Z.of_nat s) by lia.
  unfold filled. cbn [windows seq map concat replicate app].
  rewrite Nat.sub_0_r. rewrite Nat.mul_1_r.
  change (Z.to_nat 1) with 1%nat. by rewrite Nat.mul_1_r.
Qed.

(** What [make_subsequences] returns *)
Lemma make_subsequences_ok (sequence_length : Z) :
  0 <= sequence_length ->
  sequence_length <= Z.of_nat (length long_sequence) + 1 ->
  Forall (fun x => Np.float64_finite x = true) long_sequence ->
  Np.float64_finite label = true ->
  let s := Z.to_nat sequence_length in
  let n := (S (length long_sequence) - s)%nat in
  make_subsequences long_sequence label sequence_length = Ok (filled_stored n s n).
Proof.
  intros H0 Hle Hfin Hlabel s n. rewrite make_subsequences_zeros by done.
  cbn zeta. fold s n. apply make_subsequences_loop; lia || done.
Qed.




End MakeSubsequencesLoop.

(** ** Shapes through the pipeline *)

Section Shapes.

Context (lib : Library).

Lemma train_test_split_ok (X y : ndarray Z) :
  Np.wf X -> Np.wf y -> Np.nrows X = Np.nrows y ->
  exists X_train X_val y_train y_val,
    train_test_split lib X y = Ok (X_train, X_val, y_train, y_val)
    /\ Np.shape X_train = (length (split_indices lib (Np.nrows X)).1, Np.ncols X)
    /\ Np.shape X_val = (length (split_indices lib (Np.nrows X)).2, Np.ncols X)
    /\ Np.shape y_train = (length (split_indices lib (Np.nrows X)).1, Np.ncols y)
    /\ Np.shape y_val = (length (split_indices lib (Np.nrows X)).2, Np.ncols y)
    /\ Np.wf X_train /\ Np.wf X_val /\ Np.wf y_train /\ Np.wf y_val.
Proof.
  intros HX Hy Hn. unfold train_test_split. rewrite <- Hn, Nat.eqb_refl.
  cbn [negb].
  assert (H1 : Forall (fun i => (i < Np.nrows X)%nat) (split_indices lib (Np.nrows X)).1).
  { apply Forall_forall. intros i Hi. apply (split_indices_lt lib).
    apply elem_of_app. by left. }
  assert (H2 : Forall (fun i => (i < Np.nrows X)%nat) (split_indices lib (Np.nrows X)).2).
  { apply Forall_forall. intros i Hi. apply (split_indices_lt lib).
    apply elem_of_app. by right. }
  destruct (take_rows_ok X _ HX H1) as (Xt & -> & ? & ?).
  destruct (take_rows_ok X _ HX H2) as (Xv & -> & ? & ?).
  assert (H1' : Forall (fun i => (i < Np.nrows y)%nat) (split_indices lib (Np.nrows X)).1)
    by (by rewrite <- Hn).
  assert (H2' : Forall (fun i => (i < Np.nrows y)%nat) (split_indices lib (Np.nrows X)).2)
    by (by rewrite <- Hn).
  destruct (take_rows_ok y _ Hy H1') as (yt & -> & ? & ?).
  destruct (take_rows_ok y _ Hy H2') as (yv & -> & ? & ?).
  exists Xt, Xv, yt, yv. cbn [mbind result_bind]. by split_and!.
Qed.

End Shapes.

(** ** [preprocess_text] *)

Section PreprocessText.

Implicit Types (w : world) (file_path content text : str).

(** [preprocess_text] opens the file for reading, which leaves the files
    as they are, and has closed it when it returns or raises. *)
Lemma preprocess_text_outcome w file_path :
  preprocess_text file_path w
  = (logged (EvOpenRead file_path) w, read_outcome (files w !! file_path)).
Proof.
  unfold preprocess_text, with_open, open_, readlines, mbind, M_bind, mret, M_ret.
  cbn [files logged]. unfold read_outcome.
  destruct (files w !! file_path) as [[content| |entries|]|] eqn:Hf; try done.
  - cbn [opened with_opened files logged]. rewrite Hf.
    rewrite bool_decide_eq_true_2 by left.
    unfold close. cbn [files cell trace opened with_opened logged remove_first].
    by rewrite decide_True.
  - cbn [opened with_opened files logged]. rewrite Hf.
    rewrite bool_decide_eq_true_2 by left.
    unfold close. cbn [files cell trace opened with_opened logged remove_first].
    by rewrite decide_True.
Qed.

Lemma preprocess_text_run w file_path content :
  files w !! file_path = Some (File content) ->
  preprocess_text file_path w
  = (logged (EvOpenRead file_path) w, Ok (preprocess_content content)).
Proof. intros Hf. by rewrite preprocess_text_outcome, Hf. Qed.

Lemma preprocess_content_chars content x :
  x ∈ preprocess_content content ->
  x = Py.SP \/ (Py.isspace x = false /\ own_lower_case x = true).
Proof.
  unfold preprocess_content, text_of_lines, Py.split. intros Hx.
  apply join_elem in Hx as [Hx|(tok & Htok & Hx)].
  - left. by apply list_elem_of_singleton in Hx.
  - right. split.
    + pose proof (proj1 (Forall_forall _ _)
                    (split_scan_tokens [] _ (Forall_nil_2 _)) _ Htok) as [_ Hns].
      unfold nonspace in Hns. rewrite Forall_forall in Hns. by apply Hns.
    + pose proof (split_scan_elem _ _ _ _ Htok Hx) as Hin. cbn [app] in Hin.
      apply remove_elem_of in Hin; [|done]. apply remove_elem_of in Hin; [|done].
      unfold lowered_text, lowered_lines, Py.lower in Hin.
      pose proof (lower_scan_own [] (Py.replace (lit "  ") (lit " ")
                    (Py.replace [Py.LF] (lit " ")
                       (Py.join (lit " ") (tail (Py.readlines content)))))) as Hown.
      rewrite Forall_forall in Hown. by apply Hown.
Qed.

Lemma preprocess_content_first_line first rest :
  Py.LF ∉ first -> Py.CR ∉ first ->
  preprocess_content (first ++ Py.LF :: rest) = preprocess_content (Py.LF :: rest).
Proof.
  intros Hl Hc. unfold preprocess_content, text_of_lines, lowered_text, lowered_lines.
  rewrite readlines_first by done.
  change (Py.LF :: rest) with ([] ++ Py.LF :: rest).
  by rewrite (readlines_first [] rest) by (by intros ?%elem_of_nil).
Qed.

Lemma preprocess_content_one_line first :
  Py.LF ∉ first -> Py.CR ∉ first -> preprocess_content first = [].
Proof.
  intros Hl Hc. unfold preprocess_content, text_of_lines, lowered_text, lowered_lines.
  by rewrite readlines_single.
Qed.

End PreprocessText.

(** C5, as amended.  For every file, the string [preprocess_text] returns
    is left unchanged by [lower]: none of its characters has another
    lower-case form.  It has no newline, every whitespace character in it
    is a blank, and no two of them are adjacent.  It does not depend on the
    first line of the file: it is determined by the lines after the first,
    so a file with another first line, or with an empty one, gives the
    same string, and a file of one line gives the empty string. *)
Theorem C5_preprocess_text_normal_form (w : world) (file_path content : str) :
  files w !! file_path = Some (File content) ->
  exists text,
    (preprocess_text file_path w).2 = Ok text
    /\ Forall (fun c => own_lower_case c = true) text
    /\ Py.lower text = text
    /\ (Py.LF ∉ text)
    /\ (forall c, c ∈ text -> Py.isspace c = true -> c = Py.SP)
    /\ no_double_space text = true
    /\ (forall first rest,
          content = first ++ Py.LF :: rest -> Py.LF ∉ first -> Py.CR ∉ first ->
          text = preprocess_content (Py.LF :: rest)
          /\ forall first' w',
               Py.LF ∉ first' -> Py.CR ∉ first' ->
               files w' !! file_path = Some (File (first' ++ Py.LF :: rest)) ->
               (preprocess_text file_path w').2 = Ok text)
    /\ (Py.LF ∉ content -> Py.CR ∉ content -> text = [])
    /\ (forall content' w',
          tail (Py.readlines content') = tail (Py.readlines content) ->
          files w' !! file_path = Some (File content') ->
          (preprocess_text file_path w').2 = Ok text).
Proof.
  intros Hf. exists (preprocess_content content).
  rewrite (preprocess_text_run _ _ _ Hf).
  assert (Hown : Forall (fun c => own_lower_case c = true)
                   (preprocess_content content)).
  { apply Forall_forall. intros x Hx.
    apply preprocess_content_chars in Hx as [->|[_ ?]]; done. }
  split_and!.
  - done.
  - done.
  - by apply lower_fixed.
  - intros Hx. apply preprocess_content_chars in Hx as [Hx|[Hx _]]; done.
  - intros c Hc Hsp. apply preprocess_content_chars in Hc as [Hc|[Hc _]];
      [done|congruence].
  - unfold preprocess_content, text_of_lines, Py.split.
    apply join_tokens_spacing, split_scan_tokens. constructor.
  - intros first rest -> Hl Hc. split.
    + by apply preprocess_content_first_line.
    + intros first' w' Hl' Hc' Hf'. rewrite (preprocess_text_run _ _ _ Hf').
      cbn [snd]. f_equal.
      by rewrite !preprocess_content_first_line.
  - apply preprocess_content_one_line.
  - intros content' w' Hlines Hf'. rewrite (preprocess_text_run _ _ _ Hf').
    cbn [snd]. f_equal. unfold preprocess_content, text_of_lines, lowered_text, lowered_lines.
    by rewrite Hlines.
Qed.

Lemma C5_preprocess_text_normal_form_witness :
  exists text,
    (preprocess_text (lit "./papers/Unknown/paper_1.txt") plain_world).2 = Ok text
    /\ Py.lower text = text /\ (Py.LF ∉ text) /\ no_double_space text = true.
Proof.
  destruct (C5_preprocess_text_normal_form plain_world
              (lit "./papers/Unknown/paper_1.txt") plain_paper)
    as (text & H1 & _ & H2 & H3 & _ & H4 & _).
  - vm_compute. reflexivity.
  - exists text. auto.
Defined.

(** The original sentence of C5 says that the string is fully lower-case.
    A character that is upper-case and has no lower-case form is kept by
    [lower]: a file whose second line is U+2102, the double-struck
    capital C, gives that character back, and [isupper] holds of it. *)
Lemma C5_counterexample :
  files double_struck_world !! lit "./papers/Unknown/paper_9.txt"
  = Some (File (lit "FEDERALIST No. 9" ++ [Py.LF; 8450]))
  /\ (preprocess_text (lit "./papers/Unknown/paper_9.txt") double_struck_world).2
     = Ok [8450]
  /\ Py.is_upper 8450 = true.
Proof. vm_compute. auto. Qed.

(** C6, as the code has it.  When every occurrence of an author's name in
    the lower-cased text of the file starts a word (it is at the start of
    the text or follows a character that is not a lower-case letter), the
    string [preprocess_text] returns contains neither ['hamilton'] nor
    ['madison']. *)
Theorem C6_names_removed_at_word_starts (w : world) (file_path content : str) :
  files w !! file_path = Some (File content) ->
  names_start_words false (lowered_text content) = true ->
  exists text,
    (preprocess_text file_path w).2 = Ok text
    /\ Py.contains hamilton text = false
    /\ Py.contains madison text = false.
Proof.
  intros Hf Hnames. exists (preprocess_content content).
  rewrite (preprocess_text_run _ _ _ Hf). split; [done|].
  destruct (remove_names_clean _ Hnames) as [Hh Hm].
  unfold preprocess_content, text_of_lines, Py.split. unfold lowered_text in Hh, Hm.
  split; apply not_true_is_false; intros Hc;
    apply (join_split_contains _ []) in Hc; cbn [app] in Hc; try congruence;
    try done.
  - intros Hsp. by apply (name_no_space hamilton) in Hsp; [|left].
  - intros Hsp. by apply (name_no_space madison) in Hsp; [|right].
Qed.

Lemma C6_names_removed_at_word_starts_witness :
  exists text,
    (preprocess_text (lit "./papers/Unknown/paper_1.txt") plain_world).2 = Ok text
    /\ Py.contains hamilton text = false
    /\ Py.contains madison text = false.
Proof.
  apply (C6_names_removed_at_word_starts plain_world
           (lit "./papers/Unknown/paper_1.txt") plain_paper).
  - vm_compute. reflexivity.
  - vm_compute. reflexivity.
Defined.

(** C6 as stated fails: one pass of [replace] removes the inner name of
    ["hamhamiltonilton"] and leaves ["hamilton"] behind. *)
Lemma C6_counterexample :
  files nested_name_world !! lit "./papers/Unknown/paper_9.txt"
  = Some (File (lit "FEDERALIST No. 9" ++ Py.LF :: lit "By Hamhamiltonilton"))
  /\ (preprocess_text (lit "./papers/Unknown/paper_9.txt") nested_name_world).2
     = Ok (lit "by hamilton")
  /\ Py.contains hamilton (lit "by hamilton") = true.
Proof. vm_compute. auto. Qed.

(** C2, as amended.  For every sequence of length [L >= 30] of integers
    within the range of [float64] and every label within that range,
    [make_subsequences] returns [X] of shape [(L - 30 + 1, 30)] and [y] of
    shape [(L - 30 + 1, 1)]; [vstack] of the two authors' arrays gives [X]
    and [y] with the same number of rows; and [reshape(-1, SEQ_LEN)]
    returns the training and the validation part as they are, with their
    rows of width 30.  Every array holds as many elements as its shape
    says. *)
Theorem C2_array_shapes (lib : Library) (seqA seqB : list Z) (labelA labelB : Z) :
  (30 <= length seqA)%nat -> (30 <= length seqB)%nat ->
  Forall (fun x => Np.float64_finite x = true) seqA ->
  Forall (fun x => Np.float64_finite x = true) seqB ->
  Np.float64_finite labelA = true -> Np.float64_finite labelB = true ->
  exists XA yA XB yB X y X_train X_val y_train y_val,
    make_subsequences seqA labelA SEQ_LEN = Ok (XA, yA)
    /\ Np.shape XA = ((length seqA - 30 + 1)%nat, 30%nat)
    /\ Np.shape yA = ((length seqA - 30 + 1)%nat, 1%nat)
    /\ make_subsequences seqB labelB SEQ_LEN = Ok (XB, yB)
    /\ Np.shape XB = ((length seqB - 30 + 1)%nat, 30%nat)
    /\ Np.shape yB = ((length seqB - 30 + 1)%nat, 1%nat)
    /\ Np.vstack XA XB = Ok X /\ Np.vstack yA yB = Ok y
    /\ Np.nrows X = Np.nrows y
    /\ Np.shape X = ((Np.nrows XA + Np.nrows XB)%nat, 30%nat)
    /\ train_test_split lib X y = Ok (X_train, X_val, y_train, y_val)
    /\ Np.reshape_rows X_train SEQ_LEN = Ok X_train
    /\ Np.reshape_rows X_val SEQ_LEN = Ok X_val
    /\ Np.ncols X_train = 30%nat /\ Np.ncols X_val = 30%nat
    /\ Np.nrows X_train = Np.nrows y_train /\ Np.nrows X_val = Np.nrows y_val
    /\ Forall Np.wf [XA; yA; XB; yB; X; y; X_train; X_val; y_train; y_val].
Proof.
  intros HA HB HfinA HfinB HlA HlB.
  pose proof (make_subsequences_ok seqA labelA SEQ_LEN) as EA.
  pose proof (make_subsequences_ok seqB labelB SEQ_LEN) as EB.
  unfold SEQ_LEN in EA, EB. cbn zeta in EA, EB.
  change (Z.to_nat 30) with 30%nat in EA, EB.
  specialize (EA ltac:(lia) ltac:(lia) HfinA HlA).
  specialize (EB ltac:(lia) ltac:(lia) HfinB HlB).
  set (nA := (S (length seqA) - 30)%nat) in *.
  set (nB := (S (length seqB) - 30)%nat) in *.
  set (sA := map Np.float64_round seqA) in *.
  set (sB := map Np.float64_round seqB) in *.
  assert (length sA = length seqA) as HlenA by apply length_map.
  assert (length sB = length seqB) as HlenB by apply length_map.
  destruct (filled_wf sA (Np.float64_round labelA) nA 30 ltac:(lia)) as [wXA wyA].
  destruct (filled_wf sB (Np.float64_round labelB) nB 30 ltac:(lia)) as [wXB wyB].
  destruct (filled sA (Np.float64_round labelA) nA 30 nA) as [XA yA] eqn:HfA.
  destruct (filled sB (Np.float64_round labelB) nB 30 nB) as [XB yB] eqn:HfB.
  cbn [fst snd] in *.
  assert (HsA : Np.shape XA = (nA, 30%nat) /\ Np.shape yA = (nA, 1%nat)).
  { unfold filled in HfA. by injection HfA as <- <-. }
  assert (HsB : Np.shape XB = (nB, 30%nat) /\ Np.shape yB = (nB, 1%nat)).
  { unfold filled in HfB. by injection HfB as <- <-. }
  destruct HsA as [HXA HyA], HsB as [HXB HyB].
  assert (HcX : Np.ncols XA = Np.ncols XB) by (unfold Np.ncols; by rewrite HXA, HXB).
  assert (Hcy : Np.ncols yA = Np.ncols yB) by (unfold Np.ncols; by rewrite HyA, HyB).
  pose proof (vstack_wf XA XB wXA wXB HcX) as wX.
  pose proof (vstack_wf yA yB wyA wyB Hcy) as wy.
  set (X := Np.mk ((Np.nrows XA + Np.nrows XB)%nat, Np.ncols XA) (Np.data XA ++ Np.data XB)) in *.
  set (y := Np.mk ((Np.nrows yA + Np.nrows yB)%nat, Np.ncols yA) (Np.data yA ++ Np.data yB)) in *.
  assert (Hrows : Np.nrows X = Np.nrows y).
  { unfold X, y, Np.nrows. cbn [Np.shape fst]. by rewrite HXA, HyA, HXB, HyB. }
  destruct (train_test_split_ok lib X y wX wy Hrows)
    as (Xt & Xv & yt & yv & Hsplit & HXt & HXv & Hyt & Hyv & wXt & wXv & wyt & wyv).
  assert (HcXc : Np.ncols X = 30%nat).
  { unfold X, Np.ncols. cbn [Np.shape snd]. by rewrite HXA. }
  exists XA, yA, XB, yB, X, y, Xt, Xv, yt, yv.
  assert (HcXt : Np.ncols Xt = 30%nat) by (unfold Np.ncols; by rewrite HXt).
  assert (HcXv : Np.ncols Xv = 30%nat) by (unfold Np.ncols; by rewrite HXv).
  split_and!; try done.
  - rewrite HXA. f_equal. lia.
  - rewrite HyA. f_equal. lia.
  - rewrite HXB. f_equal. lia.
  - rewrite HyB. f_equal. lia.
  - by apply vstack_ok.
  - by apply vstack_ok.
  - unfold X. cbn [Np.shape]. f_equal. unfold Np.ncols. by rewrite HXA.
  - by apply reshape_rows_same.
  - by apply reshape_rows_same.
  - unfold Np.nrows. by rewrite HXt, Hyt.
  - unfold Np.nrows. by rewrite HXv, Hyv.
  - by repeat constructor.
Qed.

Lemma C2_array_shapes_witness :
  exists XA yA X y X_train X_val : ndarray Z,
    make_subsequences (Demo.ramp 33) A SEQ_LEN = Ok (XA, yA)
    /\ Np.shape XA = (4%nat, 30%nat) /\ Np.shape yA = (4%nat, 1%nat)
    /\ Np.shape X = (7%nat, 30%nat) /\ Np.nrows X = Np.nrows y
    /\ Np.reshape_rows X_train SEQ_LEN = Ok X_train
    /\ Np.reshape_rows X_val SEQ_LEN = Ok X_val.
Proof.
  destruct (C2_array_shapes Demo.library (Demo.ramp 33) (Demo.ramp 32) A B)
    as (XA & yA & XB & yB & X & y & Xt & Xv & yt & yv & H).
  - vm_compute. lia.
  - vm_compute. lia.
  - apply Forall_forall. intros x Hx. apply float64_finite_exact.
    apply list_elem_of_fmap in Hx as (k & -> & Hk).
    apply elem_of_seq in Hk. lia.
  - apply Forall_forall. intros x Hx. apply float64_finite_exact.
    apply list_elem_of_fmap in Hx as (k & -> & Hk).
    apply elem_of_seq in Hk. lia.
  - reflexivity.
  - reflexivity.
  - destruct H as (H1 & H2 & H3 & H4 & H5 & H6 & H7 & H8 & H9 & H10 & H11 & H12 & H13 & _).
    exists XA, yA, X, y, Xt, Xv. split_and!; try done.
    rewrite H10. unfold Np.nrows. by rewrite H2, H5.
Defined.

(** The original sentence of C2 speaks of every integer sequence.  An
    integer beyond the range of [float64] cannot be stored: the assignment
    [X[i] = ...] raises [OverflowError], and no array is returned. *)
Lemma C2_counterexample :
  length (replicate 30 (2 ^ 1024 : Z)) = 30%nat
  /\ make_subsequences (replicate 30 (2 ^ 1024)) A SEQ_LEN = Raise OverflowError.
Proof. split; [apply length_replicate|]. vm_compute. reflexivity. Qed.

(** C3, as amended.  [make_subsequences] returns the sliding windows of
    its input with stride 1, as [float64] stores them: for a window length
    [sequence_length >= 0], a sequence at least that long of integers
    within the range of [float64], and every index [i] with
    [0 <= i <= len(long_sequence) - sequence_length], row [X[i]] holds the
    [float64] nearest to each element of
    [long_sequence[i : i + sequence_length]] and [y[i]] the one nearest to
    the label; there are [len(long_sequence) - sequence_length + 1] rows.
    When no element exceeds [2^53] in magnitude, as is the case for token
    ids, row [X[i]] is [long_sequence[i : i + sequence_length]] itself, and
    likewise [y[i]] is the label. *)
Theorem C3_sliding_windows (long_sequence : list Z) (label sequence_length i : Z) :
  0 <= sequence_length ->
  sequence_length <= Z.of_nat (length long_sequence) ->
  0 <= i <= Z.of_nat (length long_sequence) - sequence_length ->
  Forall (fun x => Np.float64_finite x = true) long_sequence ->
  Np.float64_finite label = true ->
  exists X y,
    make_subsequences long_sequence label sequence_length = Ok (X, y)
    /\ Np.row X (Z.to_nat i)
       = map Np.float64_round (Py.slice long_sequence i (i + sequence_length))
    /\ Np.row y (Z.to_nat i) = [Np.float64_round label]
    /\ (Forall (fun x => Z.abs x <= 2 ^ 53) long_sequence ->
        Np.row X (Z.to_nat i) = Py.slice long_sequence i (i + sequence_length))
    /\ (Z.abs label <= 2 ^ 53 -> Np.row y (Z.to_nat i) = [label])
    /\ Z.of_nat (Np.nrows X) = Z.of_nat (length long_sequence) - sequence_length + 1
    /\ Np.nrows y = Np.nrows X.
Proof.
  intros H0 Hle Hi Hfin Hlabel.
  pose proof (make_subsequences_ok long_sequence label sequence_length H0
                ltac:(lia) Hfin Hlabel) as E.
  cbn zeta in E.
  set (s := Z.to_nat sequence_length) in *.
  set (n := (S (length long_sequence) - s)%nat) in *.
  set (stored := map Np.float64_round long_sequence) in *.
  assert (length stored = length long_sequence) as Hlen by apply length_map.
  destruct (filled_row stored (Np.float64_round label) n s (Z.to_nat i)
              ltac:(lia) ltac:(lia)) as [HX Hy].
  assert (Py.slice long_sequence i (i + sequence_length)
          = window long_sequence s (Z.to_nat i)) as Hslice.
  { rewrite <- slice_window. f_equal; lia. }
  exists (filled stored (Np.float64_round label) n s n).1,
         (filled stored (Np.float64_round label) n s n).2.
  split_and!.
  - by rewrite E; destruct (filled stored (Np.float64_round label) n s n).
  - rewrite HX, Hslice. apply window_stored.
  - done.
  - intros Hexact. rewrite HX, Hslice. unfold stored.
    by rewrite map_float64_round_exact.
  - intros Hexact. by rewrite Hy, float64_round_exact.
  - unfold filled, Np.nrows. cbn [fst Np.shape]. lia.
  - done.
Qed.

Lemma C3_sliding_windows_witness :
  exists X y,
    make_subsequences (Demo.ramp 33) A 30 = Ok (X, y)
    /\ Np.row X 2 = Py.slice (Demo.ramp 33) 2 32
    /\ Np.row y 2 = [A].
Proof.
  destruct (C3_sliding_windows (Demo.ramp 33) A 30 2)
    as (X & y & H1 & _ & _ & H2 & H3 & _).
  - lia.
  - vm_compute. discriminate.
  - vm_compute. split; discriminate.
  - apply Forall_forall. intros x Hx. apply float64_finite_exact.
    apply list_elem_of_fmap in Hx as (k & -> & Hk).
    apply elem_of_seq in Hk. lia.
  - reflexivity.
  - exists X, y. split_and!; [done| |].
    + apply H2. apply Forall_forall. intros x Hx.
      apply list_elem_of_fmap in Hx as (k & -> & Hk).
      apply elem_of_seq in Hk. lia.
    + apply H3. vm_compute. discriminate.
Defined.

(** The original sentence of C3 speaks of every sequence.  [float64] has
    53 bits of precision: the integer [2^53 + 1] is stored as [2^53], so the
    row is not the slice of the list. *)
Lemma C3_counterexample :
  make_subsequences [2 ^ 53 + 1] A 1
  = Ok (Np.mk (1%nat, 1%nat) [2 ^ 53], Np.mk (1%nat, 1%nat) [A])
  /\ Np.row (Np.mk (1%nat, 1%nat) [2 ^ 53]) 0 = [2 ^ 53]
  /\ Py.slice [2 ^ 53 + 1] 0 (0 + 1) = [2 ^ 53 + 1]
  /\ 2 ^ 53 <> 2 ^ 53 + 1.
Proof. split_and!; [vm_compute; reflexivity|reflexivity|reflexivity|lia]. Qed.

(** ** Running the monad *)

Section Run.

Context {T U : Type}.
Implicit Types (m : M T) (k : T -> M U) (w : world).

Lemma bind_ok m k w w' a : m w = (w', Ok a) -> (m ≫= k) w = k a w'.
Proof. intros H. unfold mbind, M_bind. by rewrite H. Qed.

Lemma bind_raise m k w w' e :
  m w = (w', Raise e) -> (m ≫= k) w = (w', Raise e).
Proof. intros H. unfold mbind, M_bind. by rewrite H. Qed.

End Run.

Lemma console_logged e w :
  console (logged e w)
  = console w ++ match e with EvPrint l => [l] | _ => [] end.
Proof.
  unfold console, logged. cbn [trace]. rewrite omap_app. f_equal.
  by destruct e.
Qed.

(** ** Votes *)

Section Votes.

Implicit Types (y : ndarray float) (p : float).

Lemma np_sum_count (f : float -> bool) (l : list float) :
  fold_right (fun b acc => Z.b2z b + acc) 0 (map f l)
  = Z.of_nat (length (filter (fun p => f p = true) l)).
Proof.
  induction l as [|p l IH]; [done|]. cbn [map fold_right]. rewrite IH.
  rewrite filter_cons. destruct (decide (f p = true)) as [->|Hf].
  - cbn [length Z.b2z]. lia.
  - apply not_true_is_false in Hf. rewrite Hf. cbn [Z.b2z]. lia.
Qed.

Lemma filter_ext_length {X} (P Q : X -> Prop) `{!forall x, Decision (P x)}
    `{!forall x, Decision (Q x)} (l : list X) :
  (forall x, P x <-> Q x) -> length (filter P l) = length (filter Q l).
Proof.
  intros HPQ. induction l as [|x l IH]; [done|]. rewrite !filter_cons.
  destruct (decide (P x)) as [HP|HP], (decide (Q x)) as [HQ|HQ];
    cbn [length]; rewrite ?IH;
    [done | exfalso; by apply HQ, HPQ | exfalso; by apply HP, HPQ | done].
Qed.

Lemma votes_count y :
  votes y = (count_predicted A y, count_predicted B y).
Proof.
  unfold votes, Np.sum, Np.eq_int, Np.gt, count_predicted. cbn [Np.data].
  rewrite !map_map. rewrite !np_sum_count. f_equal; f_equal;
    apply filter_ext_length; intros p; unfold predicted_author, A, B;
    destruct (PrimFloat.ltb 0.5 p); cbn; done.
Qed.

Lemma count_predicted_total y :
  count_predicted A y + count_predicted B y = Z.of_nat (length (Np.data y)).
Proof.
  unfold count_predicted. induction (Np.data y) as [|p l IH]; [done|].
  rewrite !filter_cons.
  assert (predicted_author p = A /\ predicted_author p <> B
          \/ predicted_author p <> A /\ predicted_author p = B) as [[Ha Hb]|[Ha Hb]]
    by (unfold predicted_author, A, B; destruct (PrimFloat.ltb 0.5 p); auto).
  - rewrite decide_True, decide_False by done. cbn [length] in *. lia.
  - rewrite decide_False, decide_True by done. cbn [length] in *. lia.
Qed.

Lemma verdict_cases (a b : Z) :
  (b < a -> verdict a b = lit "Author A")
  /\ (a <= b -> verdict a b = lit "Author B").
Proof. unfold verdict. destruct (Z.ltb_spec b a); split; (done || lia). Qed.

End Votes.

(** ** The vote-predict step for one paper *)

Section Attribute.

Context (lib : Library).
Implicit Types (t : tokenizer lib) (m : model lib) (x content : str) (w : world).

Lemma encode_run t text w :
  encode lib t text w
  = (logged EvTextsToSequences w, first (texts_to_sequences lib t [text])).
Proof. done. Qed.

Lemma encoded_exact t texts (sq : list Z) :
  first (texts_to_sequences lib t texts) = Ok sq ->
  Forall (fun i => Z.abs i <= 2 ^ 53) sq.
Proof.
  intros H. apply Forall_forall. intros i Hi.
  destruct (texts_to_sequences lib t texts) as [|sq' rest] eqn:E; [done|].
  injection H as ->.
  pose proof (texts_to_sequences_ids lib t texts sq i) as Hid.
  rewrite E in Hid. specialize (Hid ltac:(by left) Hi).
  pose proof (word_index_len_bound lib t). lia.
Qed.

(** Token ids and the labels are stored as they are *)
Lemma make_subsequences_ids t texts (sq : list Z) (label : Z) :
  first (texts_to_sequences lib t texts) = Ok sq ->
  (29 <= length sq)%nat -> Z.abs label <= 2 ^ 53 ->
  let n := (S (length sq) - 30)%nat in
  make_subsequences sq label SEQ_LEN = Ok (filled sq label n 30 n).
Proof.
  intros Henc Hlen Hlabel n.
  pose proof (encoded_exact t texts sq Henc) as Hexact.
  pose proof (make_subsequences_ok sq label SEQ_LEN) as E.
  unfold SEQ_LEN in *. cbn zeta in E. change (Z.to_nat 30) with 30%nat in E.
  rewrite E by (lia || by apply Forall_finite_exact || by apply float64_finite_exact).
  by rewrite map_float64_round_exact, float64_round_exact.
Qed.

Lemma make_subsequences_ids_inv t texts (sq : list Z) (label : Z) Xy :
  first (texts_to_sequences lib t texts) = Ok sq -> Z.abs label <= 2 ^ 53 ->
  make_subsequences sq label SEQ_LEN = Ok Xy ->
  (29 <= length sq)%nat
  /\ Xy = filled sq label (S (length sq) - 30) 30 (S (length sq) - 30).
Proof.
  intros Henc Hlabel H. destruct (decide (29 <= length sq)%nat) as [Hlen|Hlen].
  - split; [done|].
    rewrite (make_subsequences_ids t texts) in H by done. by injection H.
  - rewrite make_subsequences_raises in H; [done|]. unfold SEQ_LEN. lia.
Qed.


(** The loop body, step by step *)
Lemma attribute_unfold t m x w :
  attribute lib t m x w
  = let w1 := logged (EvOpenRead (dir_Unknown ++ x)) w in
    match read_outcome (files w !! (dir_Unknown ++ x)) with
    | Raise e => (w1, Raise e)
    | Ok unknown =>
        let w2 := logged EvTextsToSequences w1 in
        match first (texts_to_sequences lib t [unknown]) with
        | Raise e => (w2, Raise e)
        | Ok unknown_long_sequences =>
            match make_subsequences unknown_long_sequences UNKNOWN SEQ_LEN with
            | Raise e => (w2, Raise e)
            | Ok Xy =>
                match Np.reshape_rows Xy.1 SEQ_LEN with
                | Raise e => (w2, Raise e)
                | Ok X_sequences =>
                    let v := votes (predict lib m X_sequences) in
                    (logged (EvPrint (report x v.1 v.2)) (logged EvModelPredict w2),
                     Ok tt)
                end
            end
        end
    end.
Proof.
  unfold attribute. unfold mbind at 1, M_bind at 1.
  rewrite preprocess_text_outcome. cbn zeta.
  destruct (read_outcome _) as [unknown|e]; [|done].
  unfold encode, call, lift, mbind, M_bind.
  destruct (first _) as [sq|e]; [|done].
  destruct (make_subsequences _ _ _) as [Xy|e]; [|done].
  by destruct (Np.reshape_rows _ _) as [X|e].
Qed.

Lemma report_majority_line x (y : ndarray float) :
  report x (votes y).1 (votes y).2 = majority_line x y.
Proof.
  rewrite votes_count. cbn [fst snd]. unfold report, majority_line, verdict.
  cbn zeta. set (a := count_predicted A _). set (b := count_predicted B _).
  destruct (Z.ltb_spec b a); [by rewrite decide_True | by rewrite decide_False by lia].
Qed.

(** What a run of the loop body comes to *)
Lemma attribute_outcome t m x w :
  match attribute lib t m x w with
  | (w', Raise _) => console w' = console w
  | (w', Ok _) =>
      exists content (unknown_long_sequences : list Z) (X_sequences ys : ndarray Z),
        files w !! (dir_Unknown ++ x) = Some (File content)
        /\ first (texts_to_sequences lib t [preprocess_content content])
           = Ok unknown_long_sequences
        /\ make_subsequences unknown_long_sequences UNKNOWN SEQ_LEN
           = Ok (X_sequences, ys)
        /\ console w' = console w ++ [majority_line x (predict lib m X_sequences)]
  end.
Proof.
  rewrite attribute_unfold. cbn zeta. unfold read_outcome.
  destruct (files w !! (dir_Unknown ++ x)) as [[content| |entries|]|] eqn:Hf;
    try (by rewrite console_logged, app_nil_r).
  destruct (first _) as [sq|] eqn:Henc; [|by rewrite !console_logged, !app_nil_r].
  destruct (make_subsequences _ _ _) as [[X ys]|] eqn:Hmk;
    [|by rewrite !console_logged, !app_nil_r].
  destruct (make_subsequences_ids_inv t _ _ UNKNOWN _ Henc
              (proj2 (proj2 labels_exact)) Hmk) as [Hlen HXy].
  assert (Np.ncols X = 30%nat) as Hc by (unfold filled in HXy; by injection HXy as -> _).
  cbn [fst]. rewrite reshape_rows_same by done.
  exists content, sq, X, ys. split_and!; try done.
  rewrite !console_logged, !app_nil_r. by rewrite report_majority_line.
Qed.

End Attribute.



(** C4. Every window of an unknown paper casts one vote: a prediction [p]
    votes for author A when [p > 0.5] is false and for author B when it is
    true, so the two counts add up to the number of windows given to
    [model.predict]. *)
Theorem C4_one_vote_per_window (lib : Library) (m : model lib)
    (X_sequences : ndarray Z) :
  (0 < Np.nrows X_sequences)%nat ->
  let y := predict lib m X_sequences in
  let votes_for_authorA := (votes y).1 in
  let votes_for_authorB := (votes y).2 in
  (forall p : float,
     votes (Np.mk (1%nat, 1%nat) [p])
     = if PrimFloat.ltb 0.5%float p then (0, 1) else (1, 0))
  /\ votes_for_authorA = count_predicted A y
  /\ votes_for_authorB = count_predicted B y
  /\ votes_for_authorA + votes_for_authorB = Z.of_nat (Np.nrows X_sequences).
Proof.
  intros Hrows. cbn zeta. split_and!.
  - intros p. unfold votes, Np.sum, Np.eq_int, Np.gt. cbn.
    by destruct (PrimFloat.ltb 0.5 p).
  - by rewrite votes_count.
  - by rewrite votes_count.
  - rewrite votes_count. cbn [fst snd]. rewrite count_predicted_total.
    by destruct (predict_shape lib m X_sequences Hrows) as [_ ->].
Qed.

Lemma C4_one_vote_per_window_witness :
  let X := Np.mk (3%nat, 2%nat) [104; 105; 116; 111; 122; 97] in
  votes (predict Demo.library tt X) = (1, 2)
  /\ (votes (predict Demo.library tt X)).1 + (votes (predict Demo.library tt X)).2
     = Z.of_nat (Np.nrows X).
Proof.
  intros X. split; [vm_compute; reflexivity|].
  apply (C4_one_vote_per_window Demo.library tt X). vm_compute. lia.
Defined.

(** ** Triples for runs

    [triple P m Q R]: from a world that satisfies [P], the run of [m]
    either returns [a] in a world that satisfies [Q a], or raises in a
    world that satisfies [R]. *)

Section Triples.

Context {T U : Type}.
Implicit Types (P : world -> Prop) (R : world -> Prop).

Lemma triple_ret P (Q : T -> world -> Prop) R (a : T) :
  (forall w, P w -> Q a w) -> triple P (mret a) Q R.
Proof. intros H w Hw. by apply H. Qed.

Lemma triple_bind P (Q : T -> world -> Prop) (Q' : U -> world -> Prop) R
    (m : M T) (k : T -> M U) :
  triple P m Q R -> (forall a, triple (Q a) (k a) Q' R) ->
  triple P (m ≫= k) Q' R.
Proof.
  intros Hm Hk w Hw. specialize (Hm w Hw). unfold mbind, M_bind.
  destruct (m w) as [w' [a|e]]; [|done]. by apply Hk.
Qed.

Lemma triple_lift P (Q : T -> world -> Prop) R (r : result T) :
  (forall w, P w -> R w) -> (forall a w, r = Ok a -> P w -> Q a w) ->
  triple P (lift r) Q R.
Proof. intros HR HQ w Hw. unfold lift. destruct r; auto. Qed.

Lemma triple_weaken P P' (Q Q' : T -> world -> Prop) R R' (m : M T) :
  triple P' m Q' R' ->
  (forall w, P w -> P' w) -> (forall a w, Q' a w -> Q a w) ->
  (forall w, R' w -> R w) ->
  triple P m Q R.
Proof.
  intros Hm HP HQ HR w Hw. specialize (Hm w (HP w Hw)).
  destruct (m w) as [w' [a|e]]; auto.
Qed.

(** A fact that does not depend on the world is carried along. *)
Lemma triple_pure P (Q : T -> world -> Prop) R (m : M T) (fact : Prop) :
  (fact -> triple P m Q R) ->
  triple (fun w => P w /\ fact) m (fun a w => Q a w /\ fact) R.
Proof.
  intros Hm w [Hw Hfact]. specialize (Hm Hfact w Hw).
  destruct (m w) as [w' [a|e]]; auto.
Qed.

Lemma triple_run_cell P P' (Q : T -> world -> Prop) R (n : nat) (m : M T) :
  triple P' m Q R ->
  (forall w, P w -> P' (mkWorld (files w) n (trace w) (opened w))) ->
  triple P (run_cell n m) Q R.
Proof. intros Hm HP w Hw. unfold run_cell. by apply Hm, HP. Qed.

End Triples.

Lemma triple_emit (P : world -> Prop) (Q : unit -> world -> Prop) R (e : event) :
  (forall w, P w -> Q tt (logged e w)) -> triple P (emit e) Q R.
Proof. intros H w Hw. by apply H. Qed.

Lemma triple_listdir (P : world -> Prop) (Q : list str -> world -> Prop) R (path : str) :
  (forall w, P w -> R (logged (EvListdir path) w)) ->
  (forall w entries, P w -> files w !! path = Some (Dir entries) ->
                     Q entries (logged (EvListdir path) w)) ->
  triple P (listdir path) Q R.
Proof.
  intros HR HQ w Hw. unfold listdir.
  destruct (files w !! path) as [[| | |]|] eqn:Hf; auto.
Qed.

Lemma triple_preprocess_text (P : world -> Prop) (Q : str -> world -> Prop) R
    (path : str) :
  (forall w, P w -> R (logged (EvOpenRead path) w)) ->
  (forall w text, P w -> Q text (logged (EvOpenRead path) w)) ->
  triple P (preprocess_text path) Q R.
Proof.
  intros HR HQ w Hw. rewrite preprocess_text_outcome.
  destruct (read_outcome _); auto.
Qed.

Lemma triple_call {T} (P : world -> Prop) (Q : T -> world -> Prop) R (e : event)
    (r : result T) :
  (forall w, P w -> R (logged e w)) ->
  (forall w a, P w -> Q a (logged e w)) ->
  triple P (call e r) Q R.
Proof. intros HR HQ w Hw. unfold call. destruct r; auto. Qed.

(** A loop keeps an invariant that each round keeps. *)
Lemma triple_for_M {I S} (Inv : world -> Prop) R
    (body : I -> S -> M S) (l : list I) (s : S) :
  (forall i s, i ∈ l -> triple Inv (body i s) (fun _ => Inv) R) ->
  triple Inv (for_M body l s) (fun _ => Inv) R.
Proof.
  revert s. induction l as [|i l IH]; intros s Hbody.
  - by apply triple_ret.
  - cbn [for_M]. eapply triple_bind.
    + apply Hbody. left.
    + intros s'. apply IH. intros j s'' Hj. apply Hbody. by right.
Qed.

(** ** The notebook keeps the discipline *)

Section Discipline.

Context (lib : Library) (fs : gmap str node).
Implicit Types (n : nat) (need tr : list (nat * event)) (e : event) (w : world).

Local Abbreviation may_emit := (may_emit fs).
Local Abbreviation inside := (inside fs).
Local Abbreviation safe := (safe fs).
Local Abbreviation fresh := (fresh fs).

Lemma inside_safe n need w : inside n need w -> safe w.
Proof. by intros (? & ? & _ & _ & _ & ?). Qed.

Lemma inside_logged_new n need e w :
  inside n need w -> may_emit need e -> inside n ((n, e) :: need) (logged e w).
Proof.
  intros (Hf & Hd & Hc & Hle & Hneed & Ho) He. unfold inside, logged.
  cbn [files trace cell opened]. rewrite Hc in *. split_and!; try done.
  - constructor; [done|]. split; [done|].
    rewrite Forall_forall in Hneed.
    destruct e; try done; cbn in He |- *; by apply Hneed.
  - apply Forall_app. split; [done|]. constructor; [|done]. by unfold stage_le.
  - constructor.
    + apply elem_of_app. right. left.
    + eapply Forall_impl; [exact Hneed|]. intros ce Hce.
      apply elem_of_app. by left.
Qed.

Lemma inside_logged n need e w :
  inside n need w -> may_emit need e -> inside n need (logged e w).
Proof.
  intros Hw He. destruct (inside_logged_new n need e w Hw He) as (?&?&?&?&Hn&?).
  apply Forall_cons in Hn as [_ Hn]. by split_and!.
Qed.

Lemma inside_next n n' need w :
  inside n need w -> stage_le n n' ->
  inside n' need (mkWorld (files w) n' (trace w) (opened w)).
Proof.
  intros (Hf & Hd & Hc & Hle & Hneed & Ho) Hnn'. unfold inside.
  cbn [files trace cell opened].
  split_and!; try done.
  eapply Forall_impl; [exact Hle|]. unfold stage_le in *. intros ce ?. lia.
Qed.

Lemma inside_forget n need need' w :
  inside n need w -> need' ⊆ need -> inside n need' w.
Proof.
  intros (Hf & Hd & Hc & Hle & Hneed & Ho) Hsub. split_and!; try done.
  rewrite Forall_forall in *. auto.
Qed.

(** *** The operations *)

Lemma emit_inside n need e :
  may_emit need e ->
  triple (inside n need) (emit e) (fun _ => inside n need) safe.
Proof. intros He. apply triple_emit. intros w Hw. by apply inside_logged. Qed.

Lemma call_inside {T} n need e (r : result T) :
  may_emit need e ->
  triple (inside n need) (call e r) (fun _ => inside n need) safe.
Proof.
  intros He. apply triple_call.
  - intros w Hw. by eapply inside_safe, inside_logged.
  - intros w _ Hw. by apply inside_logged.
Qed.

Lemma print_inside n need line :
  triple (inside n need) (print line) (fun _ => inside n need) safe.
Proof. by apply emit_inside. Qed.

Lemma lift_inside {T} n need (r : result T) :
  triple (inside n need) (lift r) (fun _ => inside n need) safe.
Proof. apply triple_lift; [apply inside_safe | done]. Qed.

Lemma ret_inside {T} n need (a : T) :
  triple (inside n need) (mret a) (fun _ => inside n need) safe.
Proof. by apply triple_ret. Qed.

Lemma print_lines_inside n need ls :
  triple (inside n need) (print_lines ls) (fun _ => inside n need) safe.
Proof. apply triple_for_M. intros l _ _. apply print_inside. Qed.

Lemma listdir_inside n need d :
  d ∈ papers_dirs ->
  triple (inside n need) (listdir d)
    (fun entries w => inside n need w /\ fs !! d = Some (Dir entries)) safe.
Proof.
  intros Hd. apply triple_listdir.
  - intros w Hw. by eapply inside_safe, inside_logged.
  - intros w entries Hw Hf. split; [by apply inside_logged|].
    destruct Hw as [<- _]. done.
Qed.

Lemma preprocess_text_inside n need d x entries :
  d ∈ papers_dirs -> fs !! d = Some (Dir entries) -> x ∈ entries ->
  triple (inside n need) (preprocess_text (d ++ x)) (fun _ => inside n need) safe.
Proof.
  intros Hd Hf Hx.
  assert (may_emit need (EvOpenRead (d ++ x))) by (by exists d, x, entries).
  apply triple_preprocess_text.
  - intros w Hw. by eapply inside_safe, inside_logged.
  - intros w _ Hw. by apply inside_logged.
Qed.

Lemma concat_papers_inside n need d :
  d ∈ papers_dirs ->
  triple (inside n need) (concat_papers d) (fun _ => inside n need) safe.
Proof.
  intros Hd. unfold concat_papers. eapply triple_bind.
  - by apply listdir_inside.
  - intros names. cbn beta.
    apply triple_weaken with
      (P' := fun w => inside n need w /\ fs !! d = Some (Dir names))
      (Q' := fun _ w => inside n need w /\ fs !! d = Some (Dir names))
      (R' := safe); [|done|by intros _ w [? _]|done].
    apply triple_for_M. intros x all Hx. apply triple_pure. intros Hf.
    eapply triple_bind; [by eapply preprocess_text_inside|].
    intros t. apply ret_inside.
Qed.

Lemma encode_inside n need (t : tokenizer lib) text :
  fitted_tokenizer ∈ need ->
  triple (inside n need) (encode lib t text) (fun _ => inside n need) safe.
Proof.
  intros Hfit. unfold encode. eapply triple_bind.
  - by apply call_inside.
  - intros ?. apply lift_inside.
Qed.

Lemma dir_A_papers : dir_A ∈ papers_dirs.
Proof. unfold papers_dirs. left. Qed.

Lemma dir_B_papers : dir_B ∈ papers_dirs.
Proof. unfold papers_dirs. right. left. Qed.

Lemma dir_Unknown_papers : dir_Unknown ∈ papers_dirs.
Proof. unfold papers_dirs. right. right. left. Qed.

(** *** The cells *)

Ltac step lem := eapply triple_bind; [lem | intros ?; cbn beta zeta].

Lemma cell3_inside need :
  triple (inside 3 need) cell3 (fun _ => inside 3 need) safe.
Proof.
  unfold cell3.
  step ltac:(apply concat_papers_inside, dir_A_papers).
  step ltac:(apply concat_papers_inside, dir_B_papers).
  step ltac:(apply print_inside).
  step ltac:(apply print_inside).
  apply ret_inside.
Qed.

Lemma cell5_inside all_authorA all_authorB :
  triple (inside 5 []) (cell5 lib all_authorA all_authorB)
    (fun _ => inside 5 [fitted_tokenizer]) safe.
Proof.
  unfold cell5. cbn zeta.
  eapply triple_bind.
  - apply triple_call with (Q := fun _ => inside 5 [fitted_tokenizer]).
    + intros w Hw. by eapply inside_safe, (inside_logged 5 [] EvTokenizerFit).
    + intros w _ Hw. by apply (inside_logged_new 5 [] EvTokenizerFit).
  - intros ?. cbn beta zeta.
    step ltac:(apply encode_inside; left).
    step ltac:(apply encode_inside; left).
    step ltac:(apply lift_inside).
    step ltac:(apply lift_inside).
    step ltac:(apply print_inside).
    step ltac:(apply print_inside).
    step ltac:(apply print_inside).
    apply ret_inside.
Qed.

Lemma cell7_inside need all_authorA all_authorB :
  triple (inside 7 need) (cell7 lib all_authorA all_authorB)
    (fun _ => inside 7 need) safe.
Proof.
  unfold cell7. cbn zeta.
  step ltac:(by apply call_inside).
  step ltac:(apply lift_inside).
  step ltac:(apply print_inside).
  apply print_inside.
Qed.

Lemma cell9_inside need XyA XyB :
  triple (inside 9 need) (cell9 lib XyA XyB) (fun _ => inside 9 need) safe.
Proof.
  unfold cell9.
  step ltac:(apply lift_inside).
  step ltac:(apply lift_inside).
  eapply triple_bind; [by apply call_inside|].
  intros [[[X_train X_val] y_train] y_val]. cbn beta iota zeta.
  step ltac:(apply lift_inside).
  step ltac:(apply lift_inside).
  step ltac:(apply print_inside).
  step ltac:(apply print_inside).
  step ltac:(apply print_inside).
  step ltac:(apply print_inside).
  apply ret_inside.
Qed.

Lemma cell11_inside need (t : tokenizer lib) :
  triple (inside 11 need) (cell11 lib t) (fun _ => inside 11 need) safe.
Proof.
  unfold cell11. cbn zeta.
  step ltac:(apply print_lines_inside).
  apply ret_inside.
Qed.

Lemma cell13_inside need (m : model lib) X_train X_val y_train y_val :
  triple (inside 13 need) (cell13 lib m X_train X_val y_train y_val)
    (fun _ => inside 13 (fitted_model :: need)) safe.
Proof.
  unfold cell13. cbn zeta.
  step ltac:(apply print_lines_inside).
  apply triple_call.
  - intros w Hw. by eapply inside_safe, (inside_logged 13 need EvModelFit).
  - intros w _ Hw. by apply (inside_logged_new 13 need EvModelFit).
Qed.

Lemma attribute_inside need (t : tokenizer lib) (m : model lib) x entries :
  fitted_tokenizer ∈ need -> fitted_model ∈ need ->
  fs !! dir_Unknown = Some (Dir entries) -> x ∈ entries ->
  triple (inside 15 need) (attribute lib t m x) (fun _ => inside 15 need) safe.
Proof.
  intros Htok Hmod Hf Hx. unfold attribute.
  step ltac:(by eapply preprocess_text_inside; [apply dir_Unknown_papers|..]).
  step ltac:(by apply encode_inside).
  step ltac:(apply lift_inside).
  step ltac:(apply lift_inside).
  step ltac:(by apply call_inside).
  apply print_inside.
Qed.

Lemma cell15_inside need (t : tokenizer lib) (m : model lib) :
  fitted_tokenizer ∈ need -> fitted_model ∈ need ->
  triple (inside 15 need) (cell15 lib t m) (fun _ => inside 15 need) safe.
Proof.
  intros Htok Hmod. unfold cell15. eapply triple_bind.
  - apply listdir_inside, dir_Unknown_papers.
  - intros names. cbn beta.
    apply triple_weaken with
      (P' := fun w => inside 15 need w /\ fs !! dir_Unknown = Some (Dir names))
      (Q' := fun _ w => inside 15 need w /\ fs !! dir_Unknown = Some (Dir names))
      (R' := safe); [|done|by intros _ w [? _]|done].
    apply triple_for_M. intros x [] Hx. apply triple_pure. intros Hf.
    by eapply attribute_inside.
Qed.

(** *** The notebook *)

Lemma training_inside :
  triple fresh (training lib)
    (fun _ => inside 13 [fitted_model; fitted_tokenizer]) safe.
Proof.
  unfold training.
  eapply triple_bind.
  { eapply triple_run_cell; [apply (cell3_inside [])|].
    intros w (Hf & Ht & Ho). unfold inside. cbn [files trace cell opened].
    rewrite Ht. split_and!; try done. constructor. }
  intros [all_authorA all_authorB]. cbn beta iota.
  eapply triple_bind.
  { eapply triple_run_cell; [apply cell5_inside|].
    intros w Hw. apply (inside_next 3); [done|]. unfold stage_le. cbn. lia. }
  intros [[t XyA] XyB]. cbn beta iota.
  eapply triple_bind.
  { eapply triple_run_cell; [apply cell7_inside|].
    intros w Hw. apply (inside_next 5); [exact Hw|]. unfold stage_le. cbn. lia. }
  intros ?.
  eapply triple_bind.
  { eapply triple_run_cell; [apply cell9_inside|].
    intros w Hw. apply (inside_next 7); [exact Hw|]. unfold stage_le. cbn. lia. }
  intros [[[X_train X_val] y_train] y_val]. cbn beta iota.
  eapply triple_bind.
  { eapply triple_run_cell; [apply cell11_inside|].
    intros w Hw. apply (inside_next 9); [exact Hw|]. unfold stage_le. cbn. lia. }
  intros m.
  eapply triple_bind.
  { eapply triple_run_cell; [apply cell13_inside|].
    intros w Hw. apply (inside_next 11); [exact Hw|]. unfold stage_le. cbn. lia. }
  intros m'. by apply triple_ret.
Qed.

Lemma notebook_safe :
  triple fresh (notebook lib) (fun _ => safe) safe.
Proof.
  unfold notebook. eapply triple_bind; [apply training_inside|].
  intros [t m]. cbn beta iota.
  eapply triple_weaken with (P' := inside 13 [fitted_model; fitted_tokenizer])
    (Q' := fun _ => inside 15 [fitted_model; fitted_tokenizer]) (R' := safe);
    [|done|intros _ w; apply inside_safe|done].
  eapply triple_run_cell.
  - apply cell15_inside; [right; left | left].
  - intros w Hw. apply (inside_next 13); [exact Hw|]. unfold stage_le. cbn. lia.
Qed.

End Discipline.

Section DisciplineFacts.

Context (fs : gmap str node).
Implicit Types (tr : list (nat * event)).


Lemma disciplined_stages tr (i j : nat) ci ei cj ej :
  disciplined fs tr -> (i < j)%nat ->
  tr !! i = Some (ci, ei) -> tr !! j = Some (cj, ej) -> stage_le ci cj.
Proof.
  induction 1 as [|tr c e _ IH [Hle _]] in i, j |- *; [done|].
  intros Hij Hi Hj.
  apply lookup_snoc_Some in Hj as [[Hjlt Hj]|[Hjeq Hj]].
  - apply lookup_snoc_Some in Hi as [[_ Hi]|[? _]]; [|lia].
    exact (IH _ _ Hij Hi Hj).
  - injection Hj as <- <-.
    apply lookup_snoc_Some in Hi as [[_ Hi]|[? _]]; [|lia].
    rewrite Forall_forall in Hle. apply (Hle (ci, ei)).
    by eapply list_elem_of_lookup_2.
Qed.

Lemma disciplined_before tr (j : nat) c e e' c' :
  (e = EvTextsToSequences /\ (c', e') = (5%nat, EvTokenizerFit)
   \/ e = EvModelPredict /\ (c', e') = (13%nat, EvModelFit)) ->
  disciplined fs tr -> tr !! j = Some (c, e) ->
  exists i, (i < j)%nat /\ tr !! i = Some (c', e').
Proof.
  intros Hcase. induction 1 as [|tr c0 e0 _ IH [_ He]] in j |- *; [done|].
  intros Hj. apply lookup_snoc_Some in Hj as [[Hjlt Hj]|[Hjeq Hj]].
  - destruct (IH _ Hj) as (i & Hi & Hl). exists i. split; [done|].
    by apply lookup_app_l_Some.
  - injection Hj as <- <-.
    assert ((c', e') ∈ tr) as Hin.
    { destruct Hcase as [[-> ->]|[-> ->]]; exact He. }
    apply list_elem_of_lookup in Hin as [i Hi]. exists i.
    pose proof (lookup_lt_Some _ _ _ Hi). split; [lia|].
    by apply lookup_app_l_Some.
Qed.

End DisciplineFacts.

Lemma run_safe (lib : Library) (fs : gmap str node) : safe fs (run lib fs).1.
Proof.
  pose proof (notebook_safe lib fs (mkWorld fs 0 [] []) ltac:(done)) as H.
  unfold run. by destruct (notebook lib (mkWorld fs 0 [] [])) as [w' [[]|e]].
Qed.

(** ** The cells, run on files that can be read *)

Section CellRuns.

Context (lib : Library).
Implicit Types (dir x : str) (names contents pre post : list str) (w : world)
  (t : tokenizer lib) (m : model lib).

Lemma logged_after e w : logged e w = after w [e].
Proof. done. Qed.

Lemma after_after w (a b : list event) : after (after w a) b = after w (a ++ b).
Proof. unfold after. cbn [files cell trace opened]. by rewrite map_app, app_assoc. Qed.

Lemma bind_ok_inv {T U} (k : T -> M U) (mt : M T) w w' (b : U) :
  (mt ≫= k) w = (w', Ok b) -> exists a w1, mt w = (w1, Ok a) /\ k a w1 = (w', Ok b).
Proof.
  unfold mbind, M_bind. destruct (mt w) as [w1 [a|e]]; [eauto|done].
Qed.

Lemma papers_loop_run dir names contents (acc : str) w :
  readable (files w) dir names contents ->
  for_M (fun x all => t ← preprocess_text (dir ++ x); mret (all ++ t)) names acc w
  = (after w (opens dir names), Ok (acc ++ author_text contents)).
Proof.
  unfold readable. intros H. revert contents acc w H.
  induction names as [|x names IH]; intros contents acc w H.
  - apply Forall2_nil_inv_l in H as ->. cbn. unfold after. cbn.
    rewrite !app_nil_r. by destruct w.
  - apply Forall2_cons_inv_l in H as (c & contents' & Hc & Hrest & ->).
    cbn [for_M].
    rewrite (bind_ok _ _ w (logged (EvOpenRead (dir ++ x)) w)
               (acc ++ preprocess_content c)).
    + rewrite (IH contents' _ (logged (EvOpenRead (dir ++ x)) w)) by done.
      rewrite logged_after, after_after. unfold author_text.
      cbn [map concat app opens]. by rewrite <- !app_assoc.
    + by rewrite (bind_ok _ _ _ _ _ (preprocess_text_run _ _ _ Hc)).
Qed.


Lemma concat_papers_run dir names contents w :
  files w !! dir = Some (Dir names) -> readable (files w) dir names contents ->
  concat_papers dir w = (after w (reads dir names), Ok (author_text contents)).
Proof.
  intros Hd H. unfold concat_papers.
  rewrite (bind_ok _ _ w (logged (EvListdir dir) w) names)
    by (unfold listdir; by rewrite Hd).
  rewrite (papers_loop_run dir names contents) by done.
  by rewrite logged_after, after_after.
Qed.





(** The values cells 5 to 13 compute *)
Lemma cell5_ok_inv (all_authorA all_authorB : str) w w' t XyA XyB :
  cell5 lib all_authorA all_authorB w = (w', Ok (t, XyA, XyB)) ->
  t = fitted lib all_authorA all_authorB
  /\ exists seqA seqB,
       first (texts_to_sequences lib t [all_authorA]) = Ok seqA
       /\ first (texts_to_sequences lib t [all_authorB]) = Ok seqB
       /\ make_subsequences seqA A SEQ_LEN = Ok XyA
       /\ make_subsequences seqB B SEQ_LEN = Ok XyB.
Proof.
  unfold cell5. cbn zeta. intros H.
  apply bind_ok_inv in H as (t' & w1 & H1 & H). unfold call in H1.
  injection H1 as _ <-.
  apply bind_ok_inv in H as (seqA & w2 & HA & H). rewrite encode_run in HA.
  injection HA as _ HA.
  apply bind_ok_inv in H as (seqB & w3 & HB & H). rewrite encode_run in HB.
  injection HB as _ HB.
  apply bind_ok_inv in H as (XyA' & w4 & HXA & H). unfold lift in HXA.
  injection HXA as _ HXA.
  apply bind_ok_inv in H as (XyB' & w5 & HXB & H). unfold lift in HXB.
  injection HXB as _ HXB.
  unfold print, emit, mbind, M_bind, mret, M_ret in H.
  injection H as _ <- <- <-. split; [done|]. by exists seqA, seqB.
Qed.

Lemma cell9_ok_inv (XyA XyB : ndarray Z * ndarray Z) w w'
    (X_train X_val y_train y_val : ndarray Z) :
  cell9 lib XyA XyB w = (w', Ok (X_train, X_val, y_train, y_val)) ->
  exists X y X_split X_val_split,
    Np.vstack XyA.1 XyB.1 = Ok X /\ Np.vstack XyA.2 XyB.2 = Ok y
    /\ train_test_split lib X y = Ok (X_split, X_val_split, y_train, y_val)
    /\ Np.reshape_rows X_split SEQ_LEN = Ok X_train
    /\ Np.reshape_rows X_val_split SEQ_LEN = Ok X_val.
Proof.
  unfold cell9. intros H.
  apply bind_ok_inv in H as (X & w1 & HX & H). unfold lift in HX.
  injection HX as _ HX.
  apply bind_ok_inv in H as (y & w2 & Hy & H). unfold lift in Hy.
  injection Hy as _ Hy.
  apply bind_ok_inv in H as ([[[Xs Xvs] ys] yvs] & w3 & Hs & H). unfold call in Hs.
  injection Hs as _ Hs.
  apply bind_ok_inv in H as (Xt & w4 & HXt & H). unfold lift in HXt.
  injection HXt as _ HXt.
  apply bind_ok_inv in H as (Xv & w5 & HXv & H). unfold lift in HXv.
  injection HXv as _ HXv.
  unfold print, emit, mbind, M_bind, mret, M_ret in H.
  injection H as _ <- <- <- <-. by exists X, y, Xs, Xvs.
Qed.

Lemma print_lines_ok (ls : list str) w : exists w', print_lines ls w = (w', Ok tt).
Proof.
  unfold print_lines. revert w. induction ls as [|l ls IH]; intros w.
  - by exists w.
  - cbn [for_M]. unfold mbind, M_bind, print, emit. apply IH.
Qed.

Lemma cell11_ok_inv t w w' m :
  cell11 lib t w = (w', Ok m) ->
  m = compile_model lib (word_index_len lib t + 1) Embedding_size RNN_size 30.
Proof.
  unfold cell11. cbn zeta. intros H.
  apply bind_ok_inv in H as ([] & w1 & _ & H). by injection H as _ <-.
Qed.

Lemma cell13_ok_inv m (X_train X_val y_train y_val : ndarray Z) w w' m' :
  cell13 lib m X_train X_val y_train y_val w = (w', Ok m') ->
  m' = (fit lib m X_train y_train Batch_size Epochs X_val y_val).1.
Proof.
  unfold cell13. cbn zeta. intros H.
  apply bind_ok_inv in H as ([] & w1 & _ & H). unfold call in H.
  by injection H as _ <-.
Qed.

Lemma training_ok_inv w w13 t m :
  training lib w = (w13, Ok (t, m)) ->
  exists w3 all_authorA all_authorB,
    cell3 (in_cell 3 w) = (w3, Ok (all_authorA, all_authorB))
    /\ pipeline lib all_authorA all_authorB t m.
Proof.
  unfold training. intros H.
  apply bind_ok_inv in H as ([all_A all_B] & w3 & H3 & H).
  apply bind_ok_inv in H as ([[t' XyA] XyB] & w5 & H5 & H).
  apply bind_ok_inv in H as ([] & w7 & _ & H).
  apply bind_ok_inv in H as ([[[X_train X_val] y_train] y_val] & w9 & H9 & H).
  apply bind_ok_inv in H as (m0 & w11 & H11 & H).
  apply bind_ok_inv in H as (m' & w13' & H13 & H).
  injection H as _ <- <-.
  exists w3, all_A, all_B. split; [exact H3|].
  apply cell5_ok_inv in H5 as (Ht & seqA & seqB & HA & HB & HXA & HXB).
  apply cell9_ok_inv in H9 as (X & y & Xs & Xvs & HX & Hy & Hs & HXt & HXv).
  apply cell11_ok_inv in H11 as ->. apply cell13_ok_inv in H13 as ->.
  exists seqA, seqB, XyA, XyB, X, y, Xs, Xvs, X_train, X_val, y_train, y_val.
  by split_and!.
Qed.

End CellRuns.

(** ** Cell 15: one report per paper, in the order of the listing *)

Section Reports.

Context (lib : Library).
Implicit Types (t : tokenizer lib) (m : model lib) (w : world) (x : str).

Lemma attribute_files t m x w : files (attribute lib t m x w).1 = files w.
Proof.
  rewrite attribute_unfold. cbn zeta. unfold read_outcome.
  destruct (files w !! (dir_Unknown ++ x)) as [[content| |entries|]|]; try done.
  destruct (first _) as [sq|]; [|done].
  destruct (make_subsequences _ _ _) as [Xy|]; [|done].
  destruct (Np.reshape_rows _ _) as [X|]; done.
Qed.

Lemma attribute_loop t m (names : list str) w :
  match for_M (fun x _ => attribute lib t m x) names tt w with
  | (w', Ok _) =>
      exists lines,
        Forall2 (paper_line lib t m (files w)) names lines
        /\ console w' = console w ++ lines
  | (w', Raise _) =>
      exists pre x post lines,
        names = pre ++ x :: post
        /\ Forall2 (paper_line lib t m (files w)) pre lines
        /\ console w' = console w ++ lines
  end.
Proof.
  revert w. induction names as [|x names IH]; intros w.
  - cbn. exists []. split; [constructor|by rewrite app_nil_r].
  - cbn [for_M]. unfold mbind at 1, M_bind at 1.
    pose proof (attribute_outcome lib t m x w) as Hx.
    pose proof (attribute_files t m x w) as Hfs.
    destruct (attribute lib t m x w) as [w1 [[]|e]]; cbn [fst] in Hfs.
    + destruct Hx as (content & sq & X & ys & Hf & Henc & Hmk & Hc).
      specialize (IH w1). rewrite Hfs in IH.
      assert (Hline : paper_line lib t m (files w) x
                        (majority_line x (predict lib m X)))
        by (by exists content, sq, X, ys).
      destruct (for_M _ names tt w1) as [w2 [[]|e]].
      * destruct IH as (lines & Hall & Hc2).
        exists (majority_line x (predict lib m X) :: lines).
        split; [by constructor|]. by rewrite Hc2, Hc, <- app_assoc.
      * destruct IH as (pre & x' & post & lines & -> & Hall & Hc2).
        exists (x :: pre), x', post, (majority_line x (predict lib m X) :: lines).
        split_and!; [done|by constructor|]. by rewrite Hc2, Hc, <- app_assoc.
    + exists [], x, names, []. split_and!; [done|constructor|].
      by rewrite app_nil_r.
Qed.

End Reports.

Lemma cell15_reported (lib : Library) (t : tokenizer lib) (m : model lib)
    (w : world) :
  reported lib t m (files w) w (cell15 lib t m w).
Proof.
  unfold reported, cell15, listdir. unfold mbind at 1, M_bind at 1.
  destruct (files w !! dir_Unknown) as [[content| |names|]|] eqn:Hdir;
    try (by rewrite console_logged, app_nil_r).
  pose proof (attribute_loop lib t m names (logged (EvListdir dir_Unknown) w)) as H.
  rewrite console_logged, app_nil_r in H.
  change (files (logged (EvListdir dir_Unknown) w)) with (files w) in H.
  destruct (for_M _ names tt _) as [w' [[]|e]]; [|done].
  destruct H as (lines & Hall & Hc). by exists names, lines.
Qed.


(** C9. In every run the stages follow one another in the order
    preprocess, tokenize, split, train, vote-predict: no event of a stage
    comes after an event of a later stage; every conversion of a text to a
    sequence comes after the character tokenizer was fitted in cell 5; and
    every prediction comes after [model.fit] returned in cell 13.  Each
    stage works on what the stages before it made.  When cells 3 to 13
    raise, the run ends there and nothing is predicted.  When they return,
    the tokenizer is the one fitted on the two texts of cell 3, the model
    is the one [model.fit] returned for the split of the stacked windows
    of the encoded texts, and the vote-predict loop encodes and predicts
    with this tokenizer and this model: every line it prints is the report
    made with them. *)
Theorem C9_stages_in_order (lib : Library) (fs : gmap str node) :
  let w0 := mkWorld fs 0 [] [] in
  let tr := trace (run lib fs).1 in
  (forall (i j : nat) ci ei cj ej,
     (i < j)%nat -> tr !! i = Some (ci, ei) -> tr !! j = Some (cj, ej) ->
     (stage_index (stage_of_cell ci) <= stage_index (stage_of_cell cj))%nat)
  /\ (forall (j : nat) c,
        tr !! j = Some (c, EvTextsToSequences) ->
        exists i, (i < j)%nat /\ tr !! i = Some (5%nat, EvTokenizerFit))
  /\ (forall (j : nat) c,
        tr !! j = Some (c, EvModelPredict) ->
        exists i, (i < j)%nat /\ tr !! i = Some (13%nat, EvModelFit))
  /\ match training lib w0 with
     | (w13, Raise e) => run lib fs = (w13, Raise e)
     | (w13, Ok (t, m)) =>
         run lib fs = cell15 lib t m (in_cell 15 w13)
         /\ (exists w3 all_authorA all_authorB,
               cell3 (in_cell 3 w0) = (w3, Ok (all_authorA, all_authorB))
               /\ pipeline lib all_authorA all_authorB t m)
         /\ reported lib t m fs w13 (run lib fs)
     end.
Proof.
  cbn zeta. destruct (run_safe lib fs) as (_ & Hd & _). split_and!.
  - intros i j ci ei cj ej. exact (disciplined_stages fs _ i j ci ei cj ej Hd).
  - intros j c. apply (disciplined_before fs); [|done]. by left.
  - intros j c. apply (disciplined_before fs); [|done]. by right.
  - pose proof (training_inside lib fs (mkWorld fs 0 [] []) ltac:(done)) as Hin.
    destruct (training lib (mkWorld fs 0 [] [])) as [w13 [[t m]|e]] eqn:Ht.
    + assert (Hrun : run lib fs = cell15 lib t m (in_cell 15 w13))
        by (unfold run, notebook; by rewrite (bind_ok _ _ _ w13 (t, m))).
      destruct Hin as (Hf & _).
      split_and!; [done|by apply training_ok_inv in Ht|].
      rewrite Hrun. pose proof (cell15_reported lib t m (in_cell 15 w13)) as H.
      cbn [files in_cell] in H. by rewrite Hf in H.
    + unfold run, notebook. by apply bind_raise.
Qed.

Lemma C9_stages_in_order_witness :
  trace (run Demo.library Demo.papers).1 !! 23%nat = Some (15%nat, EvTextsToSequences)
  /\ (exists i, (i < 23)%nat
        /\ trace (run Demo.library Demo.papers).1 !! i
           = Some (5%nat, EvTokenizerFit))
  /\ trace (run Demo.library Demo.papers).1 !! 24%nat = Some (15%nat, EvModelPredict)
  /\ (exists i, (i < 24)%nat
        /\ trace (run Demo.library Demo.papers).1 !! i = Some (13%nat, EvModelFit)).
Proof.
  assert (H23 : trace (run Demo.library Demo.papers).1 !! 23%nat
                = Some (15%nat, EvTextsToSequences)) by (vm_compute; reflexivity).
  assert (H24 : trace (run Demo.library Demo.papers).1 !! 24%nat
                = Some (15%nat, EvModelPredict)) by (vm_compute; reflexivity).
  destruct (C9_stages_in_order Demo.library Demo.papers) as (_ & Htok & Hfit & _).
  split_and!; [exact H23 | exact (Htok _ _ H23) | exact H24 | exact (Hfit _ _ H24)].
Defined.

(** ** Exceptions *)

Section Exceptions.

Context (lib : Library).
Implicit Types (t : tokenizer lib) (m : model lib) (x : str) (w : world).







End Exceptions.



(** * Further properties *)

(** ** [make_subsequences] *)

Section Windows.

Variables (long_sequence : list Z) (label : Z).

Local Abbreviation window := (window long_sequence).
Local Abbreviation filled := (filled long_sequence label).

Lemma window_lookup (s i j : nat) :
  (j < s)%nat -> window s i !! j = long_sequence !! (i + j)%nat.
Proof.
  intros Hj. unfold window.
  rewrite lookup_take_lt by done. by rewrite lookup_drop.
Qed.

Lemma window_overlap (s i : nat) :
  drop 1 (window (S s) i) = take s (window (S s) (S i)).
Proof.
  apply list_eq. intros j. rewrite lookup_drop.
  destruct (decide (j < s)%nat) as [Hj|Hj].
  - rewrite lookup_take_lt by done. rewrite !window_lookup by lia.
    f_equal. lia.
  - rewrite lookup_take_ge by lia. unfold window.
    by rewrite lookup_take_ge by lia.
Qed.

Lemma window_last (s i : nat) :
  drop s (window (S s) i) = take 1 (drop (i + s) long_sequence).
Proof.
  unfold window. replace (S s) with (s + 1)%nat by lia.
  by rewrite <- take_drop_commute, drop_drop.
Qed.

Lemma singles_drop (a k : nat) :
  (a + k = length long_sequence)%nat ->
  flat_map (fun i => take 1 (drop i long_sequence)) (seq a k) = drop a long_sequence.
Proof.
  revert a. induction k as [|k IH]; intros a Ha.
  - cbn. by rewrite drop_ge by lia.
  - cbn [seq flat_map]. rewrite IH by lia.
    destruct (drop a long_sequence) as [|x r] eqn:Hd.
    + apply (f_equal length) in Hd. rewrite length_drop in Hd. simpl in Hd. lia.
    + replace (S a) with (a + 1)%nat by lia. rewrite <- drop_drop, Hd. done.
Qed.

Lemma flat_map_seq_ext {T} (f g : nat -> list T) (a k : nat) :
  (forall i, (a <= i < a + k)%nat -> f i = g i) ->
  flat_map f (seq a k) = flat_map g (seq a k).
Proof.
  revert a. induction k as [|k IH]; intros a H; [done|].
  cbn [seq flat_map]. rewrite H by lia. f_equal. apply IH. intros i Hi.
  apply H. lia.
Qed.

Lemma flat_map_seq_shift {T} (f : nat -> list T) (d a k : nat) :
  flat_map (fun i => f (i + d)%nat) (seq a k) = flat_map f (seq (a + d) k).
Proof.
  revert a. induction k as [|k IH]; intros a; [done|].
  cbn [seq flat_map]. f_equal. apply (IH (S a)).
Qed.

Lemma unwindow_filled (n s : nat) :
  (n + S s = S (length long_sequence))%nat -> (0 < n)%nat ->
  unwindow (filled n (S s) n).1 = long_sequence.
Proof.
  intros Hn Hpos. unfold unwindow.
  destruct (filled_row long_sequence label n (S s) 0 Hn ltac:(lia)) as [-> _].
  replace (Np.nrows (filled n (S s) n).1) with n by done.
  replace (Np.ncols (filled n (S s) n).1) with (S s) by done.
  rewrite (flat_map_seq_ext _ (fun i => take 1 (drop (i + s) long_sequence))).
  - rewrite (flat_map_seq_shift (fun i => take 1 (drop i long_sequence)) s 1).
    rewrite singles_drop by lia. unfold window. rewrite drop_0.
    replace (1 + s)%nat with (S s) by lia. apply take_drop.
  - intros i Hi.
    destruct (filled_row long_sequence label n (S s) i Hn ltac:(lia)) as [-> _].
    replace (S s - 1)%nat with s by lia. apply window_last.
Qed.

End Windows.



(** X2. The windows [make_subsequences] returns overlap: element [j] of
    row [X[i]] is the [float64] stored for [long_sequence[i + j]], which is
    [long_sequence[i + j]] itself when no element exceeds [2^53] in
    magnitude; so a row without its first element is the next row without
    its last. *)
Theorem X2_windows_overlap (long_sequence : list Z) (label : Z)
    (sequence_length : nat) :
  (sequence_length <= length long_sequence)%nat ->
  Forall (fun x => Np.float64_finite x = true) long_sequence ->
  Np.float64_finite label = true ->
  exists X y,
    make_subsequences long_sequence label (Z.of_nat sequence_length) = Ok (X, y)
    /\ (forall i j : nat,
          (i + sequence_length <= length long_sequence)%nat ->
          (j < sequence_length)%nat ->
          Np.row X i !! j = Np.float64_round <$> long_sequence !! (i + j)%nat)
    /\ (Forall (fun x => Z.abs x <= 2 ^ 53) long_sequence ->
        forall i j : nat,
          (i + sequence_length <= length long_sequence)%nat ->
          (j < sequence_length)%nat ->
          Np.row X i !! j = long_sequence !! (i + j)%nat)
    /\ (forall i : nat,
          (S i + sequence_length <= length long_sequence)%nat ->
          drop 1 (Np.row X i) = take (sequence_length - 1) (Np.row X (S i))).
Proof.
  intros Hle Hfin Hlabel.
  pose proof (make_subsequences_ok long_sequence label (Z.of_nat sequence_length)
                ltac:(lia) ltac:(lia) Hfin Hlabel) as E.
  cbn zeta in E. rewrite Nat2Z.id in E.
  set (n := (S (length long_sequence) - sequence_length)%nat) in *.
  set (stored := map Np.float64_round long_sequence) in *.
  set (lbl := Np.float64_round label) in *.
  assert (length stored = length long_sequence) as Hlen by apply length_map.
  assert (Hrow : forall i j : nat,
            (i + sequence_length <= length long_sequence)%nat ->
            (j < sequence_length)%nat ->
            Np.row (filled stored lbl n sequence_length n).1 i !! j
            = stored !! (i + j)%nat).
  { intros i j Hi Hj.
    destruct (filled_row stored lbl n sequence_length i ltac:(lia) ltac:(lia))
      as [-> _].
    by apply window_lookup. }
  exists (filled stored lbl n sequence_length n).1,
         (filled stored lbl n sequence_length n).2.
  split_and!.
  - by rewrite E; destruct (filled stored lbl n sequence_length n).
  - intros i j Hi Hj. rewrite Hrow by done. unfold stored.
    by rewrite list_lookup_fmap.
  - intros Hexact i j Hi Hj. rewrite Hrow by done. unfold stored.
    by rewrite map_float64_round_exact.
  - intros i Hi.
    destruct (filled_row stored lbl n sequence_length i ltac:(lia) ltac:(lia))
      as [-> _].
    destruct (filled_row stored lbl n sequence_length (S i)
                ltac:(lia) ltac:(lia)) as [-> _].
    destruct sequence_length as [|s]; [done|].
    replace (S s - 1)%nat with s by lia. apply window_overlap.
Qed.

Lemma X2_windows_overlap_witness :
  exists X y,
    make_subsequences (Demo.ramp 33) A 30 = Ok (X, y)
    /\ Np.row X 2 !! 5%nat = Some 7
    /\ drop 1 (Np.row X 1) = take 29 (Np.row X 2).
Proof.
  assert (Hexact : Forall (fun x => Z.abs x <= 2 ^ 53) (Demo.ramp 33)).
  { apply Forall_forall. intros x Hx.
    apply list_elem_of_fmap in Hx as (k & -> & Hk). apply elem_of_seq in Hk. lia. }
  destruct (X2_windows_overlap (Demo.ramp 33) A 30) as (X & y & H1 & _ & H2 & H3).
  - vm_compute. lia.
  - by apply Forall_finite_exact.
  - reflexivity.
  - exists X, y. split_and!; [exact H1 | | ].
    + rewrite H2; [reflexivity | exact Hexact | vm_compute; lia | lia].
    + apply (H3 1%nat). vm_compute. lia.
Defined.

(** X3. Nothing of the sequence is lost in the windows: for a window
    length of at least 1 and at most [len(long_sequence)], the first row of
    [X] followed by the last element of every later row is the sequence as
    [float64] stores it, which is [long_sequence] itself when no element
    exceeds [2^53] in magnitude. *)
Theorem X3_windows_give_back_sequence (long_sequence : list Z) (label : Z)
    (sequence_length : nat) :
  (1 <= sequence_length <= length long_sequence)%nat ->
  Forall (fun x => Np.float64_finite x = true) long_sequence ->
  Np.float64_finite label = true ->
  exists X y,
    make_subsequences long_sequence label (Z.of_nat sequence_length) = Ok (X, y)
    /\ unwindow X = map Np.float64_round long_sequence
    /\ (Forall (fun x => Z.abs x <= 2 ^ 53) long_sequence ->
        unwindow X = long_sequence).
Proof.
  intros [H1 Hle] Hfin Hlabel.
  pose proof (make_subsequences_ok long_sequence label (Z.of_nat sequence_length)
                ltac:(lia) ltac:(lia) Hfin Hlabel) as E.
  cbn zeta in E. rewrite Nat2Z.id in E.
  set (n := (S (length long_sequence) - sequence_length)%nat) in *.
  set (stored := map Np.float64_round long_sequence) in *.
  set (lbl := Np.float64_round label) in *.
  assert (length stored = length long_sequence) as Hlen by apply length_map.
  assert (unwindow (filled stored lbl n sequence_length n).1 = stored) as Hun.
  { destruct sequence_length as [|s]; [lia|]. apply unwindow_filled; lia. }
  exists (filled stored lbl n sequence_length n).1,
         (filled stored lbl n sequence_length n).2.
  split_and!.
  - by rewrite E; destruct (filled stored lbl n sequence_length n).
  - done.
  - intros Hexact. rewrite Hun. by apply map_float64_round_exact.
Qed.

Lemma X3_windows_give_back_sequence_witness :
  exists X y,
    make_subsequences [7; 8; 9; 10; 11] B 3 = Ok (X, y)
    /\ unwindow X = [7; 8; 9; 10; 11].
Proof.
  destruct (X3_windows_give_back_sequence [7; 8; 9; 10; 11] B 3)
    as (X & y & H1 & H2 & _).
  - vm_compute. lia.
  - repeat (constructor; [reflexivity|]). constructor.
  - reflexivity.
  - exists X, y. by split.
Defined.

(** ** The text [preprocess_text] returns *)

Section SingleSpaced.

Implicit Types (s r a b w tok : str) (ws : list str) (c : Z).

Lemma starts_nonspace_app a b :
  a <> [] -> starts_nonspace (a ++ b) = starts_nonspace a.
Proof. by destruct a. Qed.

Lemma spaces_inside_app a b :
  spaces_inside a = true -> spaces_inside b = true ->
  spaces_inside (a ++ b) = true.
Proof.
  intros Ha Hb. induction a as [|c a IH]; [done|].
  cbn [app spaces_inside] in *. apply andb_true_iff in Ha as [Hc Ha].
  rewrite (IH Ha), andb_true_r.
  destruct (Py.isspace c); [|done]. cbn [negb orb] in *.
  apply andb_true_iff in Hc as [-> Hr]. cbn [andb].
  destruct a; [done|]. done.
Qed.

Lemma single_spaced_app a b :
  single_spaced a = true -> single_spaced b = true ->
  single_spaced (a ++ b) = true.
Proof.
  destruct a as [|c a]; [done|]. destruct b as [|d b].
  - by rewrite app_nil_r.
  - unfold single_spaced. cbn [app].
    intros [Hh Ha]%andb_true_iff [_ Hb]%andb_true_iff.
    apply andb_true_iff. split; [done|].
    by apply (spaces_inside_app (c :: a) (d :: b)).
Qed.

Lemma spaces_inside_nonspace w r :
  nonspace w -> spaces_inside (w ++ r) = spaces_inside r.
Proof.
  induction 1 as [|c w Hc _ IH]; [done|].
  cbn [app spaces_inside]. by rewrite Hc.
Qed.

Lemma join_tokens_single_spaced ws :
  Forall (fun w => w <> [] /\ nonspace w) ws ->
  single_spaced (Py.join [Py.SP] ws) = true.
Proof.
  intros Hws.
  assert (spaces_inside (Py.join [Py.SP] ws) = true
          /\ (ws <> [] -> starts_nonspace (Py.join [Py.SP] ws) = true)) as [Hin Hst].
  { induction Hws as [|w1 ws [Hne Hw] Hws [IH1 IH2]]; [done|].
    assert (starts_nonspace w1 = true) as Hw1.
    { destruct Hw as [|c w Hc _]; [done|]. cbn. by rewrite Hc. }
    destruct ws as [|w2 ws].
    - cbn [Py.join]. split; [|done].
      pose proof (spaces_inside_nonspace w1 [] Hw) as E.
      by rewrite app_nil_r in E.
    - rewrite join_cons. split.
      + rewrite spaces_inside_nonspace by done. cbn [app spaces_inside].
        rewrite IH1, IH2 by done. by rewrite bool_decide_eq_true_2.
      + intros _. by rewrite starts_nonspace_app. }
  unfold single_spaced. destruct (Py.join [Py.SP] ws) eqn:Hj; [done|].
  rewrite Hin, andb_true_r. apply Hst. by intros ->.
Qed.

Lemma spaces_inside_last s c :
  spaces_inside s = true -> last s = Some c -> Py.isspace c = false.
Proof.
  induction s as [|d [|e s] IH]; [done| |].
  - cbn. intros H [= ->]. destruct (Py.isspace c); [|done].
    by rewrite andb_false_r in H.
  - intros [_ H]%andb_true_iff. rewrite last_cons_cons. by apply IH.
Qed.

Lemma spaces_inside_elem s c :
  spaces_inside s = true -> c ∈ s -> Py.isspace c = true -> c = Py.SP.
Proof.
  induction s as [|d s IH]; [by intros _ ?%elem_of_nil|].
  cbn [spaces_inside]. intros [Hd Hs]%andb_true_iff [->|Hc]%elem_of_cons Hsp.
  - rewrite Hsp in Hd. cbn in Hd. apply andb_true_iff in Hd as [Hd _].
    by apply bool_decide_eq_true in Hd.
  - by apply IH.
Qed.

(** *** [split] after [join], and [split(' ')] *)

Lemma split_scan_nonspace tok w r :
  nonspace w -> Py.split_scan tok (w ++ r) = Py.split_scan (tok ++ w) r.
Proof.
  intros Hw. revert tok. induction Hw as [|c w Hc _ IH]; intros tok.
  - by rewrite app_nil_r.
  - cbn [app Py.split_scan]. rewrite Hc, IH. by rewrite <- app_assoc.
Qed.

Lemma split_join_tokens ws :
  Forall (fun w => w <> [] /\ nonspace w) ws ->
  Py.split (Py.join [Py.SP] ws) = ws.
Proof.
  unfold Py.split. induction 1 as [|w1 ws [Hne Hw] Hws IH]; [done|].
  destruct ws as [|w2 ws].
  - cbn [Py.join]. pose proof (split_scan_nonspace [] w1 [] Hw) as E.
    rewrite app_nil_r in E. rewrite E. cbn. by destruct w1.
  - rewrite join_cons, split_scan_nonspace by done. cbn [app Py.split_scan].
    change (Py.isspace Py.SP) with true. cbn iota. rewrite IH.
    by destruct w1.
Qed.

Lemma split_scan_app_space tok a c b :
  Py.isspace c = true ->
  Py.split_scan tok (a ++ c :: b) = Py.split_scan tok a ++ Py.split_scan [] b.
Proof.
  intros Hc. revert tok. induction a as [|x a IH]; intros tok.
  - cbn [app Py.split_scan]. rewrite Hc. by destruct tok.
  - cbn [app Py.split_scan]. destruct (Py.isspace x).
    + destruct tok; by rewrite IH.
    + apply IH.
Qed.

Lemma split_on_space_length cur s :
  length (Py.split_on_scan [Py.SP] 0 cur s) = S (count_spaces s).
Proof.
  unfold count_spaces. revert cur. induction s as [|c s IH]; intros cur; [done|].
  cbn [Py.split_on_scan Py.startswith]. rewrite filter_cons.
  destruct (decide (Py.SP = c)) as [<-|Hc].
  - rewrite decide_True by done. cbn [length Nat.pred]. by rewrite IH.
  - rewrite decide_False by done. apply IH.
Qed.

Lemma split_on_space_single_spaced tok s :
  nonspace tok -> tok <> [] \/ starts_nonspace s = true ->
  spaces_inside s = true ->
  Py.split_on_scan [Py.SP] 0 tok s = Py.split_scan tok s.
Proof.
  revert tok. induction s as [|c s IH]; intros tok Htok Hor Hs.
  - cbn. destruct Hor as [?|?]; [by destruct tok | done].
  - cbn [spaces_inside] in Hs. apply andb_true_iff in Hs as [Hc Hs].
    cbn [Py.split_on_scan Py.startswith Py.split_scan].
    destruct (decide (Py.SP = c)) as [<-|Hne].
    + change (Py.isspace Py.SP) with true in *. cbn [negb orb] in Hc.
      apply andb_true_iff in Hc as [_ Hst].
      destruct Hor as [Hne|Habs]; [|done].
      cbn [length Nat.pred]. rewrite (IH [] (Forall_nil_2 _) (or_intror Hst) Hs).
      by destruct tok.
    + destruct (Py.isspace c) eqn:Hsp.
      * cbn in Hc. apply andb_true_iff in Hc as [Hc _].
        apply bool_decide_eq_true in Hc. by subst.
      * apply IH; [|left; by destruct tok|done].
        apply Forall_app. split; [done|]. by constructor.
Qed.

End SingleSpaced.

Lemma preprocess_content_single_spaced (content : str) :
  single_spaced (preprocess_content content) = true.
Proof.
  unfold preprocess_content, text_of_lines, Py.split.
  apply join_tokens_single_spaced, split_scan_tokens. constructor.
Qed.

(** X4. The string [preprocess_text] returns is made of words separated
    by single spaces: it neither starts nor ends with a whitespace
    character, and every whitespace character in it is a space that is
    followed by a character that is not whitespace. *)
Theorem X4_preprocess_text_single_spaced (w : world) (file_path content : str) :
  files w !! file_path = Some (File content) ->
  exists text,
    (preprocess_text file_path w).2 = Ok text
    /\ single_spaced text = true
    /\ (forall c, head text = Some c -> Py.isspace c = false)
    /\ (forall c, last text = Some c -> Py.isspace c = false)
    /\ (forall c, c ∈ text -> Py.isspace c = true -> c = Py.SP).
Proof.
  intros Hf. exists (preprocess_content content).
  rewrite (preprocess_text_run _ _ _ Hf).
  pose proof (preprocess_content_single_spaced content) as Hs.
  destruct (preprocess_content content) as [|c0 text] eqn:Htext.
  - split_and!; try done. by intros c ?%elem_of_nil.
  - unfold single_spaced in Hs. apply andb_true_iff in Hs as [Hh Hin].
    split_and!; try done.
    + unfold single_spaced. by rewrite Hh, Hin.
    + intros c [= <-]. cbn in Hh. by apply negb_true_iff in Hh.
    + intros c. by apply spaces_inside_last.
    + intros c. by apply spaces_inside_elem.
Qed.

Lemma X4_preprocess_text_single_spaced_witness :
  exists text,
    (preprocess_text (lit "./papers/Unknown/paper_1.txt") plain_world).2 = Ok text
    /\ single_spaced text = true.
Proof.
  destruct (X4_preprocess_text_single_spaced plain_world
              (lit "./papers/Unknown/paper_1.txt") plain_paper)
    as (text & H1 & H2 & _).
  - vm_compute. reflexivity.
  - exists text. auto.
Defined.

(** X5. Normalising the whitespace keeps the words: the words of the
    string [preprocess_text] returns ([split()]) are the words of the text
    it had after removing the names, and joining the words of the returned
    string with single spaces gives the returned string again. *)
Theorem X5_preprocess_text_keeps_words (w : world) (file_path content : str) :
  files w !! file_path = Some (File content) ->
  exists text,
    (preprocess_text file_path w).2 = Ok text
    /\ Py.split text = Py.split (cleaned_text content)
    /\ Py.join (lit " ") (Py.split text) = text.
Proof.
  intros Hf. exists (preprocess_content content).
  rewrite (preprocess_text_run _ _ _ Hf). split; [done|].
  assert (Py.split (preprocess_content content) = Py.split (cleaned_text content))
    as Hsplit.
  { unfold preprocess_content, text_of_lines. apply split_join_tokens.
    apply split_scan_tokens. constructor. }
  split; [done|]. by rewrite Hsplit.
Qed.

Lemma X5_preprocess_text_keeps_words_witness :
  exists text,
    (preprocess_text (lit "./papers/Unknown/paper_1.txt") plain_world).2 = Ok text
    /\ Py.split text
       = [lit "to"; lit "the"; lit "people:"; lit "after"; lit "'s"; lit "view,";
          lit "replied."].
Proof.
  destruct (X5_preprocess_text_keeps_words plain_world
              (lit "./papers/Unknown/paper_1.txt") plain_paper)
    as (text & H1 & H2 & _).
  - vm_compute. reflexivity.
  - exists text. split; [done|]. rewrite H2. vm_compute. reflexivity.
Defined.

(** ** Cell 3: the text of an author *)

Section AuthorText.

Implicit Types (dir x : str) (names contents : list str) (w : world).

Lemma concat_single_spaced contents :
  single_spaced (concat (map preprocess_content contents)) = true.
Proof.
  induction contents as [|c contents IH]; [done|]. cbn [map concat].
  apply single_spaced_app; [apply preprocess_content_single_spaced | done].
Qed.

End AuthorText.

(** X6. When the directory is listed and every file it lists is read, the
    loop of cell 3 returns the texts of the papers one after the other, in
    the order of the listing and with nothing between them; it has listed
    the directory once and opened each file once, in that order.  The
    text is again made of words separated by single spaces, so the last
    word of a paper and the first word of the next one become one word. *)
Theorem X6_author_text (dir : str) (names contents : list str) (w : world) :
  files w !! dir = Some (Dir names) ->
  Forall2 (fun x c => files w !! (dir ++ x) = Some (File c)) names contents ->
  concat_papers dir w
  = (mkWorld (files w) (cell w)
       (trace w ++ (cell w, EvListdir dir)
          :: map (fun x => (cell w, EvOpenRead (dir ++ x))) names)
       (opened w),
     Ok (concat (map preprocess_content contents)))
  /\ single_spaced (concat (map preprocess_content contents)) = true.
Proof.
  intros Hd Hfiles. split; [|apply concat_single_spaced].
  rewrite (concat_papers_run dir names contents w Hd Hfiles).
  unfold after, reads, opens, author_text. cbn [map]. by rewrite map_map.
Qed.

Lemma X6_author_text_witness :
  (concat_papers dir_Unknown Demo.start).2
  = Ok (lit "the author of the notes on the state of virginia, quoted in the last paperit may be").
Proof.
  destruct (X6_author_text dir_Unknown [lit "paper_1.txt"; lit "paper_2.txt"]
              [lit "FEDERALIST No. 49" ++ Py.LF
                 :: lit "The author of the Notes on the State of Virginia, quoted in the last paper"
                 ++ [Py.LF];
               lit "FEDERALIST No. 50" ++ Py.LF :: lit "It may be" ++ [Py.LF]]
              Demo.start) as [H _].
  - vm_compute. reflexivity.
  - repeat constructor; vm_compute; reflexivity.
  - rewrite H. vm_compute. reflexivity.
Defined.

(** ** Cell 7: the word count *)

Lemma count_spaces_app (a b : str) :
  count_spaces (a ++ b) = (count_spaces a + count_spaces b)%nat.
Proof. unfold count_spaces. by rewrite filter_app, length_app. Qed.

(** X7. Cell 7 never raises.  The total word count it prints is the
    number of spaces in the two texts plus 2.  For two non-empty texts made
    of words separated by single spaces, as cell 3 returns them, this is
    the number of words of the first plus the number of words of the
    second. *)
Theorem X7_total_word_count (lib : Library) (all_authorA all_authorB : str)
    (w : world) :
  let total := (count_spaces all_authorA + count_spaces all_authorB + 2)%nat in
  (exists w',
     cell7 lib all_authorA all_authorB w = (w', Ok tt)
     /\ console w'
        = console w
            ++ [lit "Total word count: " ++ lit " "
                  ++ Py.str_of_int (Z.of_nat total);
                lit "Total number of unique words: " ++ lit " "
                  ++ Py.str_of_int
                       (word_index_len lib
                          (fit_on_texts lib (Tokenizer lib false)
                             [all_authorA; all_authorB]))])
  /\ (single_spaced all_authorA = true -> single_spaced all_authorB = true ->
      all_authorA <> [] -> all_authorB <> [] ->
      total = (length (Py.split all_authorA) + length (Py.split all_authorB))%nat).
Proof.
  cbn zeta.
  assert (Hlen : length (Py.split_on_scan [Py.SP] 0 []
                           (all_authorA ++ lit " " ++ all_authorB))
                 = (count_spaces all_authorA + count_spaces all_authorB + 2)%nat).
  { rewrite split_on_space_length, !count_spaces_app.
    change (count_spaces (lit " ")) with 1%nat. lia. }
  split.
  - exists (logged
              (EvPrint (lit "Total number of unique words: " ++ lit " "
                          ++ Py.str_of_int
                               (word_index_len lib
                                  (fit_on_texts lib (Tokenizer lib false)
                                     [all_authorA; all_authorB]))))
              (logged
                 (EvPrint (lit "Total word count: " ++ lit " "
                             ++ Py.str_of_int
                                  (Z.of_nat
                                     (length
                                        (Py.split_on_scan [Py.SP] 0 []
                                           (all_authorA ++ lit " " ++ all_authorB))))))
                 (logged (EvTokenizerFit) w))).
    split; [reflexivity|].
    rewrite !console_logged, app_nil_r, <- app_assoc. cbn [app].
    by rewrite Hlen.
  - intros HA HB HneA HneB. rewrite <- Hlen.
    change (lit " " ++ all_authorB) with (Py.SP :: all_authorB).
    rewrite split_on_space_single_spaced.
    + rewrite split_scan_app_space by done. by rewrite length_app.
    + constructor.
    + right. destruct all_authorA as [|c a]; [done|].
      unfold single_spaced in HA. by apply andb_true_iff in HA as [? _].
    + destruct all_authorA as [|c a]; [done|]. destruct all_authorB as [|d b]; [done|].
      unfold single_spaced in HA, HB.
      apply andb_true_iff in HA as [_ HA]. apply andb_true_iff in HB as [HhB HB].
      apply spaces_inside_app; [done|].
      change (spaces_inside (Py.SP :: d :: b))
        with ((negb (Py.isspace Py.SP)
               || (bool_decide (Py.SP = Py.SP) && starts_nonspace (d :: b)))
              && spaces_inside (d :: b)).
      by rewrite bool_decide_eq_true_2, HhB, HB.
Qed.

Lemma X7_total_word_count_witness :
  (count_spaces (lit "to the people") + count_spaces (lit "we the") + 2)%nat
  = (length (Py.split (lit "to the people")) + length (Py.split (lit "we the")))%nat.
Proof.
  apply (proj2 (X7_total_word_count Demo.library (lit "to the people") (lit "we the")
                  Demo.start)); vm_compute; first [reflexivity | discriminate].
Defined.

(** ** Cell 9: rows and labels stay together *)

Section Rows.

Context {T : Type}.
Implicit Types (a b : ndarray T) (idx : list nat).

Lemma row_vstack_l a b (i : nat) :
  Np.wf a -> (i < Np.nrows a)%nat ->
  Np.row (Np.mk ((Np.nrows a + Np.nrows b)%nat, Np.ncols a) (Np.data a ++ Np.data b)) i
  = Np.row a i.
Proof.
  unfold Np.wf, Np.row, Np.ncols. cbn [Np.shape Np.data snd]. intros Hwf Hi.
  rewrite drop_app_le by (rewrite Hwf; unfold Np.ncols; nia).
  apply take_app_le. rewrite length_drop, Hwf. unfold Np.ncols. nia.
Qed.

Lemma row_vstack_r a b (j : nat) :
  Np.wf a -> Np.ncols a = Np.ncols b ->
  Np.row (Np.mk ((Np.nrows a + Np.nrows b)%nat, Np.ncols a) (Np.data a ++ Np.data b))
    (Np.nrows a + j)
  = Np.row b j.
Proof.
  unfold Np.wf, Np.row. intros Hwf Hc.
  replace (Np.ncols (Np.mk ((Np.nrows a + Np.nrows b)%nat, Np.ncols a)
                       (Np.data a ++ Np.data b))) with (Np.ncols a) by done.
  cbn [Np.data].
  replace ((Np.nrows a + j) * Np.ncols a)%nat
    with (length (Np.data a) + j * Np.ncols a)%nat by (rewrite Hwf; lia).
  by rewrite drop_app_add, Hc.
Qed.

Lemma take_rows_data_rows a idx :
  Forall (fun i => (i < Np.nrows a)%nat) idx ->
  Np.take_rows_data a idx = Ok (concat (map (Np.row a) idx)).
Proof.
  induction 1 as [|i idx Hi _ IH]; [done|]. cbn [Np.take_rows_data map concat].
  destruct (Nat.ltb_spec i (Np.nrows a)); [|lia]. by rewrite IH.
Qed.

Lemma take_rows_row a idx r (k i : nat) :
  Np.wf a -> Forall (fun i => (i < Np.nrows a)%nat) idx ->
  Np.take_rows a idx = Ok r -> idx !! k = Some i ->
  Np.row r k = Np.row a i.
Proof.
  intros Hwf Hidx Hr Hk. unfold Np.take_rows in Hr.
  rewrite take_rows_data_rows in Hr by done. cbn in Hr. injection Hr as <-.
  unfold Np.row at 1.
  change (Np.ncols (Np.mk (length idx, Np.ncols a) (concat (map (Np.row a) idx))))
    with (Np.ncols a).
  cbn [Np.data]. rewrite <- (app_nil_r (concat _)). apply concat_row.
  - apply Forall_forall. intros v Hv.
    apply list_elem_of_fmap in Hv as (j & -> & Hj).
    rewrite Forall_forall in Hidx. apply length_row; auto.
  - by rewrite list_lookup_fmap, Hk.
Qed.

End Rows.

Section Labels.

Context (lib : Library).

Lemma train_test_split_rows (X y : ndarray Z) :
  Np.wf X -> Np.wf y -> Np.nrows X = Np.nrows y ->
  exists X_train X_val y_train y_val,
    train_test_split lib X y = Ok (X_train, X_val, y_train, y_val)
    /\ Np.nrows X_train = length (split_indices lib (Np.nrows X)).1
    /\ Np.nrows X_val = length (split_indices lib (Np.nrows X)).2
    /\ (forall k i : nat,
          (split_indices lib (Np.nrows X)).1 !! k = Some i ->
          Np.row X_train k = Np.row X i /\ Np.row y_train k = Np.row y i)
    /\ (forall k i : nat,
          (split_indices lib (Np.nrows X)).2 !! k = Some i ->
          Np.row X_val k = Np.row X i /\ Np.row y_val k = Np.row y i).
Proof.
  intros HX Hy Hn. unfold train_test_split. rewrite <- Hn, Nat.eqb_refl.
  cbn [negb].
  set (idx := split_indices lib (Np.nrows X)).
  assert (H1 : Forall (fun i => (i < Np.nrows X)%nat) idx.1).
  { apply Forall_forall. intros i Hi. apply (split_indices_lt lib).
    apply elem_of_app. by left. }
  assert (H2 : Forall (fun i => (i < Np.nrows X)%nat) idx.2).
  { apply Forall_forall. intros i Hi. apply (split_indices_lt lib).
    apply elem_of_app. by right. }
  assert (H1' : Forall (fun i => (i < Np.nrows y)%nat) idx.1) by (by rewrite <- Hn).
  assert (H2' : Forall (fun i => (i < Np.nrows y)%nat) idx.2) by (by rewrite <- Hn).
  destruct (take_rows_ok X _ HX H1) as (Xt & EXt & HsXt & _).
  destruct (take_rows_ok X _ HX H2) as (Xv & EXv & HsXv & _).
  destruct (take_rows_ok y _ Hy H1') as (yt & Eyt & _).
  destruct (take_rows_ok y _ Hy H2') as (yv & Eyv & _).
  exists Xt, Xv, yt, yv. rewrite EXt, EXv, Eyt, Eyv. cbn [mbind result_bind].
  split_and!; try done.
  - unfold Np.nrows. by rewrite HsXt.
  - unfold Np.nrows. by rewrite HsXv.
  - intros k i Hk. split.
    + exact (take_rows_row X idx.1 Xt k i HX H1 EXt Hk).
    + exact (take_rows_row y idx.1 yt k i Hy H1' Eyt Hk).
  - intros k i Hk. split.
    + exact (take_rows_row X idx.2 Xv k i HX H2 EXv Hk).
    + exact (take_rows_row y idx.2 yv k i Hy H2' Eyv Hk).
Qed.

End Labels.

(** X8. Stacking and splitting keep every window with its label: for
    sequences of integers that [float64] holds exactly (none exceeds [2^53]
    in magnitude, as is the case for token ids), each row of [X_train] and
    of [X_val] is a window of 30 elements of author A's sequence whose row
    in [y_train] or [y_val] is [A], or a window of author B's sequence
    whose label row is [B]. *)
Theorem X8_rows_keep_their_labels (lib : Library) (seqA seqB : list Z) :
  (30 <= length seqA)%nat -> (30 <= length seqB)%nat ->
  Forall (fun x => Z.abs x <= 2 ^ 53) seqA ->
  Forall (fun x => Z.abs x <= 2 ^ 53) seqB ->
  exists XA yA XB yB X y X_train X_val y_train y_val,
    make_subsequences seqA A SEQ_LEN = Ok (XA, yA)
    /\ make_subsequences seqB B SEQ_LEN = Ok (XB, yB)
    /\ Np.vstack XA XB = Ok X /\ Np.vstack yA yB = Ok y
    /\ train_test_split lib X y = Ok (X_train, X_val, y_train, y_val)
    /\ (forall k : nat, (k < Np.nrows X_train)%nat ->
          labelled_window seqA seqB (Np.row X_train k) (Np.row y_train k))
    /\ (forall k : nat, (k < Np.nrows X_val)%nat ->
          labelled_window seqA seqB (Np.row X_val k) (Np.row y_val k)).
Proof.
  intros HA HB HeA HeB.
  pose proof (make_subsequences_ok seqA A SEQ_LEN) as EA.
  pose proof (make_subsequences_ok seqB B SEQ_LEN) as EB.
  unfold SEQ_LEN in EA, EB. cbn zeta in EA, EB.
  change (Z.to_nat 30) with 30%nat in EA, EB.
  specialize (EA ltac:(lia) ltac:(lia) (Forall_finite_exact _ HeA) eq_refl).
  specialize (EB ltac:(lia) ltac:(lia) (Forall_finite_exact _ HeB) eq_refl).
  rewrite map_float64_round_exact in EA, EB by done.
  change (Np.float64_round A) with A in EA.
  change (Np.float64_round B) with B in EB.
  set (nA := (S (length seqA) - 30)%nat) in *.
  set (nB := (S (length seqB) - 30)%nat) in *.
  destruct (filled_wf seqA A nA 30 ltac:(lia)) as [wXA wyA].
  destruct (filled_wf seqB B nB 30 ltac:(lia)) as [wXB wyB].
  pose proof (fun i => filled_row seqA A nA 30 i ltac:(lia)) as rowA.
  pose proof (fun i => filled_row seqB B nB 30 i ltac:(lia)) as rowB.
  destruct (filled seqA A nA 30 nA) as [XA yA] eqn:HfA.
  destruct (filled seqB B nB 30 nB) as [XB yB] eqn:HfB.
  cbn [fst snd] in *.
  assert (HsA : Np.shape XA = (nA, 30%nat) /\ Np.shape yA = (nA, 1%nat)).
  { unfold filled in HfA. by injection HfA as <- <-. }
  assert (HsB : Np.shape XB = (nB, 30%nat) /\ Np.shape yB = (nB, 1%nat)).
  { unfold filled in HfB. by injection HfB as <- <-. }
  destruct HsA as [HXA HyA], HsB as [HXB HyB].
  assert (HcX : Np.ncols XA = Np.ncols XB) by (unfold Np.ncols; by rewrite HXA, HXB).
  assert (Hcy : Np.ncols yA = Np.ncols yB) by (unfold Np.ncols; by rewrite HyA, HyB).
  assert (HnXA : Np.nrows XA = nA) by (unfold Np.nrows; by rewrite HXA).
  assert (HnyA : Np.nrows yA = nA) by (unfold Np.nrows; by rewrite HyA).
  assert (HnXB : Np.nrows XB = nB) by (unfold Np.nrows; by rewrite HXB).
  assert (HnyB : Np.nrows yB = nB) by (unfold Np.nrows; by rewrite HyB).
  pose proof (vstack_wf XA XB wXA wXB HcX) as wX.
  pose proof (vstack_wf yA yB wyA wyB Hcy) as wy.
  set (X := Np.mk ((Np.nrows XA + Np.nrows XB)%nat, Np.ncols XA)
              (Np.data XA ++ Np.data XB)) in *.
  set (y := Np.mk ((Np.nrows yA + Np.nrows yB)%nat, Np.ncols yA)
              (Np.data yA ++ Np.data yB)) in *.
  assert (HnX : Np.nrows X = (nA + nB)%nat)
    by (unfold X, Np.nrows; cbn [Np.shape fst]; by rewrite HXA, HXB).
  assert (Hrows : Np.nrows X = Np.nrows y).
  { unfold X, y, Np.nrows. cbn [Np.shape fst]. by rewrite HXA, HyA, HXB, HyB. }
  assert (Hstack : forall i : nat, (i < nA + nB)%nat ->
            labelled_window seqA seqB (Np.row X i) (Np.row y i)).
  { intros i Hi. destruct (decide (i < nA)%nat) as [Hlt|Hge].
    - left. exists i. destruct (rowA i Hlt) as [HrX Hry]. split; [lia|].
      unfold X, y. rewrite row_vstack_l, row_vstack_l by (done || lia). done.
    - right. exists (i - nA)%nat.
      destruct (rowB (i - nA)%nat ltac:(lia)) as [HrX Hry]. split; [lia|].
      split.
      + replace i with (Np.nrows XA + (i - nA))%nat at 1 by lia.
        unfold X. by rewrite row_vstack_r.
      + replace i with (Np.nrows yA + (i - nA))%nat by lia.
        unfold y. by rewrite row_vstack_r. }
  destruct (train_test_split_rows lib X y wX wy Hrows)
    as (Xt & Xv & yt & yv & Hsplit & HnXt & HnXv & Htrain & Hval).
  exists XA, yA, XB, yB, X, y, Xt, Xv, yt, yv.
  split_and!; try done.
  - by apply vstack_ok.
  - by apply vstack_ok.
  - intros k Hk. rewrite HnXt in Hk.
    destruct (lookup_lt_is_Some_2 _ _ Hk) as [i Hi].
    destruct (Htrain k i Hi) as [-> ->]. apply Hstack. rewrite <- HnX.
    apply (split_indices_lt lib). apply elem_of_app. left.
    by eapply list_elem_of_lookup_2.
  - intros k Hk. rewrite HnXv in Hk.
    destruct (lookup_lt_is_Some_2 _ _ Hk) as [i Hi].
    destruct (Hval k i Hi) as [-> ->]. apply Hstack. rewrite <- HnX.
    apply (split_indices_lt lib). apply elem_of_app. right.
    by eapply list_elem_of_lookup_2.
Qed.

Lemma X8_rows_keep_their_labels_witness :
  exists (X_train y_train : ndarray Z),
    labelled_window (Demo.ramp 33) (Demo.ramp 32) (Np.row X_train 4) (Np.row y_train 4).
Proof.
  destruct (X8_rows_keep_their_labels Demo.library (Demo.ramp 33) (Demo.ramp 32))
    as (XA & yA & XB & yB & X & y & Xt & Xv & yt & yv & H1 & H2 & H3 & H4 & H5 & H6 & _).
  - vm_compute. lia.
  - vm_compute. lia.
  - apply Forall_forall. intros x Hx.
    apply list_elem_of_fmap in Hx as (k & -> & Hk). apply elem_of_seq in Hk. lia.
  - apply Forall_forall. intros x Hx.
    apply list_elem_of_fmap in Hx as (k & -> & Hk). apply elem_of_seq in Hk. lia.
  - exists Xt, yt. apply H6.
    vm_compute in H1. injection H1 as <- <-.
    vm_compute in H2. injection H2 as <- <-.
    vm_compute in H3. injection H3 as <-.
    vm_compute in H4. injection H4 as <-.
    vm_compute in H5. injection H5 as <- _ _ _.
    vm_compute. lia.
Defined.

(** ** Cell 15: one line per paper, in the order of the listing *)

(** X9. The vote-predict loop reports the unknown papers one by one, in
    the order in which [os.listdir] gives them.  When cell 15 returns, the
    console has gained exactly one report line for each entry of
    [./papers/Unknown/]; when it raises, the console has gained the report
    lines of the entries before the one that failed and nothing else, and
    nothing at all when the directory could not be listed. *)
Theorem X9_one_report_per_paper (lib : Library) (t : tokenizer lib)
    (m : model lib) (w : world) :
  match cell15 lib t m w with
  | (w', Ok _) =>
      exists names lines,
        files w !! dir_Unknown = Some (Dir names)
        /\ Forall2 (paper_line lib t m (files w)) names lines
        /\ console w' = console w ++ lines
  | (w', Raise _) =>
      match files w !! dir_Unknown with
      | Some (Dir names) =>
          exists pre x post lines,
            names = pre ++ x :: post
            /\ Forall2 (paper_line lib t m (files w)) pre lines
            /\ console w' = console w ++ lines
      | _ => console w' = console w
      end
  end.
Proof.
  unfold cell15, listdir. unfold mbind at 1, M_bind at 1.
  destruct (files w !! dir_Unknown) as [[content| |names|]|] eqn:Hdir;
    try (by rewrite console_logged, app_nil_r).
  pose proof (attribute_loop lib t m names (logged (EvListdir dir_Unknown) w)) as H.
  rewrite console_logged, app_nil_r in H.
  change (files (logged (EvListdir dir_Unknown) w)) with (files w) in H.
  destruct (for_M _ names tt _) as [w' [[]|e]]; [|done].
  destruct H as (lines & Hall & Hc). by exists names, lines.
Qed.

(** ** Cell 15: the name of the paper in the report *)

Lemma remove_absent (a : Z) (p s r : str) :
  Forall (fun c => c <> a) s ->
  Py.replace (a :: p) [] (s ++ r) = s ++ Py.replace (a :: p) [] r.
Proof.
  induction 1 as [|c s Hc _ IH]; [done|].
  change ((c :: s) ++ r) with (c :: (s ++ r)).
  rewrite remove_skip, IH; [done|].
  cbn [Py.startswith]. by rewrite decide_False by congruence.
Qed.

(** X10. For a file named [paper_<n>.txt], where [n] has no ['p'] and no
    ['.'] (a number, as in the papers directories), the report names the
    paper by [n]: the two [replace] calls take away exactly the prefix
    [paper_] and the extension [.txt]. *)
Theorem X10_report_names_the_paper (n : str) (votes_for_authorA votes_for_authorB : Z) :
  Forall (fun c => c <> 112 /\ c <> 46) n ->
  Py.replace (lit ".txt") [] (Py.replace (lit "paper_") [] (lit "paper_" ++ n ++ lit ".txt"))
  = n
  /\ report (lit "paper_" ++ n ++ lit ".txt") votes_for_authorA votes_for_authorB
     = lit "Paper " ++ n ++ lit " is predicted to have been written by "
         ++ verdict votes_for_authorA votes_for_authorB
         ++ lit ", " ++ Py.str_of_int (Z.max votes_for_authorA votes_for_authorB)
         ++ lit " to " ++ Py.str_of_int (Z.min votes_for_authorA votes_for_authorB).
Proof.
  intros Hn.
  assert (Hp : Forall (fun c => c <> 112) n)
    by (eapply Forall_impl; [exact Hn|]; by intros c [? _]).
  assert (Hd : Forall (fun c => c <> 46) n)
    by (eapply Forall_impl; [exact Hn|]; by intros c [_ ?]).
  assert (E : Py.replace (lit ".txt") []
                (Py.replace (lit "paper_") [] (lit "paper_" ++ n ++ lit ".txt")) = n).
  { rewrite remove_match by done.
    change (lit "paper_") with (112 :: lit "aper_").
    rewrite (remove_absent _ _ n (lit ".txt") Hp).
    change (Py.replace (112 :: lit "aper_") [] (lit ".txt")) with (lit ".txt").
    change (lit ".txt") with (46 :: lit "txt").
    rewrite (remove_absent _ _ n _ Hd).
    change (Py.replace (46 :: lit "txt") [] (46 :: lit "txt"))
      with (@nil Z).
    apply app_nil_r. }
  split; [exact E|]. unfold report. by rewrite E.
Qed.

Lemma X10_report_names_the_paper_witness :
  report (lit "paper_" ++ lit "49" ++ lit ".txt") 3 8
  = lit "Paper 49 is predicted to have been written by Author B, 8 to 3".
Proof.
  destruct (X10_report_names_the_paper (lit "49") 3 8) as [_ H].
  - constructor; [split; discriminate|]. constructor; [split; discriminate|].
    constructor.
  - rewrite H. vm_compute. reflexivity.
Defined.

(** ** [preprocess_text]: the case of the letters and the first line *)

Section Lower.

Implicit Types (s a r old new cur : str) (c d n : Z).

(** Induction on a string along the occurrences of [n] *)
Lemma first_occurrence_ind n (P : str -> Prop) :
  (forall s, n ∉ s -> P s) ->
  (forall a r, n ∉ a -> (forall s', (length s' <= length r)%nat -> P s') ->
               P (a ++ n :: r)) ->
  forall s, P s.
Proof.
  intros Hfree Hocc s.
  induction s as [s IH] using (induction_ltof1 _ (@length Z)). unfold ltof in IH.
  destruct (decide (n ∈ s)) as [Hin|Hnot]; [|by apply Hfree].
  apply list_elem_of_split_l in Hin as (a & r & -> & Ha).
  apply Hocc; [done|]. intros s' Hs'. apply IH. rewrite length_app. cbn. lia.
Qed.

Lemma lower_head_sep s n :
  is_sep n = true -> head (Py.lower s) = Some n -> head s = Some n.
Proof.
  intros Hn. destruct s as [|c s]; [done|]. unfold Py.lower. cbn [Py.lower_scan].
  pose proof (lower_at_nonempty [] c s) as Hne.
  destruct (Py.lower_at [] c s) as [|d l] eqn:E; [done|]. cbn. intros [= ->].
  f_equal. apply (lower_at_sep [] c s n Hn). rewrite E. by left.
Qed.

Lemma lower_cons_sep n r : is_sep n = true -> Py.lower (n :: r) = n :: Py.lower r.
Proof. intros Hn. apply (lower_app_sep [] n r Hn). Qed.

Lemma lower_not_sep s n : is_sep n = true -> n ∉ s -> n ∉ Py.lower s.
Proof. intros Hn Hs Hl. by apply Hs, lower_sep. Qed.

(** *** Universal newlines *)

Lemma universal_newlines_app a r :
  Py.CR ∉ a -> Py.universal_newlines (a ++ r) = a ++ Py.universal_newlines r.
Proof.
  induction a as [|c a IH]; intros Ha; [done|].
  cbn [app Py.universal_newlines].
  destruct (decide (c = Py.CR)) as [->|_]; [exfalso; apply Ha; left|].
  rewrite IH; [done|]. intros ?. apply Ha. by right.
Qed.

Lemma universal_newlines_CR r :
  Py.universal_newlines (Py.CR :: r)
  = Py.LF :: Py.universal_newlines
               (match r with d :: r' => if decide (d = Py.LF) then r' else r | [] => [] end).
Proof.
  cbn [Py.universal_newlines]. rewrite decide_True by done.
  destruct r as [|d r']; [done|].
  destruct (decide (d = Py.LF)) as [->|Hd]; [|done].
  cbn [Py.universal_newlines]. by rewrite decide_False by done.
Qed.

Lemma universal_newlines_lower s :
  Py.universal_newlines (Py.lower s) = Py.lower (Py.universal_newlines s).
Proof.
  induction s as [s Hs | a r Ha IH] using (first_occurrence_ind Py.CR).
  - rewrite !universal_newlines_plain; [done|done|by apply lower_not_sep].
  - rewrite lower_app_sep by done.
    rewrite !universal_newlines_app by (done || by apply lower_not_sep).
    rewrite !universal_newlines_CR. rewrite lower_app_sep by done. do 2 f_equal.
    destruct r as [|d r'].
    + done.
    + destruct (decide (d = Py.LF)) as [->|Hd].
      * rewrite lower_cons_sep by done. rewrite decide_True by done.
        apply IH. cbn. lia.
      * destruct (Py.lower (d :: r')) as [|e l] eqn:E.
        { by destruct (lower_nonempty (d :: r')). }
        destruct (decide (e = Py.LF)) as [->|He].
        { pose proof (lower_head_sep (d :: r') Py.LF eq_refl) as H.
          rewrite E in H. specialize (H eq_refl). by injection H. }
        rewrite <- E. by apply IH.
Qed.

(** *** Lines *)

Lemma readlines_scan_last cur a :
  Py.LF ∉ a ->
  Py.readlines_scan cur a = match cur ++ a with [] => [] | _ :: _ => [cur ++ a] end.
Proof.
  revert cur. induction a as [|c a IH]; intros cur Ha.
  - cbn. rewrite app_nil_r. by destruct cur.
  - cbn [Py.readlines_scan].
    destruct (decide (c = Py.LF)) as [->|_]; [exfalso; apply Ha; left|].
    rewrite IH by (intros ?; apply Ha; by right). rewrite <- app_assoc. cbn [app].
    by destruct (cur ++ c :: a) eqn:E; [by destruct cur|].
Qed.

Lemma readlines_scan_lower s :
  Py.readlines_scan [] (Py.lower s) = map Py.lower (Py.readlines_scan [] s).
Proof.
  induction s as [s Hs | a r Ha IH] using (first_occurrence_ind Py.LF).
  - rewrite !readlines_scan_last by (done || by apply lower_not_sep).
    cbn [app]. destruct s as [|c s]; [done|].
    pose proof (lower_nonempty (c :: s) ltac:(done)).
    destruct (Py.lower (c :: s)) as [|e l] eqn:E; [done|].
    cbn [map]. by rewrite E.
  - rewrite lower_app_sep by done.
    rewrite !readlines_scan_first by (done || by apply lower_not_sep).
    cbn [app map]. f_equal; [|by apply IH].
    change (a ++ [Py.LF]) with (a ++ Py.LF :: []).
    by rewrite lower_app_sep.
Qed.

Lemma readlines_lower s : Py.readlines (Py.lower s) = map Py.lower (Py.readlines s).
Proof.
  unfold Py.readlines. rewrite universal_newlines_lower.
  apply readlines_scan_lower.
Qed.

(** *** Joining and replacing *)

Lemma join_lower (ls : list str) :
  Py.join [Py.SP] (map Py.lower ls) = Py.lower (Py.join [Py.SP] ls).
Proof.
  induction ls as [|l1 [|l2 ls] IH]; [done|done|].
  change (map Py.lower (l1 :: l2 :: ls))
    with (Py.lower l1 :: Py.lower l2 :: map Py.lower ls).
  rewrite !join_cons. cbn [app]. rewrite lower_app_sep by done.
  do 2 f_equal. exact IH.
Qed.

Lemma tail_map {X Y} (f : X -> Y) (l : list X) : tail (map f l) = map f (tail l).
Proof. by destruct l. Qed.

Lemma replace_app_absent c old new a r :
  c ∉ a ->
  Py.replace (c :: old) new (a ++ r) = a ++ Py.replace (c :: old) new r.
Proof.
  intros Ha. induction a as [|d a IH]; [done|].
  unfold Py.replace in *. cbn [app Py.replace_scan Py.startswith].
  rewrite decide_False by (intros ->; apply Ha; by left).
  rewrite IH; [done|]. intros ?. apply Ha. by right.
Qed.

Lemma replace_absent c old new s :
  c ∉ s -> Py.replace (c :: old) new s = s.
Proof.
  intros Hs. rewrite <- (app_nil_r s) at 1.
  rewrite replace_app_absent by done. cbn. by rewrite app_nil_r.
Qed.

Lemma replace_newline_lower s :
  Py.replace [Py.LF] [Py.SP] (Py.lower s) = Py.lower (Py.replace [Py.LF] [Py.SP] s).
Proof.
  induction s as [s Hs | a r Ha IH] using (first_occurrence_ind Py.LF).
  - by rewrite !replace_absent by (done || by apply lower_not_sep).
  - rewrite lower_app_sep by done.
    rewrite !replace_app_absent by (done || by apply lower_not_sep).
    assert (forall r', Py.replace [Py.LF] [Py.SP] (Py.LF :: r')
                       = Py.SP :: Py.replace [Py.LF] [Py.SP] r') as E by done.
    rewrite !E, lower_app_sep by done. do 2 f_equal. by apply IH.
Qed.

Lemma replace_blanks_cons r :
  Py.replace [Py.SP; Py.SP] [Py.SP] (Py.SP :: r)
  = Py.SP :: Py.replace [Py.SP; Py.SP] [Py.SP]
               (match r with d :: r' => if decide (d = Py.SP) then r' else r | [] => [] end).
Proof.
  unfold Py.replace. cbn [Py.replace_scan Py.startswith].
  rewrite decide_True by done. destruct r as [|d r']; [done|].
  destruct (decide (Py.SP = d)) as [<-|Hd].
  - rewrite decide_True by done. done.
  - by rewrite decide_False by congruence.
Qed.

Lemma replace_blanks_lower s :
  Py.replace [Py.SP; Py.SP] [Py.SP] (Py.lower s)
  = Py.lower (Py.replace [Py.SP; Py.SP] [Py.SP] s).
Proof.
  induction s as [s Hs | a r Ha IH] using (first_occurrence_ind Py.SP).
  - by rewrite !replace_absent by (done || by apply lower_not_sep).
  - rewrite lower_app_sep by done.
    rewrite !replace_app_absent by (done || by apply lower_not_sep).
    rewrite !replace_blanks_cons, lower_app_sep by done. do 2 f_equal.
    destruct r as [|d r'].
    + done.
    + destruct (decide (d = Py.SP)) as [->|Hd].
      * rewrite lower_cons_sep by done. rewrite decide_True by done.
        apply IH. cbn. lia.
      * destruct (Py.lower (d :: r')) as [|e l] eqn:E.
        { by destruct (lower_nonempty (d :: r')). }
        destruct (decide (e = Py.SP)) as [->|He].
        { pose proof (lower_head_sep (d :: r') Py.SP eq_refl) as H.
          rewrite E in H. specialize (H eq_refl). by injection H. }
        rewrite <- E. by apply IH.
Qed.

Lemma lowered_text_lower content :
  lowered_text (Py.lower content) = lowered_text content.
Proof.
  unfold lowered_text, lowered_lines. rewrite readlines_lower, tail_map.
  change (lit " ") with [Py.SP]. change (lit "  ") with [Py.SP; Py.SP].
  rewrite join_lower, replace_newline_lower, replace_blanks_lower.
  apply lower_idemp.
Qed.

End Lower.

(** X11. [preprocess_text] does not see the case of the letters: two
    files whose contents are equal after [.lower()] give the same text
    (upper-case line ends, blanks and names are treated like the
    lower-case ones). *)
Theorem X11_preprocess_text_ignores_case (w1 w2 : world)
    (path1 path2 content1 content2 : str) :
  files w1 !! path1 = Some (File content1) ->
  files w2 !! path2 = Some (File content2) ->
  Py.lower content1 = Py.lower content2 ->
  (preprocess_text path1 w1).2 = (preprocess_text path2 w2).2
  /\ (preprocess_text path1 w1).2 = Ok (preprocess_content (Py.lower content1)).
Proof.
  intros H1 H2 Hl.
  rewrite (preprocess_text_run _ _ _ H1), (preprocess_text_run _ _ _ H2).
  cbn [snd]. unfold preprocess_content, text_of_lines.
  fold (lowered_text content1) (lowered_text content2)
    (lowered_text (Py.lower content1)).
  rewrite <- (lowered_text_lower content1), <- (lowered_text_lower content2), Hl.
  split; [done|]. by rewrite lowered_text_lower.
Qed.

Lemma X11_preprocess_text_ignores_case_witness :
  (preprocess_text (lit "a.txt")
     (mkWorld {[ lit "a.txt" := File (lit "Title
To The People BY HAMILTON") ]} 0 [] [])).2
  = (preprocess_text (lit "b.txt")
     (mkWorld {[ lit "b.txt" := File (lit "title
to the PEOPLE by Hamilton") ]} 0 [] [])).2.
Proof.
  destruct (X11_preprocess_text_ignores_case
           (mkWorld {[ lit "a.txt" := File (lit "Title
To The People BY HAMILTON") ]} 0 [] [])
           (mkWorld {[ lit "b.txt" := File (lit "title
to the PEOPLE by Hamilton") ]} 0 [] [])
           (lit "a.txt") (lit "b.txt")
           (lit "Title
To The People BY HAMILTON")
           (lit "title
to the PEOPLE by Hamilton")) as [H _].
  - vm_compute. reflexivity.
  - vm_compute. reflexivity.
  - vm_compute. reflexivity.
  - exact H.
Defined.

(** X12. [lines[1:]] drops the first line of the file: the text does not
    depend on what the first line holds, and a file of one line, without
    a line end, gives the empty text. *)
Theorem X12_first_line_is_dropped (first_line other_first_line rest : str) :
  Py.LF ∉ first_line -> Py.CR ∉ first_line ->
  Py.LF ∉ other_first_line -> Py.CR ∉ other_first_line ->
  preprocess_content (first_line ++ Py.LF :: rest)
  = preprocess_content (other_first_line ++ Py.LF :: rest)
  /\ preprocess_content first_line = [].
Proof.
  intros Hl Hc Hl' Hc'. unfold preprocess_content, text_of_lines, lowered_text, lowered_lines. cbn zeta.
  rewrite !readlines_first by done. split; [done|].
  by rewrite readlines_single.
Qed.

Lemma X12_first_line_is_dropped_witness :
  preprocess_content (lit "FEDERALIST No. 10" ++ Py.LF :: lit "to the people")
  = preprocess_content (lit "by hamilton" ++ Py.LF :: lit "to the people")
  /\ preprocess_content (lit "FEDERALIST No. 10") = [].
Proof.
  apply (X12_first_line_is_dropped (lit "FEDERALIST No. 10") (lit "by hamilton")
           (lit "to the people"));
    vm_compute; intros H; repeat (apply elem_of_cons in H as [H|H]; [discriminate|]);
    by apply elem_of_nil in H.
Defined.
